(** * rtlive.plotting: a shallow embedding and its verified properties

    The development follows [rtlive/plotting.py]:
    - [plot_vlines]               (the event annotator),
    - [plot_testcount_forecast]   (the forecast detail view),
    - [plot_testcount_components] (the forecast components view),
    - [plot_density_curves]       (the four-panel trend dashboard).

    Conventions of the embedding.
    - Python floats are exact rationals ([Q]); binary64 rounding and
      overflow are outside the model.
    - A character is a code point below 256; a [str] is a [string].
    - matplotlib axes are mutable objects: they live in a store indexed by
      handles, and every plotting function is a state transformer on it.
      An exception leaves the store as it was when it was raised.
    - Calls into pymc3, fbprophet and matplotlib's drawing primitives are
      recorded as artists on the axes they draw into. *)

From Stdlib Require Import List String Ascii Bool Arith ZArith QArith Lia Lqa.
Import ListNotations.

Set Implicit Arguments.

#[local] Open Scope nat_scope.
#[local] Open Scope list_scope.

(** ** Outcomes of Python calls *)

Inductive exception : Type :=
| ValueError (msg : string)
| IndexError (msg : string).

Inductive outcome (A : Type) : Type :=
| Returned (a : A)
| Raised (e : exception)
| OutOfFuel.

Arguments Returned {A} a.
Arguments Raised {A} e.
Arguments OutOfFuel {A}.

(** ** Python's [str] helpers and [textwrap.shorten] *)

Module textwrap.

Definition text := list ascii.

Definition in_range (lo hi n : nat) : bool := (lo <=? n) && (n <=? hi).

(** [str.isspace] for one character: what [str.strip] and [str.split]
    without argument treat as whitespace. *)
Definition str_isspace (c : ascii) : bool :=
  let n := nat_of_ascii c in
  in_range 9 13 n || in_range 28 32 n || (n =? 133) || (n =? 160).

(** [_whitespace = '\t\n\x0b\x0c\r '] *)
Definition _whitespace (c : ascii) : bool :=
  let n := nat_of_ascii c in
  in_range 9 13 n || (n =? 32).

(** The regular-expression classes [\d], [\w], [letter = [^\d\W]] and
    [word_punct]: a word character, or one of ! & . , ? and the two quotes. *)
Definition re_digit (c : ascii) : bool := in_range 48 57 (nat_of_ascii c).

Definition re_word (c : ascii) : bool :=
  let n := nat_of_ascii c in
  in_range 48 57 n || in_range 65 90 n || (n =? 95) || in_range 97 122 n
  || (n =? 170) || in_range 178 179 n || (n =? 181) || in_range 185 186 n
  || in_range 188 190 n || in_range 192 214 n || in_range 216 246 n
  || in_range 248 255 n.

Definition letter (c : ascii) : bool := re_word c && negb (re_digit c).

Definition word_punct (c : ascii) : bool :=
  let n := nat_of_ascii c in
  re_word c || (n =? 33) || (n =? 34) || (n =? 39) || (n =? 38)
  || (n =? 46) || (n =? 44) || (n =? 63).

Definition is_hyphen (c : ascii) : bool := Ascii.eqb c "-"%char.

Definition space : ascii := " "%char.
Definition tab : ascii := ascii_of_nat 9.
Definition newline : ascii := ascii_of_nat 10.
Definition carriage_return : ascii := ascii_of_nat 13.

(** [s.strip() == ''] *)
Definition is_blank (s : text) : bool := forallb str_isspace s.

(** [str.lstrip], [str.rstrip], [str.strip] *)
Fixpoint lstrip (s : text) : text :=
  match s with
  | [] => []
  | c :: s' => if str_isspace c then lstrip s' else s
  end.

Definition rstrip (s : text) : text := rev (lstrip (rev s)).

Definition strip (s : text) : text := rstrip (lstrip s).

(** [str.split()]: the maximal runs of non-whitespace characters.  [cur]
    holds the characters of the word being read, last one first. *)
Fixpoint split_words (cur : text) (s : text) : list text :=
  match s with
  | [] => match cur with [] => [] | _ => [rev cur] end
  | c :: s' =>
      if str_isspace c
      then match cur with
           | [] => split_words [] s'
           | _ => rev cur :: split_words [] s'
           end
      else split_words (c :: cur) s'
  end.

Definition split (s : text) : list text := split_words [] s.

(** [sep.join(words)] *)
Fixpoint join (sep : text) (words : list text) : text :=
  match words with
  | [] => []
  | [w] => w
  | w :: ws => w ++ sep ++ join sep ws
  end.

(** [str.expandtabs(8)]; [col] is the current column. *)
Fixpoint expandtabs_from (tabsize col : nat) (s : text) : text :=
  match s with
  | [] => []
  | c :: s' =>
      if Ascii.eqb c tab then
        if 0 <? tabsize
        then let incr := tabsize - col mod tabsize in
             repeat space incr ++ expandtabs_from tabsize (col + incr) s'
        else expandtabs_from tabsize col s'
      else if Ascii.eqb c newline || Ascii.eqb c carriage_return
           then c :: expandtabs_from tabsize 0 s'
           else c :: expandtabs_from tabsize (col + 1) s'
  end.

(** [text.translate(unicode_whitespace_trans)] *)
Definition translate_whitespace (s : text) : text :=
  map (fun c => if _whitespace c then space else c) s.

(** [TextWrapper._munge_whitespace] with [expand_tabs], [tabsize = 8] and
    [replace_whitespace] at their defaults. *)
Definition _munge_whitespace (s : text) : text :=
  translate_whitespace (expandtabs_from 8 0 s).

(** *** [wordsep_re]

    A match of [wordsep_re] is tried at a position of the text: [prev] is
    the text before the position, nearest character first (for the
    look-behinds), [rest] the text from the position on. *)

Fixpoint count_while (p : ascii -> bool) (s : text) : nat :=
  match s with
  | c :: s' => if p c then S (count_while p s') else 0
  | [] => 0
  end.

(** Look-ahead [(?=-{2,}\w)]. *)
Definition ahead_em_dash (rest : text) : bool :=
  let n := count_while is_hyphen rest in
  (2 <=? n) && match skipn n rest with c :: _ => re_word c | [] => false end.

(** Look-behind [(?<=word_punct)]. *)
Definition behind_word_punct (prev : text) : bool :=
  match prev with c :: _ => word_punct c | [] => false end.

(** [-(?: (?<=lt{2}-) | (?<=lt-lt-)) (?= lt -? lt)] at a position whose
    next character has to be the hyphen. *)
Definition hyphen_break (prev rest : text) : bool :=
  match rest with
  | h :: after =>
      is_hyphen h
      && (match prev with
          | c1 :: c2 :: more =>
              (letter c1 && letter c2)
              || (letter c1 && is_hyphen c2
                  && match more with c3 :: _ => letter c3 | [] => false end)
          | _ => false
          end)
      && (match after with
          | a1 :: a2 :: more =>
              letter a1
              && (if is_hyphen a2
                  then match more with a3 :: _ => letter a3 | [] => false end
                  else letter a2)
          | _ => false
          end)
  | [] => false
  end.

(** The lazy [nowhitespace+?] of the word alternative, after its first
    character: how many more characters the match takes. *)
Fixpoint word_end (prev rest : text) : nat :=
  if hyphen_break prev rest then 1
  else match rest with
       | [] => 0
       | c :: rest' =>
           if _whitespace c then 0
           else if behind_word_punct prev && ahead_em_dash rest then 0
           else S (word_end (c :: prev) rest')
       end.

(** Length of the match of [wordsep_re] at a position with text left. *)
Definition wordsep_match (prev rest : text) : nat :=
  match rest with
  | [] => 0
  | c :: rest' =>
      if _whitespace c then S (count_while _whitespace rest')
      else if behind_word_punct prev && ahead_em_dash rest
           then count_while is_hyphen rest
           else S (word_end (c :: prev) rest')
  end.

(** [wordsep_re.split(text)] without its empty strings: the successive
    matches.  Every match takes at least one character, so [length rest]
    rounds are enough. *)
Fixpoint split_from (fuel : nat) (prev rest : text) : list text :=
  match rest with
  | [] => []
  | _ :: _ =>
      match fuel with
      | 0 => [rest]
      | S fuel' =>
          let n := wordsep_match prev rest in
          firstn n rest
          :: split_from fuel' (rev (firstn n rest) ++ prev) (skipn n rest)
      end
  end.

(** [TextWrapper._split] with [break_on_hyphens] at its default. *)
Definition _split (s : text) : list text := split_from (List.length s) [] s.

Definition _split_chunks (s : text) : list text := _split (_munge_whitespace s).

(** *** [TextWrapper._wrap_chunks]

    The wrapper object [textwrap.shorten] builds: [width], [max_lines] and
    [placeholder] are set by the caller, every other attribute keeps its
    default ([initial_indent = subsequent_indent = ''], [drop_whitespace],
    [break_long_words], [break_on_hyphens]). *)
Record TextWrapper : Type := mkTextWrapper {
  width : nat;
  max_lines : option nat;
  placeholder : text
}.

Definition total_len (chunks : list text) : nat :=
  list_sum (map (@List.length ascii) chunks).

(** The stack of reversed chunks is the list of the chunks still to place,
    in reading order: its top [chunks[-1]] is the head.  [cur_line] is kept
    last chunk first, so [cur_line[-1]] is its head. *)

(** [while chunks: ... if cur_len + l <= width: cur_line.append(chunks.pop())] *)
Fixpoint fill_line (width : nat) (chunks cur_line : list text) (cur_len : nat)
  : list text * list text * nat :=
  match chunks with
  | [] => (chunks, cur_line, cur_len)
  | chunk :: chunks' =>
      let l := List.length chunk in
      if cur_len + l <=? width
      then fill_line width chunks' (chunk :: cur_line) (cur_len + l)
      else (chunks, cur_line, cur_len)
  end.

(** [chunk.rfind('-', 0, stop)] *)
Fixpoint find_last_hyphen (chunk : text) (i stop : nat) : option nat :=
  match chunk with
  | [] => None
  | c :: chunk' =>
      if stop <=? i then None
      else match find_last_hyphen chunk' (S i) stop with
           | Some j => Some j
           | None => if is_hyphen c then Some i else None
           end
  end.

(** [_handle_long_word], for the chunk on top of the stack. *)
Definition _handle_long_word (chunk : text) (chunks cur_line : list text)
    (cur_len width : nat) : list text * list text :=
  let space_left := if width <? 1 then 1 else width - cur_len in
  let stop :=
    if space_left <? List.length chunk then
      match find_last_hyphen chunk 0 space_left with
      | Some hyphen =>
          if (0 <? hyphen) && existsb (fun c => negb (is_hyphen c)) (firstn hyphen chunk)
          then hyphen + 1
          else space_left
      | None => space_left
      end
    else space_left in
  (skipn stop chunk :: chunks, firstn stop chunk :: cur_line).

(** The loop that drops chunks off the end of the line until the
    placeholder fits; [None] when it runs to its [else] clause. *)
Fixpoint place_placeholder (w : TextWrapper) (cur_line : list text) (cur_len : nat)
  : option text :=
  match cur_line with
  | [] => None
  | final :: before =>
      if negb (is_blank final) && (cur_len + List.length (placeholder w) <=? width w)
      then Some (List.concat (rev (placeholder w :: cur_line)))
      else place_placeholder w before (cur_len - List.length final)
  end.

(** [lines[-1] = ...] *)
Definition set_last (lines : list text) (line : text) : list text :=
  removelast lines ++ [line].

(** The first part of a round of the main loop: the chunks that fit are
    moved to [cur_line], a chunk too long for any line is broken, and
    whitespace at the end of the line is dropped.  Returns the chunks left,
    [cur_line] and [cur_len]. *)
Definition build_line (w : TextWrapper) (chunks : list text)
  : list text * list text * nat :=
  let '(chunks, cur_line, cur_len) := fill_line (width w) chunks [] 0 in
  let '(chunks, cur_line, cur_len) :=
    match chunks with
    | chunk :: chunks' =>
        if width w <? List.length chunk
        then let '(chunks, cur_line) :=
               _handle_long_word chunk chunks' cur_line cur_len (width w) in
             (chunks, cur_line, total_len cur_line)
        else (chunks, cur_line, cur_len)
    | [] => (chunks, cur_line, cur_len)
    end in
  match cur_line with
  | final :: before =>
      if is_blank final
      then (chunks, before, cur_len - List.length final)
      else (chunks, cur_line, cur_len)
  | [] => (chunks, cur_line, cur_len)
  end.

(** The test that lets a finished line be stored: no limit on the lines,
    or a line to spare, or nothing left to place but whitespace. *)
Definition line_allowed (w : TextWrapper) (chunks lines : list text)
    (cur_len : nat) : bool :=
  match max_lines w with
  | None => true
  | Some m => List.length lines + 1 <? m
  end
  || ((match chunks with
       | [] => true
       | [only] => is_blank only
       | _ => false
       end)
      && (cur_len <=? width w)).

(** The last line of a text that is cut short. *)
Definition truncated_lines (w : TextWrapper) (lines cur_line : list text)
    (cur_len : nat) : list text :=
  match place_placeholder w cur_line cur_len with
  | Some line => lines ++ [line]
  | None =>
      let prev_line := rstrip (List.last lines []) in
      if negb (Nat.eqb (List.length lines) 0)
         && (List.length prev_line + List.length (placeholder w) <=? width w)
      then set_last lines (prev_line ++ placeholder w)
      else lines ++ [lstrip (placeholder w)]
  end.

(** The main loop of [_wrap_chunks]: one round builds one line. *)
Fixpoint wrap_loop (fuel : nat) (w : TextWrapper) (chunks lines : list text)
  : outcome (list text) :=
  match chunks with
  | [] => Returned lines
  | first :: after =>
      match fuel with
      | 0 => OutOfFuel
      | S fuel' =>
          let chunks :=
            if is_blank first && negb (Nat.eqb (List.length lines) 0)
            then after else chunks in
          let '(chunks, cur_line, cur_len) := build_line w chunks in
          match cur_line with
          | [] => wrap_loop fuel' w chunks lines
          | _ :: _ =>
              if line_allowed w chunks lines cur_len
              then wrap_loop fuel' w chunks (lines ++ [List.concat (rev cur_line)])
              else Returned (truncated_lines w lines cur_line cur_len)
          end
      end
  end.

Definition _wrap_chunks (w : TextWrapper) (chunks : list text)
  : outcome (list text) :=
  if width w <=? 0
  then Raised (ValueError "invalid width (must be > 0)")
  else
    if match max_lines w with
       | Some _ => width w <? List.length (lstrip (placeholder w))
       | None => false
       end
    then Raised (ValueError "placeholder too large for max width")
    else wrap_loop (S (List.length chunks + total_len chunks)) w chunks [].

(** [TextWrapper.wrap] with [fix_sentence_endings] at its default. *)
Definition wrap (w : TextWrapper) (s : text) : outcome (list text) :=
  _wrap_chunks w (_split_chunks s).

(** [TextWrapper.fill] *)
Definition fill (w : TextWrapper) (s : text) : outcome text :=
  match wrap w s with
  | Returned lines => Returned (join [newline] lines)
  | Raised e => Raised e
  | OutOfFuel => OutOfFuel
  end.

(** [' '.join(text.strip().split())] *)
Definition collapse (s : text) : text := join [space] (split (strip s)).

(** [textwrap.shorten(text, width, placeholder=placeholder)] *)
Definition shorten_text (s : text) (width : nat) (placeholder : text)
  : outcome text :=
  fill (mkTextWrapper width (Some 1) placeholder) (collapse s).

Definition shorten (s : string) (width : nat) (placeholder : string)
  : outcome string :=
  match shorten_text (list_ascii_of_string s) width
                     (list_ascii_of_string placeholder) with
  | Returned t => Returned (string_of_list_ascii t)
  | Raised e => Raised e
  | OutOfFuel => OutOfFuel
  end.

End textwrap.

(** ** Time points *)

(** A time point ([datetime.datetime], [pandas.Timestamp], [numpy.datetime64])
    is its number of nanoseconds since 1970-01-01T00:00. *)
Definition Timestamp : Type := Z.

Definition ns_per_day : Z := 86400000000000.

(** Day number of a date of the proleptic Gregorian calendar. *)
Definition days_from_civil (y m d : Z) : Z :=
  let y' := (if m <=? 2 then y - 1 else y)%Z in
  let era := (y' / 400)%Z in
  let yoe := (y' - era * 400)%Z in
  let doy := ((153 * (if m <=? 2 then m + 9 else m - 3) + 2) / 5 + d - 1)%Z in
  let doe := (yoe * 365 + yoe / 4 - yoe / 100 + doy)%Z in
  (era * 146097 + doe - 719468)%Z.

(** Midnight of the given day, as [pandas.to_datetime('YYYY-MM-DD')] and
    [datetime.datetime(Y, M, D)] give it. *)
Definition to_datetime (y m d : Z) : Timestamp :=
  (days_from_civil y m d * ns_per_day)%Z.

(** What [ax.xaxis.convert_xunits] and [set_xlim] make of a time point:
    matplotlib's date number, in days since the epoch. *)
Definition date2num (t : Timestamp) : Q := (t # 86400000000000)%Q.

(** ** The data the plotting functions consume *)

(** [preprocessing.NamedDates]: a [dict] from dates to labels, in
    insertion order. *)
Definition NamedDates : Type := list (Timestamp * string).

Definition keys (d : NamedDates) : list Timestamp := map fst d.

(** [d[k] = v] *)
Fixpoint dict_set (d : NamedDates) (k : Timestamp) (v : string) : NamedDates :=
  match d with
  | [] => [(k, v)]
  | (k', v') :: d' =>
      if (k' =? k)%Z then (k, v) :: d' else (k', v') :: dict_set d' k v
  end.

(** A date-indexed [pandas.Series] or one-dimensional [xarray.DataArray]. *)
Definition Series : Type := list (Timestamp * Q).

Definition index (s : Series) : list Timestamp := map fst s.
Definition values (s : Series) : list Q := map snd s.

(** A [pandas.DataFrame] with its date column [ds]. *)
Record Row : Type := mkRow {
  ds : Timestamp;
  columns : list (string * Q)
}.

Definition DataFrame : Type := list Row.

(** [fbprophet.Prophet], as far as the plots read it. *)
Record Prophet : Type := mkProphet {
  history : DataFrame
}.

(** A two-dimensional [numpy] array. *)
Record Matrix : Type := mkMatrix {
  nrows : nat;
  ncols : nat;
  cell : nat -> nat -> Q
}.

(** [a.T] *)
Definition transpose (a : Matrix) : Matrix :=
  mkMatrix (ncols a) (nrows a) (fun i j => cell a j i).

(** [a[:, k:]] *)
Definition skip_columns (k : nat) (a : Matrix) : Matrix :=
  mkMatrix (nrows a) (ncols a - k) (fun i j => cell a i (j + k)).

Definition to_lists (a : Matrix) : list (list Q) :=
  map (fun i => map (fun j => cell a i j) (seq 0 (ncols a))) (seq 0 (nrows a)).

Inductive PosteriorVar : Type := infections | test_adjusted_positive | r_t.

(** [idata.posterior]: every variable has the dimensions
    (chain, draw, date) and shares the [date] coordinate. *)
Record Posterior : Type := mkPosterior {
  date : list Timestamp;
  nchain : nat;
  ndraw : nat;
  var : PosteriorVar -> nat -> nat -> nat -> Q
}.

Record ConstantData : Type := mkConstantData {
  observed_positive : Series;
  tests : Series
}.

(** [arviz.InferenceData] *)
Record InferenceData : Type := mkInferenceData {
  posterior : Posterior;
  constant_data : ConstantData
}.

(** [posterior[v].stack(sample=('chain', 'draw'))]: dimensions
    (date, sample), the sample index running over the draws of chain 0,
    then those of chain 1, and so on. *)
Definition stack (p : Posterior) (v : PosteriorVar) : Matrix :=
  mkMatrix (List.length (date p)) (nchain p * ndraw p)
           (fun t s => var p v (s / ndraw p) (s mod ndraw p) t).

(** ** matplotlib objects *)

Inductive Colormap : Type := Reds | Greens.

Inductive Color : Type :=
| Named (name : string)
| Sampled (cmap : Colormap) (level : Z).

(** What has been drawn into an axes, one entry per drawing call. *)
Inductive Artist : Type :=
| AxVLine (x : Timestamp) (color linestyle : string)
| AxHLine (y : Q) (linestyle : string)
| Text (x : Timestamp) (y : Q) (s color : string) (rotation : Z)
       (horizontalalignment verticalalignment : string)
| Line2D (xs : list Timestamp) (ys : list (option Q))
         (color label : option string)
| Bar (xs : list Timestamp) (heights : list Q) (label : string)
      (alpha : option Q)
| Scatter (xs : list Timestamp) (ys : list Q) (color label : string)
| FillBetween (xs : list Timestamp) (ys : list Q) (color : Color)
              (label : string)
| GpDist (x : list Timestamp) (samples : list (list Q))
         (samples_alpha : Q) (palette : option Colormap)
         (fill_alpha : option Q)
| ProphetPlot (m : Prophet) (fcst : DataFrame).

Record Legend : Type := mkLegend {
  handles : option (list Artist);
  loc : string;
  frameon : bool
}.

Inductive Locator : Type :=
| WeekdayLocator (interval : Z) (byweekday : string)
| DayLocator.

Record Axes : Type := mkAxes {
  xlim : Q * Q;
  ylim : Q * Q;
  autoscalex_on : bool;
  autoscaley_on : bool;
  artists : list Artist;
  xlabel : string;
  ylabel : string;
  legend_ : option Legend;
  major_locator : option Locator;
  minor_locator : option Locator;
  tick_rotation : option Z
}.

Record Figure : Type := mkFigure {
  fig_axes : list nat;
  sharex : bool;
  tight : bool
}.

(** An axes as [pyplot.subplots] creates it. *)
Definition new_axes : Axes :=
  mkAxes (0, 1)%Q (0, 1)%Q true true [] "" "" None None None None.

(** ** The object store *)

Definition handle : Type := nat.

Record World : Type := mkWorld {
  axes_of : handle -> Axes;
  figure_of : handle -> Figure;
  dict_of : handle -> NamedDates;
  idata_of : handle -> InferenceData;
  series_of : handle -> Series;
  frame_of : handle -> DataFrame;
  prophet_of : handle -> Prophet;
  next_axes : handle;
  next_figure : handle;
  next_dict : handle
}.

Definition update {A : Type} (f : handle -> A) (h : handle) (a : A)
  : handle -> A :=
  fun h' => if h' =? h then a else f h'.

Definition with_axes (w : World) (f : handle -> Axes) : World :=
  mkWorld f (figure_of w) (dict_of w) (idata_of w) (series_of w)
          (frame_of w) (prophet_of w) (next_axes w) (next_figure w)
          (next_dict w).

(** The caller's data: everything in the store that is not a matplotlib
    object. *)
Record Data : Type := mkData {
  dicts : handle -> NamedDates;
  idatas : handle -> InferenceData;
  serieses : handle -> Series;
  frames : handle -> DataFrame;
  prophets : handle -> Prophet
}.

Definition data_of (w : World) : Data :=
  mkData (dict_of w) (idata_of w) (series_of w) (frame_of w) (prophet_of w).

(** ** The monad of plotting code: a store, and exceptions *)

Definition M (A : Type) : Type := World -> outcome A * World.

Definition ret {A : Type} (a : A) : M A := fun w => (Returned a, w).

Definition bind {A B : Type} (c : M A) (k : A -> M B) : M B :=
  fun w =>
    match c w with
    | (Returned a, w') => k a w'
    | (Raised e, w') => (Raised e, w')
    | (OutOfFuel, w') => (OutOfFuel, w')
    end.

Definition raise {A : Type} (e : exception) : M A := fun w => (Raised e, w).

Definition lift {A : Type} (o : outcome A) : M A := fun w => (o, w).

Declare Scope py_scope.
Delimit Scope py_scope with py.
Notation "x <- c ;; k" := (bind c (fun x => k))
  (at level 61, c at next level, right associativity) : py_scope.
Notation "' p <- c ;; k" := (bind c (fun x => match x with p => k end))
  (at level 61, p pattern, c at next level, right associativity) : py_scope.
Notation "c ;; k" := (bind c (fun _ => k))
  (at level 61, right associativity) : py_scope.
#[local] Open Scope py_scope.

(** [for x in xs: body(x)] *)
Fixpoint for_each {A : Type} (xs : list A) (body : A -> M unit) : M unit :=
  match xs with
  | [] => ret tt
  | x :: xs' => body x ;; for_each xs' body
  end.

Section Plotting.

(** The view limits matplotlib's autoscaling gives an axes whose limits are
    not fixed, from everything drawn so far (shared axes included). *)
Variable view_x view_y : (handle -> Axes) -> handle -> Q * Q.

(** ** matplotlib's primitives *)

Definition get_axes (ax : handle) : M Axes :=
  fun w => (Returned (axes_of w ax), w).

Definition modify_axes (ax : handle) (f : Axes -> Axes) : M unit :=
  fun w => (Returned tt, with_axes w (update (axes_of w) ax (f (axes_of w ax)))).

Definition get_xlim (ax : handle) : M (Q * Q) :=
  a <- get_axes ax ;; ret (xlim a).

Definition get_ylim (ax : handle) : M (Q * Q) :=
  a <- get_axes ax ;; ret (ylim a).

Definition Qlt_bool (a b : Q) : bool := negb (Qle_bool b a).

(** [get_xbound], [get_ybound]: the limits in increasing order. *)
Definition sorted_bounds (l : Q * Q) : Q * Q :=
  if Qlt_bool (fst l) (snd l) then l else (snd l, fst l).

Definition with_xlim (l : Q * Q) (a : Axes) : Axes :=
  mkAxes l (ylim a) (autoscalex_on a) (autoscaley_on a) (artists a)
         (xlabel a) (ylabel a) (legend_ a) (major_locator a)
         (minor_locator a) (tick_rotation a).

Definition with_ylim (l : Q * Q) (a : Axes) : Axes :=
  mkAxes (xlim a) l (autoscalex_on a) (autoscaley_on a) (artists a)
         (xlabel a) (ylabel a) (legend_ a) (major_locator a)
         (minor_locator a) (tick_rotation a).

Definition with_autoscale (x y : bool) (a : Axes) : Axes :=
  mkAxes (xlim a) (ylim a) x y (artists a)
         (xlabel a) (ylabel a) (legend_ a) (major_locator a)
         (minor_locator a) (tick_rotation a).

Definition with_artist (art : Artist) (a : Axes) : Axes :=
  mkAxes (xlim a) (ylim a) (autoscalex_on a) (autoscaley_on a)
         (artists a ++ [art])
         (xlabel a) (ylabel a) (legend_ a) (major_locator a)
         (minor_locator a) (tick_rotation a).

(** Autoscaling: every axes whose x (y) limits are not fixed takes the
    view limits of the current content. *)
Definition autoscale (x y : bool) : M unit :=
  fun w =>
    let store := axes_of w in
    (Returned tt,
     with_axes w (fun h =>
       let a := store h in
       let a := if x && autoscalex_on a then with_xlim (view_x store h) a else a in
       if y && autoscaley_on a then with_ylim (view_y store h) a else a)).

Definition add_artist (ax : handle) (art : Artist) : M unit :=
  modify_axes ax (with_artist art).

(** A drawing call that takes part in autoscaling ([plot], [bar],
    [scatter], [fill_between], and the plots of pymc3 and fbprophet). *)
Definition draw (ax : handle) (art : Artist) : M Artist :=
  add_artist ax art ;; autoscale true true ;; ret art.

(** [ax.axvline(x, color=..., linestyle=...)]: the x limits are rescaled
    only when [x] lies outside the current bounds. *)
Definition axvline (ax : handle) (x : Timestamp) (color linestyle : string)
  : M unit :=
  a <- get_axes ax ;;
  let '(lo, hi) := sorted_bounds (xlim a) in
  let xx := date2num x in
  add_artist ax (AxVLine x color linestyle) ;;
  autoscale (Qlt_bool xx lo || Qlt_bool hi xx) false.

(** [ax.axhline(y, linestyle=...)] *)
Definition axhline (ax : handle) (y : Q) (linestyle : string) : M unit :=
  a <- get_axes ax ;;
  let '(lo, hi) := sorted_bounds (ylim a) in
  add_artist ax (AxHLine y linestyle) ;;
  autoscale false (Qlt_bool y lo || Qlt_bool hi y).

(** [ax.text(x, y, s=..., color=..., rotation=...,
    horizontalalignment=..., verticalalignment=...)] *)
Definition text (ax : handle) (x : Timestamp) (y : Q) (s color : string)
    (rotation : Z) (ha va : string) : M unit :=
  add_artist ax (Text x y s color rotation ha va).

(** [ax.set_xlim(left, right)] and [ax.set_ylim(bottom, top)]: a limit
    that is not given keeps its value, and autoscaling of the axis is
    turned off. *)
Definition set_xlim (ax : handle) (left right : option Q) : M unit :=
  modify_axes ax (fun a =>
    let l := (match left with Some v => v | None => fst (xlim a) end,
              match right with Some v => v | None => snd (xlim a) end) in
    with_autoscale false (autoscaley_on a) (with_xlim l a)).

Definition set_ylim (ax : handle) (bottom top : option Q) : M unit :=
  modify_axes ax (fun a =>
    let l := (match bottom with Some v => v | None => fst (ylim a) end,
              match top with Some v => v | None => snd (ylim a) end) in
    with_autoscale (autoscalex_on a) false (with_ylim l a)).

Definition set_xlabel (ax : handle) (s : string) : M unit :=
  modify_axes ax (fun a =>
    mkAxes (xlim a) (ylim a) (autoscalex_on a) (autoscaley_on a) (artists a)
           s (ylabel a) (legend_ a) (major_locator a) (minor_locator a)
           (tick_rotation a)).

Definition set_ylabel (ax : handle) (s : string) : M unit :=
  modify_axes ax (fun a =>
    mkAxes (xlim a) (ylim a) (autoscalex_on a) (autoscaley_on a) (artists a)
           (xlabel a) s (legend_ a) (major_locator a) (minor_locator a)
           (tick_rotation a)).

Definition legend (ax : handle) (l : Legend) : M unit :=
  modify_axes ax (fun a =>
    mkAxes (xlim a) (ylim a) (autoscalex_on a) (autoscaley_on a) (artists a)
           (xlabel a) (ylabel a) (Some l) (major_locator a) (minor_locator a)
           (tick_rotation a)).

Definition set_locators (ax : handle) (major minor : option Locator)
    (rotation : option Z) : M unit :=
  modify_axes ax (fun a =>
    mkAxes (xlim a) (ylim a) (autoscalex_on a) (autoscaley_on a) (artists a)
           (xlabel a) (ylabel a) (legend_ a)
           (match major with Some _ => major | None => major_locator a end)
           (match minor with Some _ => minor | None => minor_locator a end)
           (match rotation with Some _ => rotation | None => tick_rotation a end)).

(** Reading the caller's objects. *)
Definition get_dict (d : handle) : M NamedDates :=
  fun w => (Returned (dict_of w d), w).

Definition get_idata (d : handle) : M InferenceData :=
  fun w => (Returned (idata_of w d), w).

Definition get_series (d : handle) : M Series :=
  fun w => (Returned (series_of w d), w).

Definition get_frame (d : handle) : M DataFrame :=
  fun w => (Returned (frame_of w d), w).

Definition get_prophet (d : handle) : M Prophet :=
  fun w => (Returned (prophet_of w d), w).

(** A dictionary display or comprehension: a new [dict] object. *)
Definition new_dict (d : NamedDates) : M handle :=
  fun w =>
    (Returned (next_dict w),
     mkWorld (axes_of w) (figure_of w) (update (dict_of w) (next_dict w) d)
             (idata_of w) (series_of w) (frame_of w) (prophet_of w)
             (next_axes w) (next_figure w) (S (next_dict w))).

(** ** [plot_vlines] *)

Definition nl : string := String (ascii_of_nat 10) EmptyString.

(** One round of the loop over [vlines.items()]. *)
Definition plot_vline (ax : handle) (alignment : string)
    (ymin ymax xmin xmax : Q) (item : Timestamp * string) : M unit :=
  let '(x, label) := item in
  if Qle_bool xmin (date2num x) && Qle_bool (date2num x) xmax then
    label <- lift (textwrap.shorten label 20 "...") ;;
    axvline ax x "gray" ":" ;;
    y <- (if (alignment =? "top")%string
          then ret (ymin + (98 # 100) * (ymax - ymin))%Q
          else if (alignment =? "bottom")%string
          then ret (ymin + (2 # 100) * (ymax - ymin))%Q
          else raise (ValueError ("Unsupported alignment: '" ++ alignment ++ "'"))) ;;
    text ax x y (label ++ nl) "gray" 90 "center" alignment
  else ret tt.

Definition plot_vlines (ax : handle) (vlines : handle) (alignment : string)
  : M unit :=
  '(ymin, ymax) <- get_ylim ax ;;
  '(xmin, xmax) <- get_xlim ax ;;
  items <- get_dict vlines ;;
  for_each items (plot_vline ax alignment ymin ymax xmin xmax) ;;
  ret tt.

(** ** [pyplot.subplots] and figures *)

Definition new_figure (share : bool) : M handle :=
  fun w =>
    (Returned (next_figure w),
     mkWorld (axes_of w)
             (update (figure_of w) (next_figure w) (mkFigure [] share false))
             (dict_of w) (idata_of w) (series_of w) (frame_of w)
             (prophet_of w) (next_axes w) (S (next_figure w)) (next_dict w)).

(** A new axes object with the given state, added to the figure. *)
Definition add_subplot (fig : handle) (a : Axes) : M handle :=
  fun w =>
    let f := figure_of w fig in
    (Returned (next_axes w),
     mkWorld (update (axes_of w) (next_axes w) a)
             (update (figure_of w) fig
                     (mkFigure (fig_axes f ++ [next_axes w]) (sharex f) (tight f)))
             (dict_of w) (idata_of w) (series_of w) (frame_of w)
             (prophet_of w) (S (next_axes w)) (next_figure w) (next_dict w)).

Definition get_figure (fig : handle) : M Figure :=
  fun w => (Returned (figure_of w fig), w).

(** [fig.tight_layout()] *)
Definition tight_layout (fig : handle) : M unit :=
  fun w =>
    let f := figure_of w fig in
    (Returned tt,
     mkWorld (axes_of w)
             (update (figure_of w) fig (mkFigure (fig_axes f) (sharex f) true))
             (dict_of w) (idata_of w) (series_of w) (frame_of w)
             (prophet_of w) (next_axes w) (next_figure w) (next_dict w)).

(** [axs[i]] *)
Definition getitem (axs : list handle) (i : nat) : M handle :=
  match nth_error axs i with
  | Some ax => ret ax
  | None => raise (IndexError "list index out of range")
  end.

(** ** [plot_testcount_forecast] *)

(** [m.history.set_index('ds').index[0]] *)
Definition first_date (m : Prophet) : M Timestamp :=
  match history m with
  | r :: _ => ret (ds r)
  | [] => raise (IndexError "index 0 is out of bounds for axis 0 with size 0")
  end.

(** [forecast[forecast.ds >= t]] *)
Definition rows_from (t : Timestamp) (forecast : DataFrame) : DataFrame :=
  filter (fun r => (t <=? ds r)%Z) forecast.

(** [pandas.to_datetime('2020-03-01')] *)
Definition floor_date : Timestamp := to_datetime 2020 3 1.

(** [if not ax: _, ax = pyplot.subplots(figsize=(13.4, 6))] *)
Definition axes_or_new (ax : option handle) : M handle :=
  match ax with
  | Some ax => ret ax
  | None => fig <- new_figure false ;; add_subplot fig new_axes
  end.

Definition plot_testcount_forecast (result m forecast considered_holidays : handle)
    (ax : option handle) : M handle :=
  ax <- axes_or_new ax ;;
  m <- get_prophet m ;;
  forecast <- get_frame forecast ;;
  t0 <- first_date m ;;
  draw ax (ProphetPlot m (rows_from t0 forecast)) ;;
  set_ylim ax (Some 0%Q) None ;;
  set_xlim ax (Some (date2num floor_date)) None ;;
  plot_vlines ax considered_holidays "bottom" ;;
  result <- get_series result ;;
  h1 <- draw ax (Scatter [] [] "black" "training data") ;;
  h2 <- draw ax (Line2D [] [] (Some "blue"%string) (Some "prediction"%string)) ;;
  h3 <- draw ax (Line2D (index result) (map Some (values result))
                        (Some "orange"%string) (Some "result"%string)) ;;
  legend ax (mkLegend (Some [h1; h2; h3]) "upper left" false) ;;
  set_ylabel ax "total tests" ;;
  set_xlabel ax "" ;;
  ret ax.

(** ** [plot_testcount_components] *)

(** The panels [Prophet.plot_components] creates, one per component of the
    forecast, as fbprophet leaves them. *)
Variable component_panels : Prophet -> DataFrame -> list Axes.

Fixpoint add_subplots (fig : handle) (panels : list Axes) : M unit :=
  match panels with
  | [] => ret tt
  | a :: panels' => add_subplot fig a ;; add_subplots fig panels'
  end.

(** [m.plot_components(fcst, figsize=..., weekly_start=1)] *)
Definition plot_components (m : Prophet) (fcst : DataFrame) : M handle :=
  fig <- new_figure false ;;
  add_subplots fig (component_panels m fcst) ;;
  ret fig.

(** [{k: '' for k in keys}] *)
Definition blank_labels (ks : list Timestamp) : NamedDates :=
  fold_left (fun d k => dict_set d k ""%string) ks [].

Definition plot_testcount_components (m forecast considered_holidays : handle)
  : M (handle * list handle) :=
  m <- get_prophet m ;;
  forecast <- get_frame forecast ;;
  t0 <- first_date m ;;
  fig <- plot_components m (rows_from t0 forecast) ;;
  f <- get_figure fig ;;
  let axs := fig_axes f in
  for_each axs (fun ax => set_xlabel ax "") ;;
  ax0 <- getitem axs 0 ;;
  set_ylim ax0 (Some 0%Q) None ;;
  ax1 <- getitem axs 1 ;;
  set_ylim ax1 (Some (-1)%Q) None ;;
  ax0 <- getitem axs 0 ;;
  plot_vlines ax0 considered_holidays "bottom" ;;
  ax1 <- getitem axs 1 ;;
  holidays <- get_dict considered_holidays ;;
  blanked <- new_dict (blank_labels (keys holidays)) ;;
  plot_vlines ax1 blanked "bottom" ;;
  ax0 <- getitem axs 0 ;;
  set_xlim ax0 (Some (date2num floor_date)) None ;;
  ax1 <- getitem axs 1 ;;
  set_xlim ax1 (Some (date2num floor_date)) None ;;
  ret (fig, axs).

(** ** [plot_density_curves] *)

(** [model.get_scale_factor(idata)], broadcast against the dimensions
    (date, sample) of a stacked posterior variable. *)
Variable get_scale_factor : InferenceData -> nat -> nat -> Q.

(** [a * scale_factor] *)
Definition scale (a : Matrix) (factor : nat -> nat -> Q) : Matrix :=
  mkMatrix (nrows a) (ncols a) (fun i j => (cell a i j * factor i j)%Q).

(** [pyplot.subplots(nrows=4, gridspec_kw=..., dpi=140, figsize=(10, 8),
    sharex='col')] *)
Definition subplots4 : M (handle * (handle * handle * handle * handle)) :=
  fig <- new_figure true ;;
  a <- add_subplot fig new_axes ;;
  b <- add_subplot fig new_axes ;;
  c <- add_subplot fig new_axes ;;
  d <- add_subplot fig new_axes ;;
  ret (fig, (a, b, c, d)).

(** The loop over [var_label_colors]; [handles] collects the legend
    entries. *)
Fixpoint plot_curves (ax_curves : handle) (idata : InferenceData)
    (factor : nat -> nat -> Q)
    (var_label_colors : list (PosteriorVar * string * Colormap))
    (handles : list Artist) : M (list Artist) :=
  match var_label_colors with
  | [] => ret handles
  | (v, label, cmap) :: more =>
      draw ax_curves
           (GpDist (skipn 3 (date (posterior idata)))
                   (to_lists (skip_columns 3
                      (transpose (scale (stack (posterior idata) v) factor))))
                   0 (Some cmap) (Some (15 # 100)%Q)) ;;
      h <- draw ax_curves (FillBetween [] [] (Sampled cmap 100) label) ;;
      plot_curves ax_curves idata factor more (handles ++ [h])
  end.

(** The mean of a boolean array: the fraction of its [True] entries, and
    NaN ([None]) when it is empty. *)
Definition mean_bool (l : list bool) : option Q :=
  match l with
  | [] => None
  | _ :: _ =>
      Some (Z.of_nat (List.length (filter (fun b => b) l))
            # Pos.of_nat (List.length l))%Q
  end.

(** The draws of a variable at one date, over all chains and draws. *)
Definition draws_at (p : Posterior) (v : PosteriorVar) (t : nat) : list Q :=
  flat_map (fun c => map (fun d => var p v c d t) (seq 0 (ndraw p)))
           (seq 0 (nchain p)).

(** [(idata.posterior.r_t > 1).mean(dim=('chain', 'draw'))] *)
Definition probability_above_one (p : Posterior) : list (option Q) :=
  map (fun t => mean_bool (map (fun x => Qlt_bool 1 x) (draws_at p r_t t)))
      (seq 0 (List.length (date p))).

(** [{k: '' for k, v in items}] *)
Definition blank_items (items : NamedDates) : NamedDates :=
  fold_left (fun d item => dict_set d (fst item) ""%string) items [].

(** [if vlines:] *)
Definition truthy (vlines : option handle) : M (option handle) :=
  match vlines with
  | None => ret None
  | Some d =>
      items <- get_dict d ;;
      match items with
      | [] => ret None
      | _ :: _ => ret (Some d)
      end
  end.

(** [if not (fig != None and axs is not None): fig, (...) = pyplot.subplots(...)]
    and [else: ... = axs] *)
Definition panels (fig : option handle)
    (axs : option (handle * handle * handle * handle))
  : M (handle * (handle * handle * handle * handle)) :=
  match fig, axs with
  | Some fig, Some axs => ret (fig, axs)
  | _, _ => subplots4
  end.

Definition plot_density_curves (idata : handle) (vlines actual_tests : option handle)
    (fig : option handle) (axs : option (handle * handle * handle * handle))
  : M (handle * (handle * handle * handle * handle)) :=
  '(fig, (ax_curves, ax_testcounts, ax_probability, ax_rt)) <- panels fig axs ;;
  idata <- get_idata idata ;;
  let scale_factor := get_scale_factor idata in
  handles <- plot_curves ax_curves idata scale_factor
               [(infections, "infections"%string, Reds);
                (test_adjusted_positive, "testing delay adjusted"%string, Greens)]
               [] ;;
  set_ylabel ax_curves "per day" ;;
  h <- draw ax_curves
            (Bar (index (observed_positive (constant_data idata)))
                 (values (observed_positive (constant_data idata)))
                 "positive tests" (Some (1 # 2)%Q)) ;;
  let handles := handles ++ [h] in
  marked <- truthy vlines ;;
  match marked with
  | Some d => plot_vlines ax_curves d "bottom"
  | None => ret tt
  end ;;
  legend ax_curves (mkLegend (Some handles) "upper left" false) ;;
  draw ax_testcounts
       (Line2D (index (tests (constant_data idata)))
               (map Some (values (tests (constant_data idata))))
               (Some "orange"%string) (Some "modeled"%string)) ;;
  match actual_tests with
  | Some s =>
      actual <- get_series s ;;
      draw ax_testcounts (Bar (index actual) (values actual) "actual" None) ;;
      ret tt
  | None => ret tt
  end ;;
  legend ax_testcounts (mkLegend None "upper left" false) ;;
  marked <- truthy vlines ;;
  match marked with
  | Some d =>
      items <- get_dict d ;;
      blanked <- new_dict (blank_items items) ;;
      plot_vlines ax_testcounts blanked "bottom"
  | None => ret tt
  end ;;
  set_ylabel ax_testcounts "daily tests" ;;
  draw ax_probability
       (Line2D (date (posterior idata))
               (probability_above_one (posterior idata)) None None) ;;
  set_ylim ax_probability (Some 0%Q) (Some 1%Q) ;;
  set_ylabel ax_probability "$p(R_t > 1)$" ;;
  draw ax_rt
       (GpDist (date (posterior idata))
               (to_lists (transpose (stack (posterior idata) r_t)))
               0 None None) ;;
  axhline ax_rt 1 ":" ;;
  set_ylabel ax_rt "$R_t$" ;;
  set_locators ax_rt (Some (WeekdayLocator 1 "MO")) None None ;;
  set_locators ax_rt None (Some DayLocator) None ;;
  set_locators ax_rt None None (Some 90%Z) ;;
  set_ylim ax_rt (Some 0%Q) (Some (5 # 2)%Q) ;;
  tight_layout fig ;;
  ret (fig, (ax_curves, ax_testcounts, ax_probability, ax_rt)).

End Plotting.

(** ** Vocabulary of the statements *)

(** *** Words and chunks of a text *)

Module textwrap_words.
Import textwrap.

(** No character of the text is whitespace. *)
Definition nonspace (t : text) : Prop :=
  Forall (fun c => str_isspace c = false) t.

(** What [str.split] returns: texts that are not empty and hold no
    whitespace. *)
Definition word (t : text) : Prop := t <> [] /\ nonspace t.

(** The only whitespace of the text is the space character. *)
Definition tidy (t : text) : Prop :=
  Forall (fun c => c = space \/ str_isspace c = false) t.

Definition starts_nonspace (t : text) : Prop :=
  match t with c :: _ => str_isspace c = false | [] => True end.

(** A chunk of [wordsep_re]: whitespace only, or none at all. *)
Definition uniform (chunk : text) : Prop :=
  chunk <> []
  /\ (Forall (fun c => _whitespace c = true) chunk
      \/ Forall (fun c => _whitespace c = false) chunk).

(** A chunk of a collapsed text is a run of spaces or a run of characters
    that are not whitespace. *)
Definition good (chunk : text) : Prop :=
  chunk <> [] /\ (is_blank chunk = true \/ nonspace chunk).

(** The first (last) chunk, if there is one, is not a run of spaces. *)
Definition first_nonblank (chunks : list text) : Prop :=
  match chunks with chunk :: _ => is_blank chunk = false | [] => True end.

Definition last_nonblank (chunks : list text) : Prop :=
  first_nonblank (rev chunks).

(** The placeholder of the labels. *)
Definition dots : text := list_ascii_of_string "...".

End textwrap_words.

(** *** The annotations of [plot_vlines] *)

(** The label with its whitespace collapsed. *)
Definition collapsed (label : string) : string :=
  string_of_list_ascii (textwrap.collapse (list_ascii_of_string label)).

(** What [textwrap.shorten(label, width=20, placeholder='...')] returns. *)
Definition shortened (label : string) : string :=
  match textwrap.shorten label 20 "..." with
  | Returned s => s
  | _ => ""%string
  end.

(** The date lies within the x limits of the axes. *)
Definition in_xrange (a : Axes) (x : Timestamp) : bool :=
  Qle_bool (fst (xlim a)) (date2num x) && Qle_bool (date2num x) (snd (xlim a)).

(** The alignments [plot_vlines] supports. *)
Definition valid_alignment (alignment : string) : Prop :=
  alignment = "top"%string \/ alignment = "bottom"%string.

(** Height of the labels. *)
Definition label_y (a : Axes) (alignment : string) : Q :=
  let '(ymin, ymax) := ylim a in
  if (alignment =? "top")%string
  then (ymin + (98 # 100) * (ymax - ymin))%Q
  else (ymin + (2 # 100) * (ymax - ymin))%Q.

(** The marker and the label of one item. *)
Definition marker (x : Timestamp) : Artist := AxVLine x "gray" ":".

Definition label_text (a : Axes) (alignment : string) (item : Timestamp * string)
  : Artist :=
  Text (fst item) (label_y a alignment) (shortened (snd item) ++ nl)
       "gray" 90 "center" alignment.

(** What [plot_vlines] draws for the items of a mapping, on axes in state
    [a], with a valid alignment. *)
Definition annotations (a : Axes) (alignment : string) (items : NamedDates)
  : list Artist :=
  flat_map (fun item =>
              if in_xrange a (fst item)
              then [marker (fst item); label_text a alignment item]
              else [])
           items.

(** The axes with more artists, and nothing else changed. *)
Definition appended (arts : list Artist) (a : Axes) : Axes :=
  mkAxes (xlim a) (ylim a) (autoscalex_on a) (autoscaley_on a)
         (artists a ++ arts)
         (xlabel a) (ylabel a) (legend_ a) (major_locator a)
         (minor_locator a) (tick_rotation a).

(** [w'] is [w] with the artists [arts] drawn into [ax], and no other
    change to any object. *)
Definition draws_on (ax : handle) (arts : list Artist) (w w' : World) : Prop :=
  (forall h, axes_of w' h
             = if h =? ax then appended arts (axes_of w h) else axes_of w h)
  /\ figure_of w' = figure_of w
  /\ data_of w' = data_of w
  /\ next_axes w' = next_axes w
  /\ next_figure w' = next_figure w
  /\ next_dict w' = next_dict w.

(** The computation returns normally, and its result and final store
    satisfy [P]. *)
Definition returns {A : Type} (c : M A) (w : World) (P : A -> World -> Prop)
  : Prop :=
  exists a w', c w = (Returned a, w') /\ P a w'.

(** The exception for an alignment that is not supported. *)
Definition unsupported (alignment : string) : exception :=
  ValueError ("Unsupported alignment: '" ++ alignment ++ "'").

(** *** What a stretch of plotting code does to the store *)

(** What a stretch of plotting code does to the axes. *)
Inductive Event : Type :=
| Drawn (ax : handle) (art : Artist)
| Rescaled
| XLimSet (ax : handle)
| YLimSet (ax : handle)
| NewDict.

(** The artists the events draw into the axes [h], in their order. *)
Definition drawn_on (h : handle) (evs : list Event) : list Artist :=
  flat_map (fun e => match e with
                     | Drawn ax art => if ax =? h then [art] else []
                     | _ => []
                     end) evs.

(** Some event rescales the axes, allocates a [dict]; no event sets the
    x (y) limits of the axes [h]. *)
Definition rescaled (evs : list Event) : bool :=
  existsb (fun e => match e with Rescaled => true | _ => false end) evs.

Definition allocated (evs : list Event) : bool :=
  existsb (fun e => match e with NewDict => true | _ => false end) evs.

Definition xlim_kept (h : handle) (evs : list Event) : bool :=
  forallb (fun e => match e with XLimSet ax => negb (ax =? h) | _ => true end) evs.

Definition ylim_kept (h : handle) (evs : list Event) : bool :=
  forallb (fun e => match e with YLimSet ax => negb (ax =? h) | _ => true end) evs.

(** [w'] comes from [w] by the events [evs]: the artists drawn are those
    of the events; limits that are not set anew stay as they are when they
    are fixed or when nothing was rescaled; and the caller's data is
    untouched (a new [dict] takes a fresh handle). *)
Record evolves (evs : list Event) (w w' : World) : Prop := mkEvolves {
  ev_artists : forall h,
    artists (axes_of w' h) = artists (axes_of w h) ++ drawn_on h evs;
  ev_xflag : forall h,
    xlim_kept h evs = true ->
    autoscalex_on (axes_of w' h) = autoscalex_on (axes_of w h);
  ev_yflag : forall h,
    ylim_kept h evs = true ->
    autoscaley_on (axes_of w' h) = autoscaley_on (axes_of w h);
  ev_xlim : forall h,
    xlim_kept h evs = true ->
    autoscalex_on (axes_of w h) = false \/ rescaled evs = false ->
    xlim (axes_of w' h) = xlim (axes_of w h);
  ev_ylim : forall h,
    ylim_kept h evs = true ->
    autoscaley_on (axes_of w h) = false \/ rescaled evs = false ->
    ylim (axes_of w' h) = ylim (axes_of w h);
  ev_idata : idata_of w' = idata_of w;
  ev_series : series_of w' = series_of w;
  ev_frame : frame_of w' = frame_of w;
  ev_prophet : prophet_of w' = prophet_of w;
  ev_dicts : forall h, h < next_dict w -> dict_of w' h = dict_of w h;
  ev_next_dict : next_dict w <= next_dict w';
  ev_no_dict :
    allocated evs = false ->
    dict_of w' = dict_of w /\ next_dict w' = next_dict w
}.

(** A change of an axes that touches neither its artists nor its limits. *)
Definition cosmetic (f : Axes -> Axes) : Prop :=
  forall a, artists (f a) = artists a
            /\ xlim (f a) = xlim a /\ ylim (f a) = ylim a
            /\ autoscalex_on (f a) = autoscalex_on a
            /\ autoscaley_on (f a) = autoscaley_on a.

(** *** The panels of the dashboard *)

(** What [plot_vlines] draws: markers and their texts. *)
Definition is_annotation (art : Artist) : Prop :=
  match art with
  | AxVLine _ _ _ | Text _ _ _ _ _ _ _ => True
  | _ => False
  end.

(** What a panel of the dashboard holds before the call: a panel of the
    caller has its artists, a new panel has none. *)
Definition initial_artists (fig : option handle)
    (axs : option (handle * handle * handle * handle)) (w : World) (h : handle)
  : list Artist :=
  match fig, axs with
  | Some _, Some _ => artists (axes_of w h)
  | _, _ => []
  end.

(** The panels the caller passes are four different axes. *)
Definition distinct_panels (fig : option handle)
    (axs : option (handle * handle * handle * handle)) : Prop :=
  match fig, axs with
  | Some _, Some (a, b, c, d) => NoDup [a; b; c; d]
  | _, _ => True
  end.

Section Curves.

(** [model.get_scale_factor], as in [plot_density_curves]. *)
Variable get_scale_factor : InferenceData -> nat -> nat -> Q.

(** The samples of a posterior variable in absolute numbers, one row per
    sample and one column per date. *)
Definition scaled_samples (idata : InferenceData) (v : PosteriorVar) : Matrix :=
  transpose (scale (stack (posterior idata) v) (get_scale_factor idata)).

Definition gp_curve (idata : InferenceData) (v : PosteriorVar) (cmap : Colormap)
  : Artist :=
  GpDist (skipn 3 (date (posterior idata)))
         (to_lists (skip_columns 3 (scaled_samples idata v)))
         0 (Some cmap) (Some (15 # 100)%Q).

End Curves.

(** The other artists of the dashboard, as the code draws them. *)
Definition legend_patch (cmap : Colormap) (label : string) : Artist :=
  FillBetween [] [] (Sampled cmap 100) label.

Definition observed_bars (idata : InferenceData) : Artist :=
  Bar (index (observed_positive (constant_data idata)))
      (values (observed_positive (constant_data idata)))
      "positive tests" (Some (1 # 2)%Q).

Definition modeled_line (idata : InferenceData) : Artist :=
  Line2D (index (tests (constant_data idata)))
         (map Some (values (tests (constant_data idata))))
         (Some "orange"%string) (Some "modeled"%string).

Definition actual_bars (actual : Series) : Artist :=
  Bar (index actual) (values actual) "actual" None.

Definition probability_line (idata : InferenceData) : Artist :=
  Line2D (date (posterior idata)) (probability_above_one (posterior idata))
         None None.

Definition gp_rt (idata : InferenceData) : Artist :=
  GpDist (date (posterior idata))
         (to_lists (transpose (stack (posterior idata) r_t)))
         0 None None.

(** The events of a drawing call that takes part in autoscaling. *)
Definition plotted (ax : handle) (art : Artist) : list Event :=
  [Drawn ax art; Rescaled].

Definition optional_bars (ax : handle) (actual : option Series) : list Event :=
  match actual with
  | Some s => plotted ax (actual_bars s)
  | None => []
  end.

Definition optional_dict (marked : option handle) : list Event :=
  match marked with
  | Some _ => [NewDict]
  | None => []
  end.

(** The caller's data after a call: everything is as it was, and a new
    [dict] has taken a fresh handle. *)
Definition data_kept (w w' : World) : Prop :=
  idata_of w' = idata_of w /\ series_of w' = series_of w
  /\ frame_of w' = frame_of w /\ prophet_of w' = prophet_of w
  /\ (forall h, h < next_dict w -> dict_of w' h = dict_of w h)
  /\ next_dict w <= next_dict w'.

(** *** The data of the caller *)

(** Whatever the outcome of the computation, the caller's data is as it
    was before. *)
Definition read_only {A : Type} (c : M A) : Prop :=
  forall w r w', c w = (r, w') -> data_kept w w'.

(** *** The forecast view *)

(** The artists of the forecast view. *)
Definition forecast_plot (m : Prophet) (forecast : DataFrame) (t0 : Timestamp)
  : Artist :=
  ProphetPlot m (rows_from t0 forecast).

Definition forecast_legend (result : Series) : list Artist :=
  [Scatter [] [] "black" "training data";
   Line2D [] [] (Some "blue"%string) (Some "prediction"%string);
   Line2D (index result) (map Some (values result))
          (Some "orange"%string) (Some "result"%string)].

(** The axes [plot_testcount_forecast] draws into, and what they held. *)
Definition forecast_axes (ax : option handle) (w : World) : handle :=
  match ax with Some a => a | None => next_axes w end.

Definition forecast_initial (ax : option handle) (w : World) : list Artist :=
  match ax with Some a => artists (axes_of w a) | None => [] end.

(** *** The components view *)

(** A blanked label is drawn as a marker and a text that holds the line
    break only. *)
Definition bare_marks (a : Axes) (alignment : string) (ks : list Timestamp)
  : list Artist :=
  flat_map (fun k =>
              if in_xrange a k
              then [marker k;
                    Text k (label_y a alignment) nl "gray" 90 "center" alignment]
              else [])
           ks.

(** The second panel as the annotation finds it: the panel of fbprophet,
    with its lower y limit at -1. *)
Definition second_panel (p : Axes) : Axes :=
  with_ylim ((-1)%Q, snd (ylim p)) p.

(** *** Dates of markers and labels *)

(** The dates of the markers and of the labels among some artists. *)
Definition marker_dates (arts : list Artist) : list Timestamp :=
  flat_map (fun art => match art with AxVLine x _ _ => [x] | _ => [] end) arts.

Definition label_dates (arts : list Artist) : list Timestamp :=
  flat_map (fun art => match art with Text x _ _ _ _ _ _ => [x] | _ => [] end)
           arts.

(** ** A small scenario *)

(** Autoscaling that always settles on the unit interval, and a scale
    factor of one. *)
Definition fixed_view : (handle -> Axes) -> handle -> Q * Q :=
  fun _ _ => (0, 1)%Q.

Definition unit_scale : InferenceData -> nat -> nat -> Q := fun _ _ _ => 1%Q.

(** A panel that shows 2020-01-01 to 2020-06-01, with y limits 0 to 100. *)
Definition spring_panel : Axes :=
  mkAxes (date2num (to_datetime 2020 1 1), date2num (to_datetime 2020 6 1))
         (0, 100)%Q false false [] "" "" None None None None.

Definition two_panels : Prophet -> DataFrame -> list Axes :=
  fun _ _ => [spring_panel; spring_panel].

Definition events : NamedDates :=
  [(to_datetime 2020 3 1, "lockdown"%string);
   (to_datetime 2020 12 25, "holiday"%string)].

Definition late_events : NamedDates :=
  [(to_datetime 2020 12 25, "holiday"%string)].

Definition spaced_events : NamedDates :=
  [(to_datetime 2020 3 1, "New  Year"%string);
   (to_datetime 2020 4 1, "a                    b"%string);
   (to_datetime 2020 5 1, "national lockdown begins today"%string)].

Definition unlabelled_events : NamedDates :=
  [(to_datetime 2020 3 1, ""%string)].

Definition example_posterior : Posterior :=
  mkPosterior
    [to_datetime 2020 3 1; to_datetime 2020 3 2; to_datetime 2020 3 3;
     to_datetime 2020 3 4; to_datetime 2020 3 5]
    2 2
    (fun v chain draw t =>
       match v with
       | r_t => if t <? 2 then (3 # 2)%Q
                else if t <? 4 then (1 # 2)%Q
                else (Z.of_nat (chain + draw) # 1)%Q
       | _ => (Z.of_nat (10 * t + chain + draw) # 1)%Q
       end).

Definition example_idata : InferenceData :=
  mkInferenceData example_posterior
    (mkConstantData [(to_datetime 2020 3 1, 5%Q); (to_datetime 2020 3 2, 7%Q)]
                    [(to_datetime 2020 3 1, 100%Q); (to_datetime 2020 3 2, 110%Q)]).

Definition example_forecast : DataFrame :=
  [mkRow (to_datetime 2020 1 15) []; mkRow (to_datetime 2020 2 1) [];
   mkRow (to_datetime 2020 2 15) []].

Definition example_model : Prophet :=
  mkProphet [mkRow (to_datetime 2020 2 1) []; mkRow (to_datetime 2020 2 2) []].

(** A store with one panel (handle 0) and four mappings of named dates
    (handles 0 to 3). *)
Definition example_world : World :=
  mkWorld (fun h => if h =? 0 then spring_panel else new_axes)
          (fun _ => mkFigure [] false false)
          (fun h => match h with
                    | 0 => events
                    | 1 => late_events
                    | 2 => spaced_events
                    | 3 => unlabelled_events
                    | _ => []
                    end)
          (fun _ => example_idata)
          (fun _ => [(to_datetime 2020 3 1, 120%Q)])
          (fun _ => example_forecast)
          (fun _ => example_model)
          1 0 4.

(** ** Vocabulary of the further properties *)

(** A text placed by [plot_vlines]: at most 20 characters and a line
    break. *)
Definition fits_label (art : Artist) : Prop :=
  match art with
  | Text _ _ s _ _ _ _ =>
      exists t, s = (t ++ nl)%string /\ String.length t <= 20
  | _ => True
  end.

(** The x limits run from right to left, as after [ax.invert_xaxis()]. *)
Definition inverted_x (a : Axes) : Prop := (snd (xlim a) < fst (xlim a))%Q.

(** The scenario with the x axis of its panel inverted. *)
Definition inverted_panel : Axes :=
  with_xlim (snd (xlim spring_panel), fst (xlim spring_panel)) spring_panel.

Definition inverted_world : World :=
  with_axes example_world (update (axes_of example_world) 0 inverted_panel).
(** A label without whitespace and without hyphen: one word that
    [wordsep_re] does not break. *)
Definition plain_char (c : ascii) : Prop :=
  textwrap.str_isspace c = false /\ textwrap.is_hyphen c = false.

Definition unbroken (label : string) : Prop :=
  Forall plain_char (list_ascii_of_string label).

(** A label of whitespace only. *)
Definition blank_label (label : string) : Prop :=
  Forall (fun c => textwrap.str_isspace c = true) (list_ascii_of_string label).

Definition more_events : NamedDates :=
  [(to_datetime 2020 3 1, "Ausgangsbeschraenkungen"%string);
   (to_datetime 2020 4 1, "   "%string)].

(** The scenario with one more mapping of named dates (handle 4). *)
Definition wordy_world : World :=
  mkWorld (axes_of example_world) (figure_of example_world)
          (update (dict_of example_world) 4 more_events)
          (idata_of example_world) (series_of example_world)
          (frame_of example_world) (prophet_of example_world)
          1 0 5.
(** The first panel of the components as the annotation finds it: the
    panel of fbprophet, with its lower y limit at 0. *)
Definition first_panel (p : Axes) : Axes :=
  with_ylim (0%Q, snd (ylim p)) p.

(** A panel with its x label cleared, and nothing else changed. *)
Definition without_xlabel (p : Axes) : Axes :=
  mkAxes (xlim p) (ylim p) (autoscalex_on p) (autoscaley_on p) (artists p)
         EmptyString (ylabel p) (legend_ p) (major_locator p)
         (minor_locator p) (tick_rotation p).

(** Holidays before, on and after 2020-03-01. *)
Definition winter_events : NamedDates :=
  [(to_datetime 2020 2 14, "carnival"%string);
   (to_datetime 2020 3 1, "lockdown"%string);
   (to_datetime 2020 4 12, "easter"%string)].

(** Three component panels, as fbprophet may leave them. *)
Definition three_panels : Prophet -> DataFrame -> list Axes :=
  fun _ _ => [spring_panel; spring_panel; new_axes].

(** The scenario with the holidays as mapping 5. *)
Definition holiday_world : World :=
  mkWorld (axes_of example_world) (figure_of example_world)
          (update (dict_of example_world) 5 winter_events)
          (idata_of example_world) (series_of example_world)
          (frame_of example_world) (prophet_of example_world)
          1 0 6.

(** From [w] to [w'] the axes outside [ts] are as they were, and no x
    label has changed. *)
Definition kept_outside (ts : list handle) (w w' : World) : Prop :=
  (forall h, ~ In h ts -> axes_of w' h = axes_of w h)
  /\ (forall h, xlabel (axes_of w' h) = xlabel (axes_of w h)).
(** A plotted probability: a number between 0 and 1. *)
Definition is_probability (v : option Q) : Prop :=
  exists q, v = Some q /\ (0 <= q)%Q /\ (q <= 1)%Q.

(** The bands of the curves panel, with their colormaps. *)
Definition curve_bands : list (PosteriorVar * Colormap) :=
  [(infections, Reds); (test_adjusted_positive, Greens)].

(** The named dates the dashboard is given, if any. *)
Definition named_dates (vlines : option handle) (w : World) : NamedDates :=
  match vlines with
  | Some d => dict_of w d
  | None => []
  end.

(** The scenario with a model that has no history. *)
Definition untrained_world : World :=
  mkWorld (axes_of example_world) (figure_of example_world)
          (dict_of example_world) (idata_of example_world)
          (series_of example_world) (frame_of example_world)
          (fun _ => mkProphet []) 1 0 4.

(** A forecast with one component only. *)
Definition one_panel : Prophet -> DataFrame -> list Axes :=
  fun _ _ => [spring_panel].

(** * Properties *)

(** ** [textwrap.shorten] on the labels *)

Unset Implicit Arguments.

Module textwrap_facts.
Import textwrap textwrap_words.

Lemma whitespace_isspace (c : ascii) :
  _whitespace c = true -> str_isspace c = true.
Proof. destruct c as [[] [] [] [] [] [] [] []]; vm_compute; congruence. Qed.

Lemma hyphen_not_whitespace (c : ascii) :
  is_hyphen c = true -> _whitespace c = false.
Proof.
  unfold is_hyphen. intros H. apply Ascii.eqb_eq in H. subst. reflexivity.
Qed.

Lemma split_words_words (s cur : text) :
  nonspace cur -> Forall word (split_words cur s).
Proof.
  revert cur. induction s as [|c s IH]; intros cur Hcur; simpl.
  - destruct cur as [|a cur]; constructor; [|constructor].
    split.
    + intros E. apply (f_equal (@List.length ascii)) in E.
      rewrite length_rev in E. discriminate.
    + apply Forall_rev. exact Hcur.
  - destruct (str_isspace c) eqn:Hc.
    + destruct cur as [|a cur].
      * apply IH. constructor.
      * constructor.
        -- split.
           ++ intros E. apply (f_equal (@List.length ascii)) in E.
              rewrite length_rev in E. discriminate.
           ++ apply Forall_rev. exact Hcur.
        -- apply IH. constructor.
    + apply IH. constructor; assumption.
Qed.

Lemma split_words_all (s : text) : Forall word (split s).
Proof. apply split_words_words. constructor. Qed.

Lemma join_cons2 (sep w w' : text) (ws : list text) :
  join sep (w :: w' :: ws) = w ++ sep ++ join sep (w' :: ws).
Proof. reflexivity. Qed.

Lemma join_tidy (words : list text) :
  Forall word words -> tidy (join [space] words).
Proof.
  induction 1 as [|w ws [_ Hw] Hws IH]; [constructor|].
  destruct ws as [|w' ws].
  - simpl. eapply Forall_impl; [|exact Hw]. auto.
  - rewrite join_cons2. apply Forall_app. split.
    + eapply Forall_impl; [|exact Hw]. auto.
    + constructor; [now left|exact IH].
Qed.

Lemma join_starts (words : list text) :
  Forall word words -> starts_nonspace (join [space] words).
Proof.
  intros H. destruct H as [|w ws [Hne Hw] Hws]; [exact I|].
  destruct w as [|c w]; [congruence|].
  inversion Hw; subst.
  destruct ws; simpl; assumption.
Qed.

Lemma starts_nonspace_app (a b : text) :
  starts_nonspace a -> starts_nonspace b -> starts_nonspace (a ++ b).
Proof. destruct a; simpl; auto. Qed.

Lemma join_ends (words : list text) :
  Forall word words -> starts_nonspace (rev (join [space] words)).
Proof.
  induction 1 as [|w ws [Hne Hw] Hws IH]; [exact I|].
  destruct ws as [|w' ws].
  - simpl. destruct (rev w) as [|c r] eqn:E; [exact I|].
    simpl. apply Forall_rev in Hw. rewrite E in Hw. now inversion Hw.
  - rewrite join_cons2, !rev_app_distr.
    destruct (rev (join [space] (w' :: ws))) as [|c r] eqn:E.
    + exfalso. apply (f_equal (@rev ascii)) in E. rewrite rev_involutive in E.
      simpl in E. inversion Hws as [|? ? [Hne' _] _]; subst.
      destruct w'; [congruence|]. destruct ws; discriminate.
    + simpl. exact IH.
Qed.

(** The collapsed text: single spaces between words, none at the ends. *)
Lemma collapse_tidy (s : text) : tidy (collapse s).
Proof. apply join_tidy, split_words_all. Qed.

Lemma collapse_starts (s : text) : starts_nonspace (collapse s).
Proof. apply join_starts, split_words_all. Qed.

Lemma collapse_ends (s : text) : starts_nonspace (rev (collapse s)).
Proof. apply join_ends, split_words_all. Qed.

Lemma expandtabs_tidy (t : text) (col : nat) :
  tidy t -> expandtabs_from 8 col t = t.
Proof.
  revert col. induction t as [|c t IH]; intros col H; [reflexivity|].
  inversion H as [|? ? Hc Ht]; subst. simpl.
  assert (Htab : Ascii.eqb c tab = false).
  { apply Ascii.eqb_neq. intros ->. destruct Hc as [Hc|Hc]; discriminate. }
  rewrite Htab.
  destruct (Ascii.eqb c newline || Ascii.eqb c carriage_return); now rewrite IH.
Qed.

Lemma translate_tidy (t : text) : tidy t -> translate_whitespace t = t.
Proof.
  induction 1 as [|c t Hc Ht IH]; [reflexivity|].
  unfold translate_whitespace in *. simpl. rewrite IH. f_equal.
  destruct (_whitespace c) eqn:E; [|reflexivity].
  destruct Hc as [->|Hc]; [reflexivity|].
  apply whitespace_isspace in E. congruence.
Qed.

Lemma munge_tidy (t : text) : tidy t -> _munge_whitespace t = t.
Proof.
  intros H. unfold _munge_whitespace.
  rewrite expandtabs_tidy by assumption. now apply translate_tidy.
Qed.

(** *** The chunks of [wordsep_re] *)

Lemma count_while_firstn (p : ascii -> bool) (s : text) :
  Forall (fun c => p c = true) (firstn (count_while p s) s).
Proof.
  induction s as [|c s IH]; simpl; [constructor|].
  destruct (p c) eqn:E; simpl; [constructor; assumption|constructor].
Qed.

Lemma count_while_le (p : ascii -> bool) (s : text) :
  count_while p s <= List.length s.
Proof.
  induction s as [|c s IH]; simpl; [lia|]. destruct (p c); simpl; lia.
Qed.

Lemma hyphen_break_head (prev rest : text) :
  hyphen_break prev rest = true ->
  exists h after, rest = h :: after /\ is_hyphen h = true.
Proof.
  destruct rest as [|h after]; simpl; [discriminate|].
  intros H. apply andb_prop in H as [H _]. apply andb_prop in H as [H _].
  eauto.
Qed.

Lemma word_end_spec (rest prev : text) :
  word_end prev rest <= List.length rest
  /\ Forall (fun c => _whitespace c = false) (firstn (word_end prev rest) rest).
Proof.
  revert prev. induction rest as [|c rest IH]; intros prev.
  - simpl. split; [lia|constructor].
  - cbn [word_end]. destruct (hyphen_break prev (c :: rest)) eqn:Hh.
    + apply hyphen_break_head in Hh as (h & after & E & Hy). inversion E; subst.
      simpl. split; [lia|]. constructor; [|constructor].
      now apply hyphen_not_whitespace.
    + destruct (_whitespace c) eqn:Hc; [simpl; split; [lia|constructor]|].
      destruct (behind_word_punct prev && ahead_em_dash (c :: rest)).
      * simpl; split; [lia|constructor].
      * destruct (IH (c :: prev)) as [Hle Hall]. simpl. split; [lia|].
        constructor; assumption.
Qed.

Lemma wordsep_match_spec (prev rest : text) :
  rest <> [] ->
  1 <= wordsep_match prev rest <= List.length rest
  /\ uniform (firstn (wordsep_match prev rest) rest).
Proof.
  destruct rest as [|c rest]; [congruence|]. intros _.
  unfold wordsep_match. destruct (_whitespace c) eqn:Hc.
  - pose proof (count_while_le _whitespace rest).
    pose proof (count_while_firstn _whitespace rest).
    simpl. split; [lia|]. split; [discriminate|]. left. constructor; assumption.
  - destruct (behind_word_punct prev && ahead_em_dash (c :: rest)) eqn:Hd.
    + apply andb_prop in Hd as [_ Hd]. unfold ahead_em_dash in Hd.
      apply andb_prop in Hd as [Hd _]. apply Nat.leb_le in Hd.
      pose proof (count_while_le is_hyphen (c :: rest)).
      pose proof (count_while_firstn is_hyphen (c :: rest)) as Hall.
      split; [simpl List.length in *; lia|]. split.
      * destruct (count_while is_hyphen (c :: rest)); [lia|]. discriminate.
      * right. eapply Forall_impl; [|exact Hall].
        intros a. apply hyphen_not_whitespace.
    + destruct (word_end_spec rest (c :: prev)) as [Hle Hall].
      simpl. split; [lia|]. split; [discriminate|]. right.
      constructor; assumption.
Qed.

Lemma split_from_spec (fuel : nat) :
  forall prev rest, List.length rest <= fuel ->
    List.concat (split_from fuel prev rest) = rest
    /\ Forall uniform (split_from fuel prev rest).
Proof.
  induction fuel as [|fuel IH]; intros prev rest Hf.
  - destruct rest; [|simpl in Hf; lia]. simpl. split; [reflexivity|constructor].
  - destruct rest as [|c rest]; [simpl; split; [reflexivity|constructor]|].
    cbn [split_from].
    destruct (@wordsep_match_spec prev (c :: rest)) as [[H1 H2] Hu];
      [discriminate|].
    set (n := wordsep_match prev (c :: rest)) in *.
    destruct (IH (rev (firstn n (c :: rest)) ++ prev) (skipn n (c :: rest)))
      as [Hc Hall].
    { rewrite length_skipn. simpl List.length in *. lia. }
    split.
    + cbn [List.concat]. rewrite Hc. apply firstn_skipn.
    + constructor; assumption.
Qed.

Lemma split_spec (t : text) :
  List.concat (_split t) = t /\ Forall uniform (_split t).
Proof. apply split_from_spec. lia. Qed.

Lemma concat_all {A : Type} (P : A -> Prop) (ls : list (list A)) :
  Forall P (List.concat ls) -> Forall (Forall P) ls.
Proof.
  induction ls as [|l ls IH]; simpl; intros H; [constructor|].
  apply Forall_app in H as [H1 H2]. constructor; auto.
Qed.

Lemma uniform_tidy_good (chunk : text) :
  uniform chunk -> tidy chunk -> good chunk.
Proof.
  intros [Hne [Hw|Hw]] Ht; split; try assumption.
  - left. unfold is_blank. apply forallb_forall. intros c Hin.
    rewrite Forall_forall in Hw. now apply whitespace_isspace, Hw.
  - right. unfold nonspace, tidy in *. rewrite Forall_forall in *. intros c Hin.
    destruct (Ht c Hin) as [->|H]; [|exact H].
    specialize (Hw _ Hin). discriminate.
Qed.

Lemma split_chunks_tidy (t : text) :
  tidy t ->
  List.concat (_split_chunks t) = t /\ Forall good (_split_chunks t).
Proof.
  intros Ht. unfold _split_chunks. rewrite munge_tidy by assumption.
  destruct (split_spec t) as [Hc Hu]. split; [assumption|].
  assert (Forall tidy (_split t)) as Hall.
  { apply concat_all. rewrite Hc. exact Ht. }
  rewrite Forall_forall in *. intros chunk Hin.
  apply uniform_tidy_good; auto.
Qed.

(** *** One round of the wrapping loop *)

Lemma total_len_app (a b : list text) :
  total_len (a ++ b) = total_len a + total_len b.
Proof. unfold total_len. now rewrite map_app, list_sum_app. Qed.

Lemma total_len_cons (c : text) (a : list text) :
  total_len (c :: a) = List.length c + total_len a.
Proof. reflexivity. Qed.

Lemma total_len_rev (a : list text) : total_len (rev a) = total_len a.
Proof.
  induction a as [|c a IH]; [reflexivity|].
  simpl rev. rewrite total_len_app, IH, !total_len_cons.
  unfold total_len at 2. simpl. lia.
Qed.

Lemma length_concat_total (a : list text) :
  List.length (List.concat a) = total_len a.
Proof.
  induction a as [|c a IH]; [reflexivity|].
  simpl. now rewrite length_app, IH.
Qed.

Lemma fill_line_spec (width : nat) (chunks : list text) :
  forall cur len,
  exists taken rest,
    chunks = taken ++ rest
    /\ fill_line width chunks cur len
       = (rest, rev taken ++ cur, len + total_len taken)
    /\ (taken = [] \/ len + total_len taken <= width)
    /\ match rest with
       | [] => True
       | chunk :: _ => width < len + total_len taken + List.length chunk
       end.
Proof.
  induction chunks as [|c chunks IH]; intros cur len.
  - exists [], []. simpl. rewrite Nat.add_0_r. auto.
  - simpl. destruct (len + List.length c <=? width) eqn:E.
    + apply Nat.leb_le in E.
      destruct (IH (c :: cur) (len + List.length c))
        as (taken & rest & -> & Hf & Hb & Hr).
      exists (c :: taken), rest. rewrite Hf, total_len_cons. simpl.
      rewrite <- app_assoc. simpl. rewrite Nat.add_assoc.
      split; [reflexivity|]. split; [reflexivity|]. split.
      * right. destruct Hb as [->|Hb]; [|lia].
        unfold total_len. simpl. lia.
      * destruct rest; [exact I|]. lia.
    + apply Nat.leb_gt in E. exists [], (c :: chunks). simpl.
      rewrite Nat.add_0_r. repeat split; auto; lia.
Qed.

Lemma find_last_hyphen_bound (chunk : text) :
  forall i stop j, find_last_hyphen chunk i stop = Some j -> i <= j < stop.
Proof.
  induction chunk as [|c chunk IH]; intros i stop j; simpl; [discriminate|].
  destruct (stop <=? i) eqn:E; [discriminate|]. apply Nat.leb_gt in E.
  destruct (find_last_hyphen chunk (S i) stop) as [k|] eqn:F.
  - intros [= <-]. apply IH in F. lia.
  - destruct (is_hyphen c); [|discriminate]. intros [= <-]. lia.
Qed.

(** Where [_handle_long_word] cuts the chunk: within the room left on the
    line, and after at least one character when there is room. *)
Lemma handle_long_word_spec (chunk : text) (chunks cur : list text)
    (len width : nat) :
  1 <= width ->
  exists stop,
    _handle_long_word chunk chunks cur len width
    = (skipn stop chunk :: chunks, firstn stop chunk :: cur)
    /\ stop <= width - len
    /\ (1 <= width - len -> 1 <= stop).
Proof.
  intros Hw. unfold _handle_long_word.
  assert (Hlt : (width <? 1) = false) by (apply Nat.ltb_ge; lia).
  rewrite Hlt.
  destruct (width - len <? List.length chunk);
    [|exists (width - len); auto].
  destruct (find_last_hyphen chunk 0 (width - len)) as [j|] eqn:F;
    [|exists (width - len); auto].
  apply find_last_hyphen_bound in F.
  destruct ((0 <? j) && existsb (fun c => negb (is_hyphen c)) (firstn j chunk));
    [exists (j + 1); split; [reflexivity|lia]|exists (width - len); auto].
Qed.

Lemma good_nonblank (chunk : text) :
  good chunk -> is_blank chunk = false -> nonspace chunk.
Proof. intros [_ [H|H]] E; [congruence|exact H]. Qed.

Lemma nonspace_nonblank (chunk : text) :
  chunk <> [] -> nonspace chunk -> is_blank chunk = false.
Proof.
  destruct chunk as [|c chunk]; [congruence|]. intros _ H.
  inversion H; subst. unfold is_blank. simpl. now rewrite H2.
Qed.

Lemma nonspace_firstn (n : nat) (chunk : text) :
  nonspace chunk -> nonspace (firstn n chunk).
Proof.
  intros H. unfold nonspace in *. rewrite <- (firstn_skipn n chunk) in H.
  now apply Forall_app in H.
Qed.

Lemma nonspace_skipn (n : nat) (chunk : text) :
  nonspace chunk -> nonspace (skipn n chunk).
Proof.
  intros H. unfold nonspace in *. rewrite <- (firstn_skipn n chunk) in H.
  now apply Forall_app in H.
Qed.

Lemma firstn_nonempty {A : Type} (n : nat) (l : list A) :
  1 <= n -> l <> [] -> firstn n l <> [].
Proof. destruct n; [lia|]. destruct l; [congruence|]. discriminate. Qed.

Lemma skipn_nonempty {A : Type} (n : nat) (l : list A) :
  n < List.length l -> skipn n l <> [].
Proof.
  intros H E. apply (f_equal (@List.length A)) in E.
  rewrite length_skipn in E. simpl in E. lia.
Qed.

Lemma first_nonblank_nonspace (chunk : text) (chunks : list text) :
  Forall good (chunk :: chunks) -> first_nonblank (chunk :: chunks) ->
  chunk <> [] /\ nonspace chunk.
Proof.
  intros Hg Hf. inversion Hg as [|? ? Hc _]; subst. split; [apply Hc|].
  now apply good_nonblank.
Qed.

Lemma last_nonblank_snoc (taken : list text) (chunk : text) :
  last_nonblank (taken ++ [chunk]) -> is_blank chunk = false.
Proof. unfold last_nonblank. rewrite rev_app_distr. simpl. auto. Qed.

Section OneLine.

Variable W : nat.
Variable ph : text.

Hypothesis W_positive : 1 <= W.

Local Abbreviation w := (mkTextWrapper W (Some 1) ph).

Lemma build_line_short (chunks : list text) :
  total_len chunks <= W -> last_nonblank chunks ->
  build_line w chunks = ([], rev chunks, total_len chunks).
Proof.
  intros Ht Hl. unfold build_line.
  destruct (fill_line_spec (width w) chunks [] 0)
    as (taken & rest & E & Hf & Hb & Hr).
  rewrite Hf. simpl width in *. destruct rest as [|chunk rest].
  - rewrite app_nil_r in E. subst taken. rewrite app_nil_r. simpl.
    unfold last_nonblank, first_nonblank in Hl.
    destruct (rev chunks) as [|final before]; [reflexivity|].
    now rewrite Hl.
  - exfalso. subst chunks. rewrite total_len_app, total_len_cons in Ht.
    simpl in Hr. lia.
Qed.

Lemma build_line_long (chunks : list text) :
  Forall good chunks -> first_nonblank chunks -> last_nonblank chunks ->
  W < total_len chunks ->
  exists rest cur tail,
    build_line w chunks = (rest, cur, total_len cur)
    /\ cur <> [] /\ total_len cur <= W
    /\ rest <> []
    /\ match rest with [only] => is_blank only = false | _ => True end
    /\ List.concat (rev cur) ++ tail = List.concat chunks.
Proof.
  intros Hg Hfirst Hlast Hlong. unfold build_line.
  destruct (fill_line_spec (width w) chunks [] 0)
    as (taken & rest & E & Hf & Hb & Hr).
  rewrite Hf. simpl width in *. rewrite app_nil_r. simpl Nat.add in *.
  assert (Htaken : total_len taken <= W) by (destruct Hb as [->|]; [unfold total_len; simpl|]; lia).
  destruct rest as [|chunk rest'].
  { exfalso. rewrite app_nil_r in E. subst. lia. }
  subst chunks.
  assert (Hchunk : good chunk).
  { apply Forall_app in Hg as [_ Hg]. now inversion Hg. }
  assert (Hlast' : rest' = [] -> nonspace chunk).
  { intros ->. apply good_nonblank; [assumption|].
    now apply last_nonblank_snoc with taken. }
  assert (Hfirst' : taken = [] -> nonspace chunk).
  { intros ->. apply good_nonblank; [assumption|]. exact Hfirst. }
  assert (Hhead : forall x before, rev taken = x :: before ->
                    is_blank x = true -> before <> []).
  { intros x before Hrev Hx ->.
    apply (f_equal (@rev text)) in Hrev. rewrite rev_involutive in Hrev.
    simpl in Hrev. subst taken. simpl in Hfirst. congruence. }
  destruct (W <? List.length chunk) eqn:Hbig.
  - apply Nat.ltb_lt in Hbig.
    destruct (@handle_long_word_spec chunk rest' (rev taken) (total_len taken)
                W W_positive) as (stop & Hh & Hs1 & Hs2).
    rewrite Hh.
    pose proof (length_firstn stop chunk) as Hlen.
    assert (Hrest : skipn stop chunk <> []) by (apply skipn_nonempty; lia).
    assert (Hsingle : match skipn stop chunk :: rest' with
                      | [only] => is_blank only = false
                      | _ => True
                      end).
    { destruct rest'; [|exact I]. apply nonspace_nonblank; [assumption|].
      apply nonspace_skipn. now apply Hlast'. }
    destruct (is_blank (firstn stop chunk)) eqn:Hblank.
    + exists (skipn stop chunk :: rest'), (rev taken),
             (chunk ++ List.concat rest').
      repeat split; try assumption.
      * f_equal. rewrite total_len_cons. lia.
      * intros Hnil. apply (f_equal (@rev text)) in Hnil.
        rewrite rev_involutive in Hnil. simpl in Hnil.
        assert (is_blank (firstn stop chunk) = false); [|congruence].
        apply nonspace_nonblank.
        -- apply firstn_nonempty; [|apply Hchunk].
           apply Hs2. subst taken. unfold total_len. simpl. lia.
        -- apply nonspace_firstn. now apply Hfirst'.
      * now rewrite total_len_rev.
      * discriminate.
      * rewrite rev_involutive, concat_app. reflexivity.
    + exists (skipn stop chunk :: rest'), (firstn stop chunk :: rev taken),
             (skipn stop chunk ++ List.concat rest').
      repeat split; try assumption.
      * discriminate.
      * rewrite total_len_cons, total_len_rev. lia.
      * discriminate.
      * simpl rev. rewrite rev_involutive, !concat_app. simpl.
        rewrite app_nil_r, <- !app_assoc. f_equal.
        rewrite app_assoc, firstn_skipn. reflexivity.
  - apply Nat.ltb_ge in Hbig.
    assert (Hne : taken <> []).
    { intros ->. unfold total_len in Hr. simpl in Hr. lia. }
    assert (Hsingle : match chunk :: rest' with
                      | [only] => is_blank only = false
                      | _ => True
                      end).
    { destruct rest'; [|exact I]. now apply last_nonblank_snoc with taken. }
    destruct (rev taken) as [|final before] eqn:Hrev.
    { exfalso. apply Hne. apply (f_equal (@rev text)) in Hrev.
      now rewrite rev_involutive in Hrev. }
    assert (Htot : total_len taken = List.length final + total_len before).
    { rewrite <- total_len_rev, Hrev. apply total_len_cons. }
    assert (Hcat : List.concat taken = List.concat (rev before) ++ final).
    { apply (f_equal (@rev text)) in Hrev. rewrite rev_involutive in Hrev.
      subst taken. simpl. rewrite concat_app. simpl. now rewrite app_nil_r. }
    destruct (is_blank final) eqn:Hblank.
    + exists (chunk :: rest'), before, (final ++ List.concat (chunk :: rest')).
      repeat split; try assumption.
      * f_equal. lia.
      * now apply Hhead with final.
      * lia.
      * discriminate.
      * rewrite concat_app, Hcat, <- app_assoc. reflexivity.
    + exists (chunk :: rest'), (final :: before), (List.concat (chunk :: rest')).
      repeat split; try assumption.
      * f_equal. rewrite total_len_cons. lia.
      * discriminate.
      * rewrite total_len_cons. lia.
      * discriminate.
      * rewrite concat_app. f_equal. rewrite Hcat. simpl.
        rewrite concat_app. simpl. now rewrite app_nil_r.
Qed.

(** The placeholder goes after a prefix of the line, within the width. *)
Lemma place_placeholder_spec (cur : list text) :
  forall line,
  place_placeholder w cur (total_len cur) = Some line ->
  exists kept dropped,
    cur = dropped ++ kept
    /\ line = List.concat (rev kept) ++ ph
    /\ total_len kept + List.length ph <= W.
Proof.
  induction cur as [|final before IH]; intros line; simpl; [discriminate|].
  destruct (negb (is_blank final)
            && (total_len (final :: before) + List.length ph <=? W)) eqn:E.
  - intros [= <-]. apply andb_prop in E as [_ E]. apply Nat.leb_le in E.
    exists (final :: before), []. split; [reflexivity|]. split; [|exact E].
    simpl. rewrite !concat_app. simpl. now rewrite !app_nil_r, <- app_assoc.
  - rewrite total_len_cons.
    replace (List.length final + total_len before - List.length final)
      with (total_len before) by lia.
    intros H. destruct (IH _ H) as (kept & dropped & -> & Hl & Hk).
    exists kept, (final :: dropped). auto.
Qed.

End OneLine.

(** *** [shorten] on a whole text *)

Lemma is_blank_member (chunk : text) (c : ascii) :
  In c chunk -> str_isspace c = false -> is_blank chunk = false.
Proof.
  intros Hin Hc. destruct (is_blank chunk) eqn:E; [|reflexivity].
  unfold is_blank in E. rewrite forallb_forall in E.
  specialize (E _ Hin). congruence.
Qed.

Lemma first_nonblank_of_concat (chunks : list text) :
  Forall good chunks -> starts_nonspace (List.concat chunks) ->
  first_nonblank chunks.
Proof.
  intros Hg Hs. destruct chunks as [|chunk chunks]; [exact I|].
  inversion Hg as [|? ? [Hne _] _]; subst.
  destruct chunk as [|c chunk]; [congruence|].
  simpl in Hs. unfold first_nonblank.
  apply is_blank_member with c; [now left|assumption].
Qed.

Lemma last_nonblank_of_concat (chunks : list text) :
  Forall good chunks -> starts_nonspace (rev (List.concat chunks)) ->
  last_nonblank chunks.
Proof.
  intros Hg Hs. unfold last_nonblank.
  destruct (rev chunks) as [|chunk before] eqn:Hrev; [exact I|].
  apply (f_equal (@rev text)) in Hrev. rewrite rev_involutive in Hrev.
  subst chunks. simpl in *. rewrite concat_app, rev_app_distr in Hs.
  simpl in Hs. rewrite app_nil_r in Hs.
  apply Forall_app in Hg as [_ Hg]. inversion Hg as [|? ? [Hne _] _]; subst.
  destruct (rev chunk) as [|c r] eqn:Hc.
  - exfalso. apply Hne. apply (f_equal (@rev ascii)) in Hc.
    now rewrite rev_involutive in Hc.
  - simpl in Hs. apply is_blank_member with c; [|assumption].
    apply in_rev. rewrite Hc. now left.
Qed.

Lemma chunks_of_collapsed (s : text) :
  let chunks := _split_chunks (collapse s) in
  List.concat chunks = collapse s /\ Forall good chunks
  /\ first_nonblank chunks /\ last_nonblank chunks.
Proof.
  destruct (@split_chunks_tidy (collapse s) (collapse_tidy s)) as [Hc Hg]. simpl.
  repeat split; try assumption.
  - apply first_nonblank_of_concat; [assumption|]. rewrite Hc.
    apply collapse_starts.
  - apply last_nonblank_of_concat; [assumption|]. rewrite Hc.
    apply collapse_ends.
Qed.

Lemma wrap_loop_short (fuel : nat) (chunks : list text) :
  last_nonblank chunks -> total_len chunks <= 20 -> chunks <> [] ->
  wrap_loop (S fuel) (mkTextWrapper 20 (Some 1) dots) chunks []
  = Returned [List.concat chunks].
Proof.
  intros Hl Ht Hne. destruct chunks as [|first after]; [congruence|].
  cbn [wrap_loop]. simpl List.length. rewrite andb_false_r.
  rewrite (@build_line_short 20 dots ltac:(lia) (first :: after)) by assumption.
  destruct (rev (first :: after)) as [|final before] eqn:Hrev.
  { apply (f_equal (@List.length text)) in Hrev. rewrite length_rev in Hrev.
    discriminate. }
  unfold line_allowed. cbn [max_lines width].
  assert (Hle : (total_len (first :: after) <=? 20) = true)
    by now apply Nat.leb_le.
  rewrite Hle. simpl orb. cbv iota. rewrite <- Hrev, rev_involutive.
  destruct fuel; reflexivity.
Qed.

Lemma wrap_loop_long (fuel : nat) (chunks : list text) :
  Forall good chunks -> first_nonblank chunks -> last_nonblank chunks ->
  20 < total_len chunks ->
  exists p tail,
    wrap_loop (S fuel) (mkTextWrapper 20 (Some 1) dots) chunks []
    = Returned [p ++ dots]
    /\ List.length p <= 17 /\ p ++ tail = List.concat chunks.
Proof.
  intros Hg Hf Hl Ht.
  destruct chunks as [|first after]; [unfold total_len in Ht; simpl in Ht; lia|].
  cbn [wrap_loop]. simpl List.length. rewrite andb_false_r.
  destruct (@build_line_long 20 dots ltac:(lia) (first :: after) Hg Hf Hl Ht)
    as (rest & cur & tail & Hb & Hcur & Hlen & Hrest & Hsingle & Hcat).
  rewrite Hb. destruct cur as [|final before]; [congruence|].
  assert (Hno : line_allowed (mkTextWrapper 20 (Some 1) dots) rest []
                             (total_len (final :: before)) = false).
  { unfold line_allowed. cbn [max_lines width]. simpl List.length.
    destruct rest as [|only [|another rest]]; [congruence| |reflexivity].
    rewrite Hsingle. reflexivity. }
  rewrite Hno. unfold truncated_lines.
  destruct (place_placeholder _ (final :: before) _) as [line|] eqn:Hp.
  - apply (@place_placeholder_spec 20 dots ltac:(lia)) in Hp
      as (kept & dropped & Hsplit & -> & Hk).
    exists (List.concat (rev kept)), (List.concat (rev dropped) ++ tail).
    split; [reflexivity|]. split.
    + rewrite length_concat_total, total_len_rev. simpl in Hk. lia.
    + rewrite <- Hcat, Hsplit, rev_app_distr, concat_app, app_assoc.
      reflexivity.
  - exists [], (List.concat (first :: after)). simpl. repeat split. lia.
Qed.

(** A text whose collapsed form fits in 20 characters is returned
    collapsed. *)
Lemma shorten_text_short (s : text) :
  List.length (collapse s) <= 20 ->
  shorten_text s 20 dots = Returned (collapse s).
Proof.
  intros Hlen. unfold shorten_text, fill, wrap, _wrap_chunks.
  cbn [width max_lines placeholder].
  destruct (chunks_of_collapsed s) as (Hc & Hg & Hf & Hl).
  change (20 <=? 0) with false.
  change (20 <? List.length (lstrip dots)) with false. cbv iota.
  remember (_split_chunks (collapse s)) as chunks eqn:E.
  destruct chunks as [|first after].
  - simpl in *. now rewrite <- Hc.
  - rewrite wrap_loop_short; try assumption; try discriminate.
    + rewrite Hc. reflexivity.
    + rewrite <- length_concat_total, Hc. exact Hlen.
Qed.

(** A longer one is cut to a prefix, followed by the placeholder, within
    the 20 characters. *)
Lemma shorten_text_long (s : text) :
  20 < List.length (collapse s) ->
  exists p tail,
    shorten_text s 20 dots = Returned (p ++ dots)
    /\ List.length p <= 17 /\ p ++ tail = collapse s.
Proof.
  intros Hlen. unfold shorten_text, fill, wrap, _wrap_chunks.
  cbn [width max_lines placeholder].
  destruct (chunks_of_collapsed s) as (Hc & Hg & Hf & Hl).
  change (20 <=? 0) with false.
  change (20 <? List.length (lstrip dots)) with false. cbv iota.
  set (chunks := _split_chunks (collapse s)) in *.
  destruct (@wrap_loop_long (List.length chunks + total_len chunks) chunks)
    as (p & tail & Hw & Hp & Hcat); try assumption.
  { rewrite <- length_concat_total, Hc. exact Hlen. }
  exists p, tail. rewrite Hw, <- Hc. auto.
Qed.

End textwrap_facts.

Set Implicit Arguments.

(** ** [plot_vlines] *)

Section VlinesFacts.

Variable view_x view_y : (handle -> Axes) -> handle -> Q * Q.

Lemma string_of_list_ascii_app (a b : list ascii) :
  string_of_list_ascii (a ++ b)
  = (string_of_list_ascii a ++ string_of_list_ascii b)%string.
Proof. induction a as [|c a IH]; simpl; [reflexivity|now rewrite IH]. Qed.

Lemma length_string_of_list_ascii (a : list ascii) :
  String.length (string_of_list_ascii a) = List.length a.
Proof. induction a as [|c a IH]; simpl; [reflexivity|now rewrite IH]. Qed.

Lemma length_collapsed (label : string) :
  String.length (collapsed label)
  = List.length (textwrap.collapse (list_ascii_of_string label)).
Proof. apply length_string_of_list_ascii. Qed.

(** [shorten] returns, on every label. *)
Lemma shorten_returns (label : string) :
  textwrap.shorten label 20 "..." = Returned (shortened label).
Proof.
  unfold shortened, textwrap.shorten.
  change (list_ascii_of_string "...") with textwrap_words.dots.
  destruct (Nat.le_gt_cases
              (List.length (textwrap.collapse (list_ascii_of_string label))) 20)
    as [H|H].
  - now rewrite (textwrap_facts.shorten_text_short _ H).
  - destruct (textwrap_facts.shorten_text_long _ H) as (p & tail & E & _). now rewrite E.
Qed.

Lemma shortened_short (label : string) :
  String.length (collapsed label) <= 20 -> shortened label = collapsed label.
Proof.
  rewrite length_collapsed. intros H. unfold shortened, textwrap.shorten.
  change (list_ascii_of_string "...") with textwrap_words.dots.
  now rewrite (textwrap_facts.shorten_text_short _ H).
Qed.

Lemma shortened_long (label : string) :
  20 < String.length (collapsed label) ->
  exists p tail,
    shortened label = (p ++ "...")%string
    /\ String.length p <= 17
    /\ (p ++ tail)%string = collapsed label.
Proof.
  rewrite length_collapsed. intros H. unfold shortened, textwrap.shorten.
  change (list_ascii_of_string "...") with textwrap_words.dots.
  destruct (textwrap_facts.shorten_text_long _ H) as (p & tail & E & Hp & Hc). rewrite E.
  exists (string_of_list_ascii p), (string_of_list_ascii tail).
  rewrite string_of_list_ascii_app, length_string_of_list_ascii.
  split; [reflexivity|]. split; [assumption|].
  unfold collapsed. now rewrite <- Hc, string_of_list_ascii_app.
Qed.

(** *** Reasoning about plotting code *)

Lemma returns_ret {A : Type} (a : A) (w : World) (P : A -> World -> Prop) :
  P a w -> returns (ret a) w P.
Proof. intros H. exists a, w. auto. Qed.

Lemma returns_bind {A B : Type} (c : M A) (k : A -> M B) (w : World)
    (P : B -> World -> Prop) :
  returns c w (fun a w1 => returns (k a) w1 P) -> returns (bind c k) w P.
Proof.
  intros (a & w1 & Hc & b & w2 & Hk & HP). exists b, w2.
  unfold bind. rewrite Hc. auto.
Qed.

Lemma returns_impl {A : Type} (c : M A) (w : World) (P Q : A -> World -> Prop) :
  returns c w P -> (forall a w', P a w' -> Q a w') -> returns c w Q.
Proof. intros (a & w' & Hc & HP) H. exists a, w'. auto. Qed.

Lemma appended_nil (a : Axes) : appended [] a = a.
Proof. destruct a. unfold appended. simpl. now rewrite app_nil_r. Qed.

Lemma appended_app (l1 l2 : list Artist) (a : Axes) :
  appended l2 (appended l1 a) = appended (l1 ++ l2) a.
Proof. unfold appended. simpl. now rewrite app_assoc. Qed.

Lemma draws_on_refl (ax : handle) (w : World) : draws_on ax [] w w.
Proof.
  repeat split. intros h. rewrite appended_nil. now destruct (h =? ax).
Qed.

Lemma draws_on_trans (ax : handle) (l1 l2 : list Artist) (w w1 w2 : World) :
  draws_on ax l1 w w1 -> draws_on ax l2 w1 w2 -> draws_on ax (l1 ++ l2) w w2.
Proof.
  intros (Ha & Hf & Hd & Hn1 & Hn2 & Hn3) (Ha' & Hf' & Hd' & Hn1' & Hn2' & Hn3').
  repeat split; try congruence.
  intros h. rewrite Ha', Ha. destruct (h =? ax); [apply appended_app|reflexivity].
Qed.

Lemma add_artist_draws (ax : handle) (art : Artist) (w : World) :
  returns (add_artist ax art) w (fun _ w' => draws_on ax [art] w w').
Proof.
  eexists tt, _. split; [reflexivity|]. repeat split.
  intros h. simpl. unfold update. destruct (h =? ax) eqn:E; [|reflexivity].
  apply Nat.eqb_eq in E. now subst h.
Qed.

Lemma autoscale_off (w : World) :
  returns (autoscale view_x view_y false false) w (fun _ w' => forall ax, draws_on ax [] w w').
Proof.
  eexists tt, _. split; [reflexivity|]. intros ax. repeat split.
  intros h. simpl. rewrite appended_nil. now destruct (h =? ax).
Qed.

Lemma in_bounds (xmin xmax xx : Q) :
  Qle_bool xmin xx && Qle_bool xx xmax = true ->
  let '(lo, hi) := sorted_bounds (xmin, xmax) in
  Qlt_bool xx lo || Qlt_bool hi xx = false.
Proof.
  intros H. apply andb_prop in H as [B1 B2].
  pose proof (proj1 (Qle_bool_iff _ _) B1) as H1.
  pose proof (proj1 (Qle_bool_iff _ _) B2) as H2.
  unfold sorted_bounds, Qlt_bool. simpl.
  destruct (Qle_bool xmax xmin) eqn:E; simpl.
  - apply Qle_bool_iff in E.
    assert (E1 : Qle_bool xmax xx = true) by (apply Qle_bool_iff; lra).
    assert (E2 : Qle_bool xx xmin = true) by (apply Qle_bool_iff; lra).
    now rewrite E1, E2.
  - now rewrite B1, B2.
Qed.

(** A marker at a date within the limits leaves the limits alone. *)
Lemma axvline_draws (ax : handle) (x : Timestamp) (w : World) :
  in_xrange (axes_of w ax) x = true ->
  returns (axvline view_x view_y ax x "gray" ":") w
          (fun _ w' => draws_on ax [marker x] w w').
Proof.
  intros Hin. unfold axvline. apply returns_bind.
  eexists _, w. split; [reflexivity|].
  pose proof (in_bounds (fst (xlim (axes_of w ax))) (snd (xlim (axes_of w ax)))
                        (date2num x) Hin) as Hb.
  rewrite <- surjective_pairing in Hb.
  destruct (sorted_bounds (xlim (axes_of w ax))) as [lo hi].
  apply returns_bind.
  eapply returns_impl; [apply add_artist_draws|]. intros [] w1 H1. cbv beta.
  rewrite Hb. eapply returns_impl; [apply autoscale_off|].
  intros [] w2 H2. rewrite <- (app_nil_r [marker x]).
  eapply draws_on_trans; eauto.
Qed.

Lemma draws_on_axes (ax : handle) (arts : list Artist) (w w' : World) :
  draws_on ax arts w w' -> axes_of w' ax = appended arts (axes_of w ax).
Proof. intros [H _]. rewrite H. now rewrite Nat.eqb_refl. Qed.

(** One round of the loop, for a date within the limits. *)
Lemma plot_vline_in (ax : handle) (alignment : string) (a : Axes)
    (item : Timestamp * string) (w : World) :
  valid_alignment alignment ->
  xlim (axes_of w ax) = xlim a ->
  in_xrange a (fst item) = true ->
  returns (plot_vline view_x view_y ax alignment (fst (ylim a)) (snd (ylim a))
                      (fst (xlim a)) (snd (xlim a)) item) w
          (fun _ w' =>
             draws_on ax [marker (fst item); label_text a alignment item] w w').
Proof.
  intros Hal Hx Hin. destruct item as [x label]. unfold plot_vline.
  simpl fst in *. simpl snd in *. unfold in_xrange in Hin. rewrite Hin.
  apply returns_bind. exists (shortened label), w.
  split; [unfold lift; now rewrite shorten_returns|].
  apply returns_bind. eapply returns_impl.
  { apply axvline_draws. unfold in_xrange. now rewrite Hx. }
  intros [] w1 H1. cbv beta.
  assert (Hy : returns
            (if (alignment =? "top")%string
             then ret (fst (ylim a) + (98 # 100) * (snd (ylim a) - fst (ylim a)))%Q
             else if (alignment =? "bottom")%string
                  then ret (fst (ylim a) + (2 # 100) * (snd (ylim a) - fst (ylim a)))%Q
                  else raise (ValueError ("Unsupported alignment: '" ++ alignment ++ "'")))
            w1 (fun y w2 => w2 = w1 /\ y = label_y a alignment)).
  { unfold label_y. rewrite (surjective_pairing (ylim a)). simpl fst. simpl snd.
    destruct Hal as [-> | ->]; simpl; apply returns_ret; auto. }
  apply returns_bind. eapply returns_impl; [exact Hy|].
  intros y w2 [-> ->]. unfold text.
  eapply returns_impl; [apply add_artist_draws|]. intros [] w3 H3.
  change [marker x; label_text a alignment (x, label)]
    with ([marker x] ++ [label_text a alignment (x, label)]).
  eapply draws_on_trans; eauto.
Qed.

(** One round of the loop, for a date outside the limits: nothing
    happens, whatever the alignment. *)
Lemma plot_vline_out (ax : handle) (alignment : string) (a : Axes)
    (item : Timestamp * string) (w : World) :
  in_xrange a (fst item) = false ->
  plot_vline view_x view_y ax alignment (fst (ylim a)) (snd (ylim a))
             (fst (xlim a)) (snd (xlim a)) item w
  = (Returned tt, w).
Proof.
  intros Hin. destruct item as [x label]. unfold plot_vline.
  unfold in_xrange in Hin. simpl in Hin. now rewrite Hin.
Qed.

Lemma for_each_annotations (ax : handle) (alignment : string) (a : Axes)
    (items : NamedDates) :
  valid_alignment alignment ->
  forall w,
    xlim (axes_of w ax) = xlim a ->
    returns (for_each items
               (plot_vline view_x view_y ax alignment (fst (ylim a))
                           (snd (ylim a)) (fst (xlim a)) (snd (xlim a)))) w
            (fun _ w' => draws_on ax (annotations a alignment items) w w').
Proof.
  intros Hal. induction items as [|item items IH]; intros w Hx.
  - apply returns_ret. apply draws_on_refl.
  - cbn [for_each annotations flat_map]. apply returns_bind.
    destruct (in_xrange a (fst item)) eqn:Hin.
    + eapply returns_impl; [now apply plot_vline_in|].
      intros [] w1 H1. cbv beta. eapply returns_impl.
      * apply IH. rewrite (draws_on_axes H1). simpl. exact Hx.
      * intros [] w2 H2. eapply draws_on_trans; eauto.
    + exists tt, w. split; [now apply plot_vline_out|].
      eapply returns_impl; [now apply IH|]. auto.
Qed.

(** [plot_vlines] with a valid alignment: it returns, having drawn the
    annotations of the dates within the limits, and nothing else. *)
Lemma plot_vlines_valid (ax vlines : handle) (alignment : string) (w : World) :
  valid_alignment alignment ->
  returns (plot_vlines view_x view_y ax vlines alignment) w
          (fun _ w' =>
             draws_on ax (annotations (axes_of w ax) alignment (dict_of w vlines))
                      w w').
Proof.
  intros Hal. unfold plot_vlines, get_ylim, get_xlim.
  apply returns_bind. apply returns_bind.
  eexists _, w. split; [reflexivity|]. apply returns_ret.
  destruct (ylim (axes_of w ax)) as [ymin ymax] eqn:Hy.
  apply returns_bind. apply returns_bind.
  eexists _, w. split; [reflexivity|]. apply returns_ret.
  destruct (xlim (axes_of w ax)) as [xmin xmax] eqn:Hx.
  apply returns_bind. eexists _, w. split; [reflexivity|].
  apply returns_bind.
  pose proof (@for_each_annotations ax alignment (axes_of w ax)
                (dict_of w vlines) Hal w eq_refl) as H.
  rewrite Hy, Hx in H. simpl fst in H. simpl snd in H.
  eapply returns_impl; [exact H|]. intros [] w' H'. now apply returns_ret.
Qed.

(** *** [plot_vlines] with an alignment it does not support *)

Lemma invalid_alignment_eqb (alignment : string) :
  ~ valid_alignment alignment ->
  (alignment =? "top")%string = false /\ (alignment =? "bottom")%string = false.
Proof.
  intros H. split; apply String.eqb_neq; intros E; apply H; [now left|now right].
Qed.

(** One round of the loop, for a date within the limits: the marker is
    drawn, then the alignment is rejected. *)
Lemma plot_vline_invalid (ax : handle) (alignment : string) (a : Axes)
    (item : Timestamp * string) (w : World) :
  ~ valid_alignment alignment ->
  xlim (axes_of w ax) = xlim a ->
  in_xrange a (fst item) = true ->
  exists w',
    plot_vline view_x view_y ax alignment (fst (ylim a)) (snd (ylim a))
               (fst (xlim a)) (snd (xlim a)) item w
    = (Raised (unsupported alignment), w')
    /\ draws_on ax [marker (fst item)] w w'.
Proof.
  intros Hal Hx Hin. destruct item as [x label]. unfold plot_vline.
  simpl fst in *. unfold in_xrange in Hin. rewrite Hin.
  destruct (invalid_alignment_eqb Hal) as [Ht Hb]. rewrite Ht, Hb.
  destruct (@axvline_draws ax x w) as ([] & w1 & Hv & H1).
  { unfold in_xrange. now rewrite Hx. }
  exists w1. split; [|exact H1].
  unfold bind at 1. unfold lift. rewrite shorten_returns.
  unfold bind at 1. rewrite Hv. reflexivity.
Qed.

(** The loop with an unsupported alignment stops at the first date within
    the limits. *)
Lemma for_each_invalid (ax : handle) (alignment : string) (a : Axes)
    (items : NamedDates) :
  ~ valid_alignment alignment ->
  forall w,
    xlim (axes_of w ax) = xlim a ->
    match find (fun item => in_xrange a (fst item)) items with
    | None =>
        for_each items
          (plot_vline view_x view_y ax alignment (fst (ylim a)) (snd (ylim a))
                      (fst (xlim a)) (snd (xlim a))) w
        = (Returned tt, w)
    | Some item =>
        exists w',
          for_each items
            (plot_vline view_x view_y ax alignment (fst (ylim a)) (snd (ylim a))
                        (fst (xlim a)) (snd (xlim a))) w
          = (Raised (unsupported alignment), w')
          /\ draws_on ax [marker (fst item)] w w'
    end.
Proof.
  intros Hal. induction items as [|item items IH]; intros w Hx; [reflexivity|].
  cbn [find for_each]. destruct (in_xrange a (fst item)) eqn:Hin.
  - destruct (@plot_vline_invalid ax alignment a item w Hal Hx Hin)
      as (w' & Hv & Hd).
    exists w'. split; [|exact Hd]. unfold bind. now rewrite Hv.
  - specialize (IH w Hx).
    destruct (find (fun item => in_xrange a (fst item)) items).
    + destruct IH as (w' & Hf & Hd). exists w'. split; [|exact Hd].
      unfold bind. now rewrite plot_vline_out by assumption.
    + unfold bind. now rewrite plot_vline_out by assumption.
Qed.

Lemma plot_vlines_unfold (ax vlines : handle) (alignment : string) (w : World) :
  plot_vlines view_x view_y ax vlines alignment w
  = let a := axes_of w ax in
    match for_each (dict_of w vlines)
            (plot_vline view_x view_y ax alignment (fst (ylim a)) (snd (ylim a))
                        (fst (xlim a)) (snd (xlim a))) w with
    | (Returned _, w') => (Returned tt, w')
    | (Raised e, w') => (Raised e, w')
    | (OutOfFuel, w') => (OutOfFuel, w')
    end.
Proof.
  unfold plot_vlines, get_ylim, get_xlim, get_axes, get_dict.
  cbv [bind ret].
  destruct (ylim (axes_of w ax)) as [ymin ymax].
  destruct (xlim (axes_of w ax)) as [xmin xmax]. simpl.
  destruct (for_each _ _ w) as [[[]| |] w']; reflexivity.
Qed.

Lemma plot_vlines_invalid (ax vlines : handle) (alignment : string) (w : World) :
  ~ valid_alignment alignment ->
  match find (fun item => in_xrange (axes_of w ax) (fst item)) (dict_of w vlines) with
  | None => plot_vlines view_x view_y ax vlines alignment w = (Returned tt, w)
  | Some item =>
      exists w',
        plot_vlines view_x view_y ax vlines alignment w
        = (Raised (unsupported alignment), w')
        /\ draws_on ax [marker (fst item)] w w'
  end.
Proof.
  intros Hal.
  pose proof (@for_each_invalid ax alignment (axes_of w ax) (dict_of w vlines)
                Hal w eq_refl) as H.
  rewrite plot_vlines_unfold. cbv zeta.
  destruct (find _ (dict_of w vlines)) as [item|].
  - destruct H as (w' & Hf & Hd). exists w'. now rewrite Hf.
  - now rewrite H.
Qed.

(** With no date within the limits nothing happens, whatever the
    alignment. *)
Lemma plot_vlines_out_of_range (ax vlines : handle) (alignment : string)
    (w : World) :
  (forall item, In item (dict_of w vlines) ->
                in_xrange (axes_of w ax) (fst item) = false) ->
  plot_vlines view_x view_y ax vlines alignment w = (Returned tt, w).
Proof.
  intros Hout.
  assert (Hloop : forall items w0,
            (forall item, In item items ->
                          in_xrange (axes_of w ax) (fst item) = false) ->
            for_each items
              (plot_vline view_x view_y ax alignment
                 (fst (ylim (axes_of w ax))) (snd (ylim (axes_of w ax)))
                 (fst (xlim (axes_of w ax))) (snd (xlim (axes_of w ax)))) w0
            = (Returned tt, w0)).
  { induction items as [|item items IH]; intros w0 H; [reflexivity|].
    cbn [for_each]. unfold bind at 1.
    rewrite plot_vline_out by (apply H; now left).
    apply IH. intros i Hi. apply H. now right. }
  specialize (Hloop (dict_of w vlines) w Hout).
  rewrite plot_vlines_unfold. cbv zeta. now rewrite Hloop.
Qed.

End VlinesFacts.

(** ** Events of the primitives *)

Lemma drawn_on_app (h : handle) (e1 e2 : list Event) :
  drawn_on h (e1 ++ e2) = drawn_on h e1 ++ drawn_on h e2.
Proof. apply flat_map_app. Qed.

Lemma drawn_on_map (h ax : handle) (arts : list Artist) :
  drawn_on h (map (Drawn ax) arts) = if ax =? h then arts else [].
Proof.
  induction arts as [|art arts IH]; [now destruct (ax =? h)|].
  change (drawn_on h (map (Drawn ax) (art :: arts)))
    with ((if ax =? h then [art] else []) ++ drawn_on h (map (Drawn ax) arts)).
  rewrite IH. now destruct (ax =? h).
Qed.

Lemma xlim_kept_map (h ax : handle) (arts : list Artist) :
  xlim_kept h (map (Drawn ax) arts) = true.
Proof. induction arts; simpl; auto. Qed.

Lemma ylim_kept_map (h ax : handle) (arts : list Artist) :
  ylim_kept h (map (Drawn ax) arts) = true.
Proof. induction arts; simpl; auto. Qed.

Lemma rescaled_map (ax : handle) (arts : list Artist) :
  rescaled (map (Drawn ax) arts) = false.
Proof. induction arts; simpl; auto. Qed.

Lemma rescaled_app (e1 e2 : list Event) :
  rescaled (e1 ++ e2) = rescaled e1 || rescaled e2.
Proof. apply existsb_app. Qed.

Lemma allocated_map (ax : handle) (arts : list Artist) :
  allocated (map (Drawn ax) arts) = false.
Proof. induction arts; simpl; auto. Qed.

Lemma allocated_app (e1 e2 : list Event) :
  allocated (e1 ++ e2) = allocated e1 || allocated e2.
Proof. apply existsb_app. Qed.

Lemma xlim_kept_app (h : handle) (e1 e2 : list Event) :
  xlim_kept h (e1 ++ e2) = xlim_kept h e1 && xlim_kept h e2.
Proof. apply forallb_app. Qed.

Lemma ylim_kept_app (h : handle) (e1 e2 : list Event) :
  ylim_kept h (e1 ++ e2) = ylim_kept h e1 && ylim_kept h e2.
Proof. apply forallb_app. Qed.

Lemma evolves_refl (w : World) : evolves [] w w.
Proof. constructor; simpl; intros; auto. now rewrite app_nil_r. Qed.

Lemma evolves_trans (e1 e2 : list Event) (w w1 w2 : World) :
  evolves e1 w w1 -> evolves e2 w1 w2 -> evolves (e1 ++ e2) w w2.
Proof.
  intros H1 H2. constructor.
  - intros h. rewrite (ev_artists H2), (ev_artists H1), drawn_on_app.
    now rewrite app_assoc.
  - intros h Hk. unfold xlim_kept in Hk. rewrite forallb_app in Hk.
    apply andb_prop in Hk as [Hk1 Hk2].
    now rewrite (ev_xflag H2 h Hk2), (ev_xflag H1 h Hk1).
  - intros h Hk. unfold ylim_kept in Hk. rewrite forallb_app in Hk.
    apply andb_prop in Hk as [Hk1 Hk2].
    now rewrite (ev_yflag H2 h Hk2), (ev_yflag H1 h Hk1).
  - intros h Hk Hc. unfold xlim_kept in Hk. rewrite forallb_app in Hk.
    apply andb_prop in Hk as [Hk1 Hk2]. rewrite rescaled_app in Hc.
    rewrite (ev_xlim H2 h Hk2), (ev_xlim H1 h Hk1); auto.
    + destruct Hc as [Hc|Hc]; [now left|right].
      now apply orb_false_elim in Hc.
    + rewrite (ev_xflag H1 h Hk1). destruct Hc as [Hc|Hc]; [now left|right].
      now apply orb_false_elim in Hc.
  - intros h Hk Hc. unfold ylim_kept in Hk. rewrite forallb_app in Hk.
    apply andb_prop in Hk as [Hk1 Hk2]. rewrite rescaled_app in Hc.
    rewrite (ev_ylim H2 h Hk2), (ev_ylim H1 h Hk1); auto.
    + destruct Hc as [Hc|Hc]; [now left|right].
      now apply orb_false_elim in Hc.
    + rewrite (ev_yflag H1 h Hk1). destruct Hc as [Hc|Hc]; [now left|right].
      now apply orb_false_elim in Hc.
  - rewrite (ev_idata H2). apply (ev_idata H1).
  - rewrite (ev_series H2). apply (ev_series H1).
  - rewrite (ev_frame H2). apply (ev_frame H1).
  - rewrite (ev_prophet H2). apply (ev_prophet H1).
  - intros h Hh. rewrite (ev_dicts H2), (ev_dicts H1); auto.
    pose proof (ev_next_dict H1). lia.
  - pose proof (ev_next_dict H1). pose proof (ev_next_dict H2). lia.
  - rewrite allocated_app. intros Hn. apply orb_false_elim in Hn as [Hn1 Hn2].
    destruct (ev_no_dict H1 Hn1) as [D1 N1].
    destruct (ev_no_dict H2 Hn2) as [D2 N2]. split; congruence.
Qed.

Lemma draws_on_evolves (ax : handle) (arts : list Artist) (w w' : World) :
  draws_on ax arts w w' -> evolves (map (Drawn ax) arts) w w'.
Proof.
  intros (Ha & Hf & Hd & Hn1 & Hn2 & Hn3).
  unfold data_of in Hd. injection Hd as Hd1 Hd2 Hd3 Hd4 Hd5.
  constructor; try assumption.
  - intros h. rewrite Ha, drawn_on_map, (Nat.eqb_sym ax h).
    destruct (h =? ax); simpl; [reflexivity|now rewrite app_nil_r].
  - intros h _. rewrite Ha. now destruct (h =? ax).
  - intros h _. rewrite Ha. now destruct (h =? ax).
  - intros h _ _. rewrite Ha. now destruct (h =? ax).
  - intros h _ _. rewrite Ha. now destruct (h =? ax).
  - intros h _. now rewrite Hd1.
  - lia.
  - auto.
Qed.

Section Primitives.

Variable view_x view_y : (handle -> Axes) -> handle -> Q * Q.

Lemma autoscale_evolves (x y : bool) (w : World) :
  returns (autoscale view_x view_y x y) w (fun _ w' => evolves [Rescaled] w w').
Proof.
  eexists tt, _. split; [reflexivity|]. constructor; simpl; auto.
  - intros h. rewrite app_nil_r.
    destruct (x && autoscalex_on (axes_of w h));
      destruct (y && autoscaley_on _); reflexivity.
  - intros h _.
    destruct (x && autoscalex_on (axes_of w h));
      destruct (y && autoscaley_on _); reflexivity.
  - intros h _.
    destruct (x && autoscalex_on (axes_of w h));
      destruct (y && autoscaley_on _); reflexivity.
  - intros h _ [Ha|Ha]; [|discriminate]. rewrite Ha, andb_false_r.
    destruct (y && autoscaley_on _); reflexivity.
  - intros h _ [Ha|Ha]; [|discriminate].
    destruct (x && autoscalex_on (axes_of w h)); simpl;
      rewrite Ha, andb_false_r; reflexivity.
Qed.

Lemma add_artist_evolves (ax : handle) (art : Artist) (w : World) :
  returns (add_artist ax art) w (fun _ w' => evolves [Drawn ax art] w w').
Proof.
  eapply returns_impl; [apply add_artist_draws|].
  intros [] w' H. now apply draws_on_evolves in H.
Qed.

Lemma draw_evolves (ax : handle) (art : Artist) (w : World) :
  returns (draw view_x view_y ax art) w
          (fun a w' => a = art /\ evolves [Drawn ax art; Rescaled] w w').
Proof.
  unfold draw. apply returns_bind.
  eapply returns_impl; [apply add_artist_evolves|]. intros [] w1 H1. cbv beta.
  apply returns_bind.
  eapply returns_impl; [apply autoscale_evolves|]. intros [] w2 H2. cbv beta.
  apply returns_ret. split; [reflexivity|].
  apply (evolves_trans H1 H2).
Qed.

Lemma axhline_evolves (ax : handle) (y : Q) (style : string) (w : World) :
  returns (axhline view_x view_y ax y style) w
          (fun _ w' => evolves [Drawn ax (AxHLine y style); Rescaled] w w').
Proof.
  unfold axhline. apply returns_bind. eexists _, w. split; [reflexivity|].
  destruct (sorted_bounds _) as [lo hi]. apply returns_bind.
  eapply returns_impl; [apply add_artist_evolves|]. intros [] w1 H1. cbv beta.
  eapply returns_impl; [apply autoscale_evolves|]. intros [] w2 H2.
  apply (evolves_trans H1 H2).
Qed.

Lemma modify_cosmetic (ax : handle) (f : Axes -> Axes) (w : World) :
  cosmetic f ->
  returns (modify_axes ax f) w (fun _ w' => evolves [] w w').
Proof.
  intros Hf. eexists tt, _. split; [reflexivity|].
  constructor; simpl; auto; intros h; unfold update;
    destruct (h =? ax) eqn:E; try (apply Nat.eqb_eq in E; subst h);
    destruct (Hf (axes_of w ax)) as (H1 & H2 & H3 & H4 & H5);
    rewrite ?app_nil_r; auto; intros; split; congruence.
Qed.

Lemma set_xlabel_evolves (ax : handle) (s : string) (w : World) :
  returns (set_xlabel ax s) w (fun _ w' => evolves [] w w').
Proof. apply modify_cosmetic. now intros a. Qed.

Lemma set_ylabel_evolves (ax : handle) (s : string) (w : World) :
  returns (set_ylabel ax s) w (fun _ w' => evolves [] w w').
Proof. apply modify_cosmetic. now intros a. Qed.

Lemma legend_evolves (ax : handle) (l : Legend) (w : World) :
  returns (legend ax l) w (fun _ w' => evolves [] w w').
Proof. apply modify_cosmetic. now intros a. Qed.

Lemma set_locators_evolves (ax : handle) (major minor : option Locator)
    (rotation : option Z) (w : World) :
  returns (set_locators ax major minor rotation) w (fun _ w' => evolves [] w w').
Proof. apply modify_cosmetic. now intros a. Qed.

Lemma set_ylim_evolves (ax : handle) (bottom top : option Q) (w : World) :
  returns (set_ylim ax bottom top) w
    (fun _ w' =>
       evolves [YLimSet ax] w w'
       /\ autoscaley_on (axes_of w' ax) = false
       /\ ylim (axes_of w' ax)
          = (match bottom with Some v => v | None => fst (ylim (axes_of w ax)) end,
             match top with Some v => v | None => snd (ylim (axes_of w ax)) end)).
Proof.
  eexists tt, _. split; [reflexivity|]. split; [|simpl; unfold update;
    rewrite Nat.eqb_refl; auto].
  constructor; simpl; auto; intros h; unfold update;
    destruct (h =? ax) eqn:E; try (apply Nat.eqb_eq in E; subst h);
    rewrite ?app_nil_r; auto; simpl; rewrite ?Nat.eqb_refl, ?andb_true_r;
    try rewrite Nat.eqb_sym, E; simpl; auto; discriminate.
Qed.

Lemma set_xlim_evolves (ax : handle) (left right : option Q) (w : World) :
  returns (set_xlim ax left right) w
    (fun _ w' =>
       evolves [XLimSet ax] w w'
       /\ autoscalex_on (axes_of w' ax) = false
       /\ xlim (axes_of w' ax)
          = (match left with Some v => v | None => fst (xlim (axes_of w ax)) end,
             match right with Some v => v | None => snd (xlim (axes_of w ax)) end)).
Proof.
  eexists tt, _. split; [reflexivity|]. split; [|simpl; unfold update;
    rewrite Nat.eqb_refl; auto].
  constructor; simpl; auto; intros h; unfold update;
    destruct (h =? ax) eqn:E; try (apply Nat.eqb_eq in E; subst h);
    rewrite ?app_nil_r; auto; simpl; rewrite ?Nat.eqb_refl, ?andb_true_r;
    try rewrite Nat.eqb_sym, E; simpl; auto; discriminate.
Qed.

Lemma tight_layout_evolves (fig : handle) (w : World) :
  returns (tight_layout fig) w (fun _ w' => evolves [] w w').
Proof.
  eexists tt, _. split; [reflexivity|].
  constructor; simpl; auto. intros h. now rewrite app_nil_r.
Qed.

Lemma new_dict_evolves (d : NamedDates) (w : World) :
  returns (new_dict d) w
    (fun h w' => h = next_dict w /\ dict_of w' h = d
                 /\ axes_of w' = axes_of w /\ evolves [NewDict] w w').
Proof.
  eexists _, _. split; [reflexivity|]. simpl. unfold update.
  rewrite Nat.eqb_refl. repeat split; simpl; auto; try discriminate.
  - intros h. now rewrite app_nil_r.
  - intros h Hh. unfold update.
    destruct (h =? next_dict w) eqn:E; [apply Nat.eqb_eq in E; lia|reflexivity].
Qed.

Lemma plot_vlines_evolves (ax vlines : handle) (alignment : string) (w : World) :
  valid_alignment alignment ->
  returns (plot_vlines view_x view_y ax vlines alignment) w
    (fun _ w' =>
       evolves (map (Drawn ax)
                    (annotations (axes_of w ax) alignment (dict_of w vlines)))
               w w').
Proof.
  intros Hal. eapply returns_impl; [now apply plot_vlines_valid|].
  intros [] w' H. now apply draws_on_evolves.
Qed.

End Primitives.

(** ** [plot_density_curves] *)

(** One statement of the code: run it, and carry on with what it
    leaves. *)
Ltac step L H :=
  let r := fresh "r" in
  let v := fresh "v" in
  apply returns_bind; eapply returns_impl;
  [apply L | intros r v H; cbv beta in H; cbv beta].

Ltac step_draw H :=
  let r := fresh "r" in
  let v := fresh "v" in
  apply returns_bind; eapply returns_impl;
  [apply draw_evolves | intros r v [-> H]; cbv beta].

Section Dashboard.

Variable view_x view_y : (handle -> Axes) -> handle -> Q * Q.
Variable get_scale_factor : InferenceData -> nat -> nat -> Q.

Lemma annotations_are (a : Axes) (alignment : string) (items : NamedDates) :
  Forall is_annotation (annotations a alignment items).
Proof.
  induction items as [|item items IH]; [constructor|].
  cbn [annotations flat_map]. destruct (in_xrange a (fst item)); [|exact IH].
  repeat constructor. exact IH.
Qed.

Lemma evolves_cast (e e' : list Event) (w w' : World) :
  evolves e w w' -> e = e' -> evolves e' w w'.
Proof. now intros H <-. Qed.

Lemma panels_spec (fig : option handle)
    (axs : option (handle * handle * handle * handle)) (w : World) :
  exists f a b c d w0,
    panels fig axs w = (Returned (f, (a, b, c, d)), w0)
    /\ data_of w0 = data_of w
    /\ next_dict w0 = next_dict w
    /\ (forall h, In h [a; b; c; d] ->
                  artists (axes_of w0 h) = initial_artists fig axs w h)
    /\ (distinct_panels fig axs -> NoDup [a; b; c; d]).
Proof.
  destruct fig as [f|]; [destruct axs as [[[[a b] c] d]|]|].
  - exists f, a, b, c, d, w. simpl. auto.
  - eexists _, _, _, _, _, _. split; [reflexivity|]. simpl.
    repeat split; auto.
    + intros h Hh. unfold update.
      repeat match goal with
             | |- context [h =? ?x] => destruct (h =? x) eqn:?
             end; try reflexivity.
      exfalso. repeat match goal with
                      | H : (_ =? _) = false |- _ => apply Nat.eqb_neq in H
                      end. intuition lia.
    + intros _. repeat constructor; simpl; intuition lia.
  - eexists _, _, _, _, _, _. split; [destruct axs; reflexivity|]. simpl.
    repeat split; auto.
    + intros h Hh. unfold update.
      repeat match goal with
             | |- context [h =? ?x] => destruct (h =? x) eqn:?
             end; try reflexivity.
      exfalso. repeat match goal with
                      | H : (_ =? _) = false |- _ => apply Nat.eqb_neq in H
                      end. intuition lia.
    + intros _. repeat constructor; simpl; intuition lia.
Qed.

Lemma truthy_spec (vlines : option handle) (w : World) :
  returns (truthy vlines) w (fun _ w' => w' = w).
Proof.
  destruct vlines as [d|]; [|now apply returns_ret].
  unfold truthy. apply returns_bind. eexists _, w. split; [reflexivity|].
  destruct (dict_of w d); now apply returns_ret.
Qed.

(** The two conditional annotation blocks and the optional bars. *)
Lemma marks_block (ax : handle) (marked : option handle) (w : World) :
  returns (match marked with
           | Some d => plot_vlines view_x view_y ax d "bottom"
           | None => ret tt
           end) w
          (fun _ w' => exists marks,
               Forall is_annotation marks /\ evolves (map (Drawn ax) marks) w w').
Proof.
  destruct marked as [d|].
  - eapply returns_impl; [apply plot_vlines_evolves; now right|].
    intros [] w' H. eexists. split; [apply annotations_are|exact H].
  - apply returns_ret. exists []. split; [constructor|apply evolves_refl].
Qed.

Lemma blank_marks_block (ax : handle) (marked : option handle) (w : World) :
  returns (match marked with
           | Some d =>
               bind (get_dict d) (fun items =>
               bind (new_dict (blank_items items)) (fun blanked =>
               plot_vlines view_x view_y ax blanked "bottom"))
           | None => ret tt
           end) w
          (fun _ w' => exists marks,
               Forall is_annotation marks
               /\ evolves (optional_dict marked ++ map (Drawn ax) marks) w w').
Proof.
  destruct marked as [d|].
  - apply returns_bind. eexists _, w. split; [reflexivity|].
    step new_dict_evolves H1. destruct H1 as (_ & _ & _ & H1).
    eapply returns_impl; [apply plot_vlines_evolves; now right|].
    intros [] w' H. eexists. split; [apply annotations_are|].
    eapply evolves_cast; [eapply evolves_trans; eassumption|reflexivity].
  - apply returns_ret. exists []. split; [constructor|apply evolves_refl].
Qed.

Lemma actual_block (ax : handle) (actual_tests : option handle) (w : World) :
  returns (match actual_tests with
           | Some s =>
               bind (get_series s) (fun actual =>
               bind (draw view_x view_y ax
                          (Bar (index actual) (values actual) "actual" None))
                    (fun _ => ret tt))
           | None => ret tt
           end) w
          (fun _ w' =>
             evolves (optional_bars ax (option_map (series_of w) actual_tests))
                     w w').
Proof.
  destruct actual_tests as [s|].
  - apply returns_bind. eexists _, w. split; [reflexivity|].
    step_draw H. now apply returns_ret.
  - apply returns_ret. apply evolves_refl.
Qed.

(** The run of [plot_density_curves], from the store the panels are set
    up in. *)
Lemma plot_density_curves_run (idata : handle) (vlines actual_tests : option handle)
    (fig : option handle) (axs : option (handle * handle * handle * handle))
    (w : World) :
  forall f a b c d w0,
    panels fig axs w = (Returned (f, (a, b, c, d)), w0) ->
    data_of w0 = data_of w ->
    let idv := idata_of w idata in
    exists marks1 marks2 marked w1 w',
      plot_density_curves view_x view_y get_scale_factor idata vlines
                          actual_tests fig axs w
      = (Returned (f, (a, b, c, d)), w')
      /\ Forall is_annotation marks1 /\ Forall is_annotation marks2
      /\ evolves (plotted a (gp_curve get_scale_factor idv infections Reds)
                  ++ plotted a (legend_patch Reds "infections")
                  ++ plotted a (gp_curve get_scale_factor idv test_adjusted_positive Greens)
                  ++ plotted a (legend_patch Greens "testing delay adjusted")
                  ++ plotted a (observed_bars idv)
                  ++ map (Drawn a) marks1
                  ++ plotted b (modeled_line idv)
                  ++ optional_bars b (option_map (series_of w) actual_tests)
                  ++ optional_dict marked
                  ++ map (Drawn b) marks2
                  ++ plotted c (probability_line idv)
                  ++ [YLimSet c]) w0 w1
      /\ autoscaley_on (axes_of w1 c) = false
      /\ ylim (axes_of w1 c) = (0, 1)%Q
      /\ evolves (plotted d (gp_rt idv) ++ plotted d (AxHLine 1 ":")
                  ++ [YLimSet d]) w1 w'.
Proof.
  intros f a b c d w0 Hp Hdata idv.
  unfold data_of in Hdata. injection Hdata as _ Hid Hse _ _.
  assert (Hrun : returns
    (plot_density_curves view_x view_y get_scale_factor idata vlines
                         actual_tests fig axs) w
    (fun r w' => r = (f, (a, b, c, d)) /\ exists marks1 marks2 marked w1,
      Forall is_annotation marks1 /\ Forall is_annotation marks2
      /\ evolves (plotted a (gp_curve get_scale_factor idv infections Reds)
                  ++ plotted a (legend_patch Reds "infections")
                  ++ plotted a (gp_curve get_scale_factor idv test_adjusted_positive Greens)
                  ++ plotted a (legend_patch Greens "testing delay adjusted")
                  ++ plotted a (observed_bars idv)
                  ++ map (Drawn a) marks1
                  ++ plotted b (modeled_line idv)
                  ++ optional_bars b (option_map (series_of w) actual_tests)
                  ++ optional_dict marked
                  ++ map (Drawn b) marks2
                  ++ plotted c (probability_line idv)
                  ++ [YLimSet c]) w0 w1
      /\ autoscaley_on (axes_of w1 c) = false
      /\ ylim (axes_of w1 c) = (0, 1)%Q
      /\ evolves (plotted d (gp_rt idv) ++ plotted d (AxHLine 1 ":")
                  ++ [YLimSet d]) w1 w')).
  { unfold plot_density_curves. apply returns_bind.
    exists (f, (a, b, c, d)), w0. split; [exact Hp|]. cbv beta iota.
    apply returns_bind. eexists _, w0. split; [reflexivity|].
    rewrite Hid. fold idv.
    (* the curves panel *)
    apply returns_bind. cbn [plot_curves].
    step_draw H1. step_draw H2. step_draw H3. step_draw H4.
    apply returns_ret.
    step set_ylabel_evolves H5. step_draw H6.
    step truthy_spec Et1; subst.
    step marks_block H7. destruct H7 as (marks1 & Hm1 & H7).
    step legend_evolves H8.
    (* the test counts *)
    step_draw H9.
    step actual_block H10.
    step legend_evolves H11.
    step truthy_spec Et2; subst.
    match goal with |- returns (bind (match ?m with _ => _ end) _) _ _ =>
      set (marked := m) in *
    end.
    step blank_marks_block H12. destruct H12 as (marks2 & Hm2 & H12).
    step set_ylabel_evolves H13.
    (* the probability *)
    step_draw H14.
    step set_ylim_evolves H15. destruct H15 as (H15 & Hauto & Hylim).
    step set_ylabel_evolves H16.
    (* the reproduction number *)
    step_draw H17.
    step axhline_evolves H18.
    step set_ylabel_evolves H19.
    step set_locators_evolves H20.
    step set_locators_evolves H21.
    step set_locators_evolves H22.
    step set_ylim_evolves H23. destruct H23 as (H23 & _ & _).
    step tight_layout_evolves H24.
    apply returns_ret. split; [reflexivity|].
    pose proof (evolves_trans H1 (evolves_trans H2 (evolves_trans H3
                 (evolves_trans H4 (evolves_trans H5 (evolves_trans H6
                 (evolves_trans H7 H8))))))) as Ha.
    pose proof (evolves_trans Ha (evolves_trans H9 (evolves_trans H10
                 (evolves_trans H11 (evolves_trans H12 (evolves_trans H13
                 (evolves_trans H14 H15))))))) as Hb.
    pose proof (evolves_trans H16 (evolves_trans H17 (evolves_trans H18
                 (evolves_trans H19 (evolves_trans H20 (evolves_trans H21
                 (evolves_trans H22 (evolves_trans H23 H24)))))))) as Hc.
    match type of H10 with evolves _ ?wk _ =>
      assert (Hser : series_of wk = series_of w)
        by (rewrite <- Hse; pose proof (ev_series Ha) as E1;
            pose proof (ev_series H9) as E2; congruence)
    end.
    rewrite Hser in Hb.
    match type of Hb with evolves _ _ ?wb =>
      exists marks1, marks2, marked, wb
    end.
    split; [exact Hm1|]. split; [exact Hm2|]. split.
    { eapply evolves_cast; [exact Hb|].
      unfold plotted. simpl. repeat rewrite <- app_assoc. simpl.
      destruct actual_tests; simpl; repeat rewrite <- app_assoc; reflexivity. }
    split; [exact Hauto|]. split; [exact Hylim|].
    eapply evolves_cast; [exact Hc|]. reflexivity. }
  destruct Hrun as (r & w' & Hr & -> & marks1 & marks2 & marked & w1 & H).
  exists marks1, marks2, marked, w1, w'. split; [exact Hr|exact H].
Qed.

Lemma drawn_on_plotted (h ax : handle) (art : Artist) :
  drawn_on h (plotted ax art) = if ax =? h then [art] else [].
Proof. unfold plotted. simpl. now destruct (ax =? h). Qed.

Lemma drawn_on_optional (h ax : handle) (actual : option Series) :
  drawn_on h (optional_bars ax actual)
  = if ax =? h
    then match actual with Some s => [actual_bars s] | None => [] end
    else [].
Proof.
  destruct actual as [s|]; simpl; [apply drawn_on_plotted|now destruct (ax =? h)].
Qed.

Lemma drawn_on_optional_dict (h : handle) (marked : option handle) :
  drawn_on h (optional_dict marked) = [].
Proof. now destruct marked. Qed.

Lemma ylim_kept_plotted (h ax : handle) (art : Artist) :
  ylim_kept h (plotted ax art) = true.
Proof. reflexivity. Qed.

Lemma nodup4 (a b c d : handle) :
  NoDup [a; b; c; d] ->
  (a =? b) = false /\ (a =? c) = false /\ (a =? d) = false
  /\ (b =? a) = false /\ (b =? c) = false /\ (b =? d) = false
  /\ (c =? a) = false /\ (c =? b) = false /\ (c =? d) = false
  /\ (d =? a) = false /\ (d =? b) = false /\ (d =? c) = false.
Proof.
  intros H. inversion H as [|? ? Ha H1]; subst.
  inversion H1 as [|? ? Hb H2]; subst. inversion H2 as [|? ? Hc H3]; subst.
  simpl in *. repeat split; apply Nat.eqb_neq; intuition congruence.
Qed.

(** What [plot_density_curves] leaves on its four panels. *)
Lemma plot_density_curves_spec (idata : handle) (vlines actual_tests : option handle)
    (fig : option handle) (axs : option (handle * handle * handle * handle))
    (w : World) :
  distinct_panels fig axs ->
  let idv := idata_of w idata in
  exists f a b c d w' marks1 marks2,
    plot_density_curves view_x view_y get_scale_factor idata vlines
                        actual_tests fig axs w
    = (Returned (f, (a, b, c, d)), w')
    /\ Forall is_annotation marks1 /\ Forall is_annotation marks2
    /\ artists (axes_of w' a)
       = initial_artists fig axs w a
         ++ [gp_curve get_scale_factor idv infections Reds;
             legend_patch Reds "infections";
             gp_curve get_scale_factor idv test_adjusted_positive Greens;
             legend_patch Greens "testing delay adjusted";
             observed_bars idv]
         ++ marks1
    /\ artists (axes_of w' b)
       = initial_artists fig axs w b
         ++ [modeled_line idv]
         ++ match actual_tests with
            | Some s => [actual_bars (series_of w s)]
            | None => []
            end
         ++ marks2
    /\ artists (axes_of w' c)
       = initial_artists fig axs w c ++ [probability_line idv]
    /\ artists (axes_of w' d)
       = initial_artists fig axs w d ++ [gp_rt idv; AxHLine 1 ":"]
    /\ ylim (axes_of w' c) = (0, 1)%Q.
Proof.
  intros Hdistinct idv.
  destruct (panels_spec fig axs w)
    as (f & a & b & c & d & w0 & Hp & Hdata & Hnext & Hinit & Hnodup).
  destruct (@plot_density_curves_run idata vlines actual_tests fig axs w
              f a b c d w0 Hp Hdata)
    as (marks1 & marks2 & marked & w1 & w'
        & Hrun & Hm1 & Hm2 & H1 & Hauto & Hylim & H2).
  fold idv in H1, H2.
  destruct (nodup4 (Hnodup Hdistinct))
    as (Eab & Eac & Ead & Eba & Ebc & Ebd & Eca & Ecb & Ecd & Eda & Edb & Edc).
  exists f, a, b, c, d, w', marks1, marks2.
  split; [exact Hrun|]. split; [exact Hm1|]. split; [exact Hm2|].
  assert (Hart : forall h, In h [a; b; c; d] ->
            artists (axes_of w' h)
            = initial_artists fig axs w h
              ++ drawn_on h (plotted a (gp_curve get_scale_factor idv infections Reds)
                  ++ plotted a (legend_patch Reds "infections")
                  ++ plotted a (gp_curve get_scale_factor idv test_adjusted_positive Greens)
                  ++ plotted a (legend_patch Greens "testing delay adjusted")
                  ++ plotted a (observed_bars idv)
                  ++ map (Drawn a) marks1
                  ++ plotted b (modeled_line idv)
                  ++ optional_bars b (option_map (series_of w) actual_tests)
                  ++ optional_dict marked
                  ++ map (Drawn b) marks2
                  ++ plotted c (probability_line idv)
                  ++ [YLimSet c])
              ++ drawn_on h (plotted d (gp_rt idv) ++ plotted d (AxHLine 1 ":")
                             ++ [YLimSet d])).
  { intros h Hh. rewrite (ev_artists H2), (ev_artists H1), (Hinit h Hh).
    symmetry. apply app_assoc. }
  repeat split.
  - rewrite Hart by (simpl; auto).
    rewrite !drawn_on_app, !drawn_on_plotted, !drawn_on_map, drawn_on_optional,
      drawn_on_optional_dict.
    rewrite Nat.eqb_refl, Eba, Eca, Eda. simpl. rewrite ?app_nil_r. reflexivity.
  - rewrite Hart by (simpl; auto).
    rewrite !drawn_on_app, !drawn_on_plotted, !drawn_on_map, drawn_on_optional,
      drawn_on_optional_dict.
    rewrite Nat.eqb_refl, Eab, Ecb, Edb. simpl. rewrite ?app_nil_r.
    now destruct actual_tests.
  - rewrite Hart by (simpl; auto).
    rewrite !drawn_on_app, !drawn_on_plotted, !drawn_on_map, drawn_on_optional,
      drawn_on_optional_dict.
    rewrite Nat.eqb_refl, Eac, Ebc, Edc. reflexivity.
  - rewrite Hart by (simpl; auto).
    rewrite !drawn_on_app, !drawn_on_plotted, !drawn_on_map, drawn_on_optional,
      drawn_on_optional_dict.
    rewrite Nat.eqb_refl, Ead, Ebd, Ecd. simpl. rewrite ?app_nil_r. reflexivity.
  - rewrite (ev_ylim H2); [exact Hylim| |now left].
    simpl. now rewrite Edc.
Qed.

(** The dashboard returns, whatever it is given. *)
Lemma plot_density_curves_returns (idata : handle)
    (vlines actual_tests : option handle) (fig : option handle)
    (axs : option (handle * handle * handle * handle)) (w : World) :
  exists r w',
    plot_density_curves view_x view_y get_scale_factor idata vlines
                        actual_tests fig axs w
    = (Returned r, w').
Proof.
  destruct (panels_spec fig axs w)
    as (f & a & b & c & d & w0 & Hp & Hdata & _).
  destruct (@plot_density_curves_run idata vlines actual_tests fig axs w
              f a b c d w0 Hp Hdata)
    as (marks1 & marks2 & marked & w1 & w' & Hrun & _).
  now exists (f, (a, b, c, d)), w'.
Qed.

End Dashboard.

(** ** Plotting code reads the caller's data, and never writes it *)

Lemma data_kept_refl (w : World) : data_kept w w.
Proof. repeat split; auto. Qed.

Lemma data_kept_trans (w w1 w2 : World) :
  data_kept w w1 -> data_kept w1 w2 -> data_kept w w2.
Proof.
  intros (H1 & H2 & H3 & H4 & H5 & H6) (K1 & K2 & K3 & K4 & K5 & K6).
  repeat split; try congruence; [|lia].
  intros h Hh. rewrite K5, H5; auto. lia.
Qed.

Create HintDb frame.

Lemma read_only_ret {A : Type} (a : A) : read_only (ret a).
Proof. intros w r w' [= _ <-]. apply data_kept_refl. Qed.

Lemma read_only_raise {A : Type} (e : exception) : read_only (@raise A e).
Proof. intros w r w' [= _ <-]. apply data_kept_refl. Qed.

Lemma read_only_lift {A : Type} (o : outcome A) : read_only (lift o).
Proof. intros w r w' [= _ <-]. apply data_kept_refl. Qed.

Lemma read_only_bind {A B : Type} (c : M A) (k : A -> M B) :
  read_only c -> (forall a, read_only (k a)) -> read_only (bind c k).
Proof.
  intros Hc Hk w r w'. unfold bind.
  destruct (c w) as [[a|e|] w1] eqn:E; specialize (Hc _ _ _ E).
  - intros Hk'. apply Hk in Hk'. eapply data_kept_trans; eauto.
  - now intros [= _ <-].
  - now intros [= _ <-].
Qed.

Lemma read_only_for_each {A : Type} (xs : list A) (body : A -> M unit) :
  (forall x, read_only (body x)) -> read_only (for_each xs body).
Proof.
  intros Hb. induction xs as [|x xs IH]; simpl.
  - apply read_only_ret.
  - apply read_only_bind; auto.
Qed.

(** A computation that changes nothing but matplotlib objects. *)
Lemma read_only_plain {A : Type} (c : M A) :
  (forall w, data_of (snd (c w)) = data_of w
             /\ next_dict (snd (c w)) = next_dict w) ->
  read_only c.
Proof.
  intros H w r w' E. destruct (H w) as [Hd Hn]. rewrite E in Hd, Hn.
  simpl in Hd, Hn. unfold data_of in Hd. injection Hd as H1 H2 H3 H4 H5.
  repeat split; try assumption; [|lia]. intros h _. now rewrite H1.
Qed.

#[local] Hint Resolve read_only_ret read_only_raise read_only_lift : frame.

Ltac plain := apply read_only_plain; intros w; split; reflexivity.

Section Frame.

Variable view_x view_y : (handle -> Axes) -> handle -> Q * Q.
Variable component_panels : Prophet -> DataFrame -> list Axes.

Variable get_scale_factor : InferenceData -> nat -> nat -> Q.

Lemma read_only_get_axes ax : read_only (get_axes ax).
Proof. plain. Qed.

Lemma read_only_modify_axes ax f : read_only (modify_axes ax f).
Proof. plain. Qed.

Lemma read_only_autoscale x y : read_only (autoscale view_x view_y x y).
Proof. plain. Qed.

Lemma read_only_get_dict d : read_only (get_dict d).
Proof. plain. Qed.

Lemma read_only_get_idata d : read_only (get_idata d).
Proof. plain. Qed.

Lemma read_only_get_series d : read_only (get_series d).
Proof. plain. Qed.

Lemma read_only_get_frame d : read_only (get_frame d).
Proof. plain. Qed.

Lemma read_only_get_prophet d : read_only (get_prophet d).
Proof. plain. Qed.

Lemma read_only_get_figure d : read_only (get_figure d).
Proof. plain. Qed.

Lemma read_only_new_figure share : read_only (new_figure share).
Proof. plain. Qed.

Lemma read_only_add_subplot fig a : read_only (add_subplot fig a).
Proof. plain. Qed.

Lemma read_only_tight_layout fig : read_only (tight_layout fig).
Proof. plain. Qed.

Lemma read_only_new_dict d : read_only (new_dict d).
Proof.
  intros w r w' [= _ <-]. repeat split; simpl; auto.
  intros h Hh. unfold update.
  destruct (h =? next_dict w) eqn:E; [apply Nat.eqb_eq in E; lia|reflexivity].
Qed.

Hint Resolve read_only_get_axes read_only_modify_axes read_only_autoscale
  read_only_get_dict read_only_get_idata read_only_get_series
  read_only_get_frame read_only_get_prophet read_only_get_figure
  read_only_new_figure read_only_add_subplot read_only_tight_layout
  read_only_new_dict : frame.

Ltac frame :=
  repeat first
    [ progress intros
    | apply read_only_bind
    | apply read_only_for_each
    | solve [auto with frame]
    | match goal with
      | |- read_only (match ?x with _ => _ end) => destruct x
      | |- read_only (if ?b then _ else _) => destruct b
      | |- read_only (let '(_, _) := ?x in _) => destruct x
      end ].

Lemma read_only_add_artist ax art : read_only (add_artist ax art).
Proof. unfold add_artist. frame. Qed.

Hint Resolve read_only_add_artist : frame.

Lemma read_only_draw ax art : read_only (draw view_x view_y ax art).
Proof. unfold draw. frame. Qed.

Lemma read_only_axvline ax x c l : read_only (axvline view_x view_y ax x c l).
Proof. unfold axvline. frame. Qed.

Lemma read_only_axhline ax y l : read_only (axhline view_x view_y ax y l).
Proof. unfold axhline. frame. Qed.

Lemma read_only_text ax x y s c r ha va : read_only (text ax x y s c r ha va).
Proof. unfold text. frame. Qed.

Lemma read_only_get_xlim ax : read_only (get_xlim ax).
Proof. unfold get_xlim. frame. Qed.

Lemma read_only_get_ylim ax : read_only (get_ylim ax).
Proof. unfold get_ylim. frame. Qed.

Lemma read_only_set_xlim ax l r : read_only (set_xlim ax l r).
Proof. unfold set_xlim. frame. Qed.

Lemma read_only_set_ylim ax l r : read_only (set_ylim ax l r).
Proof. unfold set_ylim. frame. Qed.

Lemma read_only_set_xlabel ax s : read_only (set_xlabel ax s).
Proof. unfold set_xlabel. frame. Qed.

Lemma read_only_set_ylabel ax s : read_only (set_ylabel ax s).
Proof. unfold set_ylabel. frame. Qed.

Lemma read_only_legend ax l : read_only (legend ax l).
Proof. unfold legend. frame. Qed.

Lemma read_only_set_locators ax a b c : read_only (set_locators ax a b c).
Proof. unfold set_locators. frame. Qed.

Lemma read_only_getitem axs i : read_only (getitem axs i).
Proof. unfold getitem. frame. Qed.

Lemma read_only_first_date m : read_only (first_date m).
Proof. unfold first_date. frame. Qed.

Hint Resolve read_only_draw read_only_axvline read_only_axhline read_only_text
  read_only_get_xlim read_only_get_ylim read_only_set_xlim read_only_set_ylim
  read_only_set_xlabel read_only_set_ylabel read_only_legend
  read_only_set_locators read_only_getitem read_only_first_date : frame.

Lemma read_only_plot_vline ax al ymin ymax xmin xmax item :
  read_only (plot_vline view_x view_y ax al ymin ymax xmin xmax item).
Proof. unfold plot_vline. frame. Qed.

Hint Resolve read_only_plot_vline : frame.

Lemma read_only_plot_vlines ax d al :
  read_only (plot_vlines view_x view_y ax d al).
Proof. unfold plot_vlines. frame. Qed.

Hint Resolve read_only_plot_vlines : frame.

Lemma read_only_axes_or_new ax : read_only (axes_or_new ax).
Proof. unfold axes_or_new. frame. Qed.

Hint Resolve read_only_axes_or_new : frame.

Lemma read_only_plot_testcount_forecast result m forecast d ax :
  read_only (plot_testcount_forecast view_x view_y result m forecast d ax).
Proof. unfold plot_testcount_forecast. frame. Qed.

Lemma read_only_add_subplots fig panels : read_only (add_subplots fig panels).
Proof. induction panels; simpl; frame. Qed.

Hint Resolve read_only_add_subplots : frame.

Lemma read_only_plot_components m fcst :
  read_only (plot_components component_panels m fcst).
Proof. unfold plot_components. frame. Qed.

Hint Resolve read_only_plot_components : frame.

Lemma read_only_plot_testcount_components m forecast d :
  read_only (plot_testcount_components view_x view_y component_panels m forecast d).
Proof. unfold plot_testcount_components. frame. Qed.

Lemma read_only_subplots4 : read_only subplots4.
Proof. unfold subplots4. frame. Qed.

Hint Resolve read_only_subplots4 : frame.

Lemma read_only_panels fig axs : read_only (panels fig axs).
Proof. unfold panels. frame. Qed.

Lemma read_only_truthy vlines : read_only (truthy vlines).
Proof. unfold truthy. frame. Qed.

Lemma read_only_plot_curves ax idata factor vars :
  forall handles, read_only (plot_curves view_x view_y ax idata factor vars handles).
Proof. induction vars as [|[[v l] c] vars IH]; intros handles; simpl; frame. Qed.

Hint Resolve read_only_panels read_only_truthy read_only_plot_curves : frame.

Lemma read_only_plot_density_curves idata vlines actual_tests fig axs :
  read_only (plot_density_curves view_x view_y get_scale_factor idata vlines
                                 actual_tests fig axs).
Proof. unfold plot_density_curves. frame. Qed.

End Frame.

(** ** Arrays *)

Lemma seq_from (k n : nat) : seq k n = map (fun j => j + k) (seq 0 n).
Proof.
  revert k. induction n as [|n IH]; intros k; [reflexivity|].
  simpl. f_equal. rewrite (IH (S k)), <- seq_shift, map_map.
  apply map_ext. intros j. lia.
Qed.

(** Dropping the first columns of an array drops the first entries of
    each of its rows. *)
Lemma to_lists_skip_columns (k : nat) (a : Matrix) :
  to_lists (skip_columns k a) = map (skipn k) (to_lists a).
Proof.
  unfold to_lists. simpl. rewrite map_map. apply map_ext. intros i.
  rewrite skipn_map, skipn_seq. simpl.
  rewrite (seq_from k (ncols a - k)), map_map. reflexivity.
Qed.

(** ** The probability panel *)

Lemma Qlt_bool_iff (a b : Q) : Qlt_bool a b = true <-> (a < b)%Q.
Proof.
  unfold Qlt_bool. rewrite negb_true_iff. split.
  - intros H. apply Qnot_le_lt. intros Hle. apply Qle_bool_iff in Hle. congruence.
  - intros H. destruct (Qle_bool b a) eqn:E; [|reflexivity].
    apply Qle_bool_iff in E. apply Qlt_not_le in H. contradiction.
Qed.

Lemma Qlt_bool_false (a b : Q) : Qlt_bool a b = false <-> (b <= a)%Q.
Proof.
  unfold Qlt_bool. rewrite negb_false_iff. apply Qle_bool_iff.
Qed.

(** The draws at a date are those of every chain and every draw. *)
Lemma list_sum_const {A : Type} (n : nat) (l : list A) :
  list_sum (map (fun _ => n) l) = List.length l * n.
Proof. induction l as [|x l IH]; simpl; [reflexivity|now rewrite IH]. Qed.

Lemma length_draws_at (p : Posterior) (v : PosteriorVar) (t : nat) :
  List.length (draws_at p v t) = nchain p * ndraw p.
Proof.
  unfold draws_at. rewrite length_flat_map.
  rewrite (map_ext _ (fun _ => ndraw p)).
  - now rewrite list_sum_const, length_seq.
  - intros c. now rewrite length_map, length_seq.
Qed.

Lemma in_draws_at (p : Posterior) (v : PosteriorVar) (t : nat) (x : Q) :
  In x (draws_at p v t)
  <-> exists c d, c < nchain p /\ d < ndraw p /\ x = var p v c d t.
Proof.
  unfold draws_at. rewrite in_flat_map. split.
  - intros (c & Hc & Hx). apply in_map_iff in Hx as (d & <- & Hd).
    apply in_seq in Hc, Hd. exists c, d. repeat split; lia.
  - intros (c & d & Hc & Hd & ->). exists c. split; [apply in_seq; lia|].
    apply in_map_iff. exists d. split; [reflexivity|apply in_seq; lia].
Qed.

Lemma length_filter_map {A : Type} (g : A -> bool) (l : list A) :
  List.length (filter (fun b : bool => b) (map g l)) = List.length (filter g l).
Proof.
  induction l as [|x l IH]; [reflexivity|]. simpl.
  destruct (g x); simpl; now rewrite IH.
Qed.

Lemma mean_bool_map {A : Type} (g : A -> bool) (l : list A) :
  l <> [] ->
  mean_bool (map g l)
  = Some (Z.of_nat (List.length (filter g l)) # Pos.of_nat (List.length l))%Q.
Proof.
  destruct l as [|x l]; [congruence|]. intros _. unfold mean_bool. cbn [map].
  change (g x :: map g l) with (map g (x :: l)).
  now rewrite length_filter_map, length_map.
Qed.

(** The plotted value at a date is the number of draws above one over
    the number of draws. *)
Lemma probability_at (p : Posterior) (t : nat) :
  t < List.length (date p) -> 0 < nchain p * ndraw p ->
  nth_error (probability_above_one p) t
  = Some (Some (Z.of_nat (List.length (filter (fun x => Qlt_bool 1 x)
                                              (draws_at p r_t t)))
                # Pos.of_nat (nchain p * ndraw p))%Q).
Proof.
  intros Ht Hn. unfold probability_above_one.
  rewrite nth_error_map, nth_error_seq.
  assert (E : (t <? List.length (date p)) = true) by now apply Nat.ltb_lt.
  rewrite E. simpl. f_equal.
  pose proof (length_draws_at p r_t t) as Hl.
  rewrite mean_bool_map, Hl; [reflexivity|].
  intros Hnil. rewrite Hnil in Hl. simpl in Hl. lia.
Qed.

Lemma length_probability (p : Posterior) :
  List.length (probability_above_one p) = List.length (date p).
Proof. unfold probability_above_one. now rewrite length_map, length_seq. Qed.

Lemma fraction_one (n : nat) : 0 < n -> (Z.of_nat n # Pos.of_nat n == 1)%Q.
Proof.
  intros Hn. unfold Qeq. simpl. rewrite Z.mul_1_r.
  rewrite <- positive_nat_Z, Nat2Pos.id by lia. reflexivity.
Qed.

Lemma filter_all {A : Type} (g : A -> bool) (l : list A) :
  (forall x, In x l -> g x = true) -> filter g l = l.
Proof.
  induction l as [|x l IH]; intros H; [reflexivity|]. simpl.
  rewrite H by now left. f_equal. apply IH. intros y Hy. apply H. now right.
Qed.

Lemma filter_none {A : Type} (g : A -> bool) (l : list A) :
  (forall x, In x l -> g x = false) -> filter g l = [].
Proof.
  induction l as [|x l IH]; intros H; [reflexivity|]. simpl.
  rewrite H by now left. apply IH. intros y Hy. apply H. now right.
Qed.

(** ** [plot_testcount_forecast] *)

Section Forecast.

Variable view_x view_y : (handle -> Axes) -> handle -> Q * Q.
Variable component_panels : Prophet -> DataFrame -> list Axes.

Lemma axes_or_new_spec (ax : option handle) (w : World) :
  returns (axes_or_new ax) w
    (fun h w0 => h = forecast_axes ax w
                 /\ data_of w0 = data_of w
                 /\ artists (axes_of w0 h) = forecast_initial ax w).
Proof.
  destruct ax as [a|]; [now apply returns_ret|].
  eexists _, _. split; [reflexivity|].
  repeat split. simpl. unfold update. now rewrite Nat.eqb_refl.
Qed.

Lemma rows_from_spec (t0 : Timestamp) (forecast : DataFrame) (r : Row) :
  In r (rows_from t0 forecast) <-> In r forecast /\ (t0 <= ds r)%Z.
Proof. unfold rows_from. rewrite filter_In, Z.leb_le. reflexivity. Qed.

(** What [plot_testcount_forecast] leaves on its axes. *)
Lemma plot_testcount_forecast_spec (result m forecast holidays : handle)
    (ax : option handle) (w : World) (first : Row) (more : DataFrame) :
  history (prophet_of w m) = first :: more ->
  exists w' marks,
    plot_testcount_forecast view_x view_y result m forecast holidays ax w
    = (Returned (forecast_axes ax w), w')
    /\ Forall is_annotation marks
    /\ artists (axes_of w' (forecast_axes ax w))
       = forecast_initial ax w
         ++ [forecast_plot (prophet_of w m) (frame_of w forecast) (ds first)]
         ++ marks
         ++ forecast_legend (series_of w result)
    /\ fst (xlim (axes_of w' (forecast_axes ax w))) = date2num floor_date
    /\ fst (ylim (axes_of w' (forecast_axes ax w))) = 0%Q.
Proof.
  intros Hhist.
  assert (Hrun : returns
    (plot_testcount_forecast view_x view_y result m forecast holidays ax) w
    (fun h w' => h = forecast_axes ax w /\ exists marks,
       Forall is_annotation marks
       /\ artists (axes_of w' h)
          = forecast_initial ax w
            ++ [forecast_plot (prophet_of w m) (frame_of w forecast) (ds first)]
            ++ marks
            ++ forecast_legend (series_of w result)
       /\ fst (xlim (axes_of w' h)) = date2num floor_date
       /\ fst (ylim (axes_of w' h)) = 0%Q)).
  { unfold plot_testcount_forecast.
    step axes_or_new_spec H0. destruct H0 as (-> & Hdata & Hinit).
    unfold data_of in Hdata. injection Hdata as _ _ Hse Hfr Hpr.
    set (h := forecast_axes ax w) in *.
    apply returns_bind. eexists _, _. split; [reflexivity|].
    apply returns_bind. eexists _, _. split; [reflexivity|].
    rewrite Hpr, Hfr.
    apply returns_bind. exists (ds first), v.
    split; [unfold first_date; now rewrite Hhist|].
    step_draw H1.
    step set_ylim_evolves H2. destruct H2 as (H2 & Hyauto & Hylim).
    step set_xlim_evolves H3. destruct H3 as (H3 & Hxauto & Hxlim).
    step plot_vlines_evolves H4; [now right|].
    apply returns_bind. eexists _, _. split; [reflexivity|].
    step_draw H5. step_draw H6. step_draw H7.
    step legend_evolves H8.
    step set_ylabel_evolves H9.
    step set_xlabel_evolves H10.
    apply returns_ret. split; [reflexivity|].
    pose proof (evolves_trans H4 (evolves_trans H5 (evolves_trans H6
                 (evolves_trans H7 (evolves_trans H8
                 (evolves_trans H9 H10)))))) as Hafter.
    pose proof (evolves_trans H3 Hafter) as Hy.
    pose proof (evolves_trans H1 (evolves_trans H2 Hy)) as Hall.
    match type of H4 with
    | evolves _ _ ?u => assert (Hser : series_of u = series_of w)
    end.
    { rewrite <- Hse.
      pose proof (ev_series (evolves_trans H1 (evolves_trans H2
                   (evolves_trans H3 H4)))) as E. exact E. }
    eexists. split; [apply annotations_are|]. split; [|split].
    - rewrite (ev_artists Hall), Hinit. f_equal.
      rewrite !drawn_on_app, drawn_on_map. simpl.
      rewrite !Nat.eqb_refl. simpl. rewrite Hser. reflexivity.
    - rewrite (ev_xlim Hafter); [now rewrite Hxlim| |now left].
      rewrite !xlim_kept_app, xlim_kept_map. reflexivity.
    - rewrite (ev_ylim Hy); [now rewrite Hylim| |now left].
      rewrite !ylim_kept_app, ylim_kept_map. reflexivity. }
  destruct Hrun as (h & w' & Hr & -> & marks & H).
  exists w', marks. split; [exact Hr|exact H].
Qed.

End Forecast.

(** ** Blanked labels *)

Lemma dict_set_fresh (d : NamedDates) (k : Timestamp) (v : string) :
  ~ In k (keys d) -> dict_set d k v = d ++ [(k, v)].
Proof.
  induction d as [|[k' v'] d IH]; intros Hk; [reflexivity|]. simpl in *.
  destruct (k' =? k)%Z eqn:E.
  - apply Z.eqb_eq in E. exfalso. apply Hk. now left.
  - rewrite IH; [reflexivity|]. intros Hin. apply Hk. now right.
Qed.

Lemma blank_from (ks : list Timestamp) :
  forall d, NoDup (keys d ++ ks) ->
    fold_left (fun d k => dict_set d k ""%string) ks d
    = d ++ map (fun k => (k, ""%string)) ks.
Proof.
  induction ks as [|k ks IH]; intros d Hd; simpl.
  - now rewrite app_nil_r.
  - rewrite dict_set_fresh.
    + rewrite IH.
      * now rewrite <- app_assoc.
      * unfold keys in *. rewrite map_app. simpl. rewrite <- app_assoc. exact Hd.
    + apply NoDup_remove_2 in Hd. intros Hin. apply Hd. apply in_or_app. now left.
Qed.

(** Blanking the labels of a mapping keeps its dates, in their order. *)
Lemma blank_labels_nodup (ks : list Timestamp) :
  NoDup ks -> blank_labels ks = map (fun k => (k, ""%string)) ks.
Proof. intros H. unfold blank_labels. now rewrite blank_from. Qed.

Lemma blank_items_nodup (items : NamedDates) :
  NoDup (keys items) ->
  blank_items items = map (fun item => (fst item, ""%string)) items.
Proof.
  intros H. unfold blank_items.
  assert (E : forall d,
    fold_left (fun d item => dict_set d (fst item) ""%string) items d
    = fold_left (fun d k => dict_set d k ""%string) (keys items) d).
  { induction items as [|item items IH]; intros d; [reflexivity|].
    simpl. apply IH. now inversion H. }
  rewrite E, blank_from by exact H. simpl. unfold keys. now rewrite map_map.
Qed.

Lemma keys_blank (ks : list Timestamp) :
  keys (map (fun k => (k, ""%string)) ks) = ks.
Proof. unfold keys. rewrite map_map. simpl. apply map_id. Qed.

Lemma shortened_empty : shortened "" = ""%string.
Proof. reflexivity. Qed.

(** The annotations depend on the axes through their limits only. *)
Lemma annotations_ext (a a' : Axes) (alignment : string) (items : NamedDates) :
  xlim a = xlim a' -> ylim a = ylim a' ->
  annotations a alignment items = annotations a' alignment items.
Proof.
  intros Hx Hy. unfold annotations, in_xrange, label_text, label_y.
  now rewrite Hx, Hy.
Qed.

Lemma annotations_blank (a : Axes) (alignment : string) (ks : list Timestamp) :
  annotations a alignment (map (fun k => (k, ""%string)) ks)
  = bare_marks a alignment ks.
Proof.
  unfold annotations, bare_marks. rewrite flat_map_concat_map, map_map.
  now rewrite <- flat_map_concat_map.
Qed.

Section Components.

Variable view_x view_y : (handle -> Axes) -> handle -> Q * Q.
Variable component_panels : Prophet -> DataFrame -> list Axes.

Lemma add_subplots_spec (fig : handle) (panels : list Axes) :
  forall w,
    returns (add_subplots fig panels) w
      (fun _ w' =>
         fig_axes (figure_of w' fig)
         = fig_axes (figure_of w fig) ++ seq (next_axes w) (List.length panels)
         /\ (forall i a, nth_error panels i = Some a ->
                         axes_of w' (next_axes w + i) = a)
         /\ (forall h, h < next_axes w -> axes_of w' h = axes_of w h)
         /\ data_of w' = data_of w
         /\ next_dict w' = next_dict w).
Proof.
  induction panels as [|p panels IH]; intros w.
  - apply returns_ret. simpl. rewrite app_nil_r. repeat split.
    intros [|i] a; discriminate.
  - cbn [add_subplots]. apply returns_bind. eexists _, _.
    split; [reflexivity|]. eapply returns_impl; [apply IH|].
    intros [] w' (Hf & Ha & Hlow & Hd & Hn).
    cbn [figure_of axes_of next_axes next_dict] in Hf, Ha, Hlow, Hn.
    unfold update in Hf, Hlow. rewrite Nat.eqb_refl in Hf. cbn [fig_axes] in Hf.
    split; [now rewrite Hf, <- app_assoc|]. split; [|split; [|now split]].
    + intros [|i] a E.
      * injection E as <-. rewrite Nat.add_0_r, Hlow by lia.
        now rewrite Nat.eqb_refl.
      * rewrite Nat.add_succ_r. apply (Ha i a E).
    + intros h Hh. rewrite Hlow by lia.
      destruct (h =? next_axes w) eqn:E; [apply Nat.eqb_eq in E; lia|reflexivity].
Qed.

(** [m.plot_components]: a new figure with the panels of the forecast. *)
Lemma plot_components_spec (m : Prophet) (fcst : DataFrame) (w : World) :
  returns (plot_components component_panels m fcst) w
    (fun fig w' =>
       fig_axes (figure_of w' fig)
       = seq (next_axes w) (List.length (component_panels m fcst))
       /\ (forall i a, nth_error (component_panels m fcst) i = Some a ->
                       axes_of w' (next_axes w + i) = a)
       /\ data_of w' = data_of w
       /\ next_dict w' = next_dict w).
Proof.
  unfold plot_components. apply returns_bind. eexists _, _.
  split; [reflexivity|]. apply returns_bind.
  eapply returns_impl; [apply add_subplots_spec|].
  intros [] w' (Hf & Ha & _ & Hd & Hn). apply returns_ret.
  cbn [figure_of axes_of next_axes next_dict] in Hf, Ha, Hn.
  unfold update in Hf. rewrite Nat.eqb_refl in Hf.
  repeat split; assumption.
Qed.

Lemma for_each_cosmetic (axs : list handle) (s : string) :
  forall w,
    returns (for_each axs (fun ax => set_xlabel ax s)) w
            (fun _ w' => evolves [] w w').
Proof.
  induction axs as [|ax axs IH]; intros w.
  - apply returns_ret. apply evolves_refl.
  - cbn [for_each]. step set_xlabel_evolves H1.
    eapply returns_impl; [apply IH|]. intros [] w' H2.
    apply (evolves_trans H1 H2).
Qed.

(** What [plot_testcount_components] does with the second panel. *)
Lemma plot_testcount_components_spec (m forecast holidays : handle) (w : World)
    (first : Row) (more : DataFrame) (p0 p1 : Axes) (ps : list Axes) :
  history (prophet_of w m) = first :: more ->
  component_panels (prophet_of w m)
                   (rows_from (ds first) (frame_of w forecast))
  = p0 :: p1 :: ps ->
  exists fig w',
    plot_testcount_components view_x view_y component_panels m forecast
                              holidays w
    = (Returned (fig, seq (next_axes w) (S (S (List.length ps)))), w')
    /\ dict_of w' (next_dict w) = blank_labels (keys (dict_of w holidays))
    /\ artists (axes_of w' (S (next_axes w)))
       = artists p1
         ++ annotations (second_panel p1) "bottom"
                        (blank_labels (keys (dict_of w holidays))).
Proof.
  intros Hhist Hpanels.
  assert (Hrun : returns
    (plot_testcount_components view_x view_y component_panels m forecast
                               holidays) w
    (fun r w' =>
       snd r = seq (next_axes w) (S (S (List.length ps)))
       /\ dict_of w' (next_dict w) = blank_labels (keys (dict_of w holidays))
       /\ artists (axes_of w' (S (next_axes w)))
          = artists p1
            ++ annotations (second_panel p1) "bottom"
                           (blank_labels (keys (dict_of w holidays))))).
  { unfold plot_testcount_components.
    apply returns_bind. eexists _, _. split; [reflexivity|].
    apply returns_bind. eexists _, _. split; [reflexivity|].
    apply returns_bind. exists (ds first), w.
    split; [unfold first_date; now rewrite Hhist|].
    step plot_components_spec H0. rewrite Hpanels in H0.
    destruct H0 as (Hfig & Hax & Hdata & Hnext).
    unfold data_of in Hdata. injection Hdata as Hdict _ _ _ _.
    pose proof (Hax 0 p0 eq_refl) as Hp0. rewrite Nat.add_0_r in Hp0.
    pose proof (Hax 1 p1 eq_refl) as Hp1. rewrite Nat.add_1_r in Hp1.
    set (n := next_axes w) in *.
    apply returns_bind. eexists _, _. split; [reflexivity|]. rewrite Hfig.
    simpl List.length. cbn [seq].
    step for_each_cosmetic H1.
    apply returns_bind. apply returns_ret.
    step set_ylim_evolves H2. destruct H2 as (H2 & _ & _).
    apply returns_bind. apply returns_ret.
    step set_ylim_evolves H3. destruct H3 as (H3 & Hyauto & Hylim).
    apply returns_bind. apply returns_ret.
    step plot_vlines_evolves H4; [now right|].
    apply returns_bind. apply returns_ret.
    apply returns_bind. eexists _, _. split; [reflexivity|].
    step new_dict_evolves H5. destruct H5 as (-> & Hblank & _ & H5).
    step plot_vlines_evolves H6; [now right|].
    apply returns_bind. apply returns_ret.
    step set_xlim_evolves H7. destruct H7 as (H7 & _ & _).
    apply returns_bind. apply returns_ret.
    step set_xlim_evolves H8. destruct H8 as (H8 & _ & _).
    apply returns_ret. split; [reflexivity|].
    pose proof (evolves_trans H1 H2) as H12.
    pose proof (evolves_trans H12 (evolves_trans H3 H4)) as H14.
    pose proof (evolves_trans H4 H5) as H45.
    pose proof (evolves_trans H6 (evolves_trans H7 H8)) as H68.
    pose proof (evolves_trans H14 (evolves_trans H5 H68)) as Hall.
    assert (Hne : (n =? S n) = false) by (apply Nat.eqb_neq; lia).
    destruct (ev_no_dict H14) as [Hd14 Hn14];
      [simpl; now rewrite allocated_map|].
    destruct (ev_no_dict H68) as [Hd68 _];
      [simpl; rewrite allocated_app, allocated_map; reflexivity|].
    rewrite Hd14, Hdict in Hblank. rewrite Hn14, Hnext in Hblank, Hall.
    split; [now rewrite Hd68|].
    rewrite (ev_artists Hall), Hp1. f_equal.
    rewrite !drawn_on_app, !drawn_on_map. simpl.
    rewrite Hne, Nat.eqb_refl. simpl. rewrite !app_nil_r.
    rewrite Hblank. apply annotations_ext.
    - rewrite (ev_xlim (evolves_trans H14 H5)), Hp1; [reflexivity| |right].
      + simpl. rewrite xlim_kept_app, xlim_kept_map. reflexivity.
      + simpl. rewrite rescaled_app, rescaled_map. reflexivity.
    - rewrite (ev_ylim H45); [|simpl; rewrite ylim_kept_app, ylim_kept_map;
                                reflexivity
                              |right; rewrite rescaled_app, rescaled_map;
                               reflexivity].
      rewrite Hylim. rewrite (ev_ylim H12), Hp1; [reflexivity| |now right].
      simpl. now rewrite Hne. }
  destruct Hrun as ([fig axs] & w' & Hr & Haxs & H). simpl in Haxs. subst axs.
  exists fig, w'. split; [exact Hr|exact H].
Qed.

End Components.

(** ** The properties of the specification *)

Lemma marker_dates_annotations (a : Axes) (alignment : string) (items : NamedDates) :
  marker_dates (annotations a alignment items)
  = filter (in_xrange a) (keys items).
Proof.
  induction items as [|item items IH]; [reflexivity|].
  cbn [annotations flat_map keys map filter].
  unfold marker_dates in *. rewrite flat_map_app.
  unfold annotations, keys in IH. rewrite IH.
  now destruct (in_xrange a (fst item)).
Qed.

Lemma label_dates_annotations (a : Axes) (alignment : string) (items : NamedDates) :
  label_dates (annotations a alignment items)
  = filter (in_xrange a) (keys items).
Proof.
  induction items as [|item items IH]; [reflexivity|].
  cbn [annotations flat_map keys map filter].
  unfold label_dates in *. rewrite flat_map_app.
  unfold annotations, keys in IH. rewrite IH.
  now destruct (in_xrange a (fst item)).
Qed.

Lemma in_annotations (a : Axes) (alignment : string) (items : NamedDates)
    (item : Timestamp * string) :
  In item items -> in_xrange a (fst item) = true ->
  In (label_text a alignment item) (annotations a alignment items).
Proof.
  intros Hin Hr. unfold annotations. apply in_flat_map. exists item.
  split; [exact Hin|]. rewrite Hr. right. now left.
Qed.

Section Claims.

Variable view_x view_y : (handle -> Axes) -> handle -> Q * Q.
Variable component_panels : Prophet -> DataFrame -> list Axes.

Variable get_scale_factor : InferenceData -> nat -> nat -> Q.

(** C1, as the code has it.  With an alignment other than 'top' and
    'bottom', [plot_vlines] raises [ValueError] exactly when a date of the
    mapping lies within the x limits of the panel.  It raises at the first
    such date, after the marker of that date is drawn: no label is drawn,
    and nothing for the dates that follow.  With no date within the limits
    it returns, and the store is as it was. *)
Theorem unsupported_alignment_raises_at_first_date_in_range
    (ax vlines : handle) (alignment : string) (w : World) :
  ~ valid_alignment alignment ->
  match find (fun item => in_xrange (axes_of w ax) (fst item))
             (dict_of w vlines) with
  | None =>
      plot_vlines view_x view_y ax vlines alignment w = (Returned tt, w)
  | Some item =>
      exists w',
        plot_vlines view_x view_y ax vlines alignment w
        = (Raised (ValueError ("Unsupported alignment: '" ++ alignment ++ "'")), w')
        /\ draws_on ax [AxVLine (fst item) "gray" ":"] w w'
  end.
Proof. intros H. now apply plot_vlines_invalid. Qed.

(** C10.  With an alignment other than 'top' and 'bottom', and a mapping
    that is empty or has all its dates outside the x limits of the panel,
    [plot_vlines] returns normally and changes nothing: the alignment is
    looked at only for a date within the limits. *)
Theorem alignment_checked_only_for_dates_in_range
    (ax vlines : handle) (alignment : string) (w : World) :
  ~ valid_alignment alignment ->
  (forall item, In item (dict_of w vlines) ->
                in_xrange (axes_of w ax) (fst item) = false) ->
  plot_vlines view_x view_y ax vlines alignment w = (Returned tt, w).
Proof. intros _ H. now apply plot_vlines_out_of_range. Qed.

(** C3.  When every date of the mapping lies outside the x limits of the
    panel, [plot_vlines] draws nothing and raises nothing.  In general
    (alignment 'top' or 'bottom') it returns having drawn, in the order of
    the mapping, a marker and a label for exactly the dates within the
    limits, and nothing else. *)
Theorem markers_for_exactly_the_dates_in_range
    (ax vlines : handle) (alignment : string) (w : World) :
  ((forall item, In item (dict_of w vlines) ->
                 in_xrange (axes_of w ax) (fst item) = false) ->
   plot_vlines view_x view_y ax vlines alignment w = (Returned tt, w))
  /\ (valid_alignment alignment ->
      exists w' drawn,
        plot_vlines view_x view_y ax vlines alignment w = (Returned tt, w')
        /\ draws_on ax drawn w w'
        /\ drawn = annotations (axes_of w ax) alignment (dict_of w vlines)
        /\ marker_dates drawn
           = filter (in_xrange (axes_of w ax)) (keys (dict_of w vlines))
        /\ label_dates drawn
           = filter (in_xrange (axes_of w ax)) (keys (dict_of w vlines))).
Proof.
  split; [now apply plot_vlines_out_of_range|]. intros Hal.
  destruct (@plot_vlines_valid view_x view_y ax vlines alignment w Hal)
    as ([] & w' & Hrun & Hdraw).
  exists w', (annotations (axes_of w ax) alignment (dict_of w vlines)).
  split; [exact Hrun|]. split; [exact Hdraw|]. split; [reflexivity|].
  split; [apply marker_dates_annotations|apply label_dates_annotations].
Qed.

(** C8.  On a panel with y limits ymin < ymax, the label of a date within
    the x limits is placed at y = ymin + 0.98 (ymax - ymin) for the
    alignment 'top' and at y = ymin + 0.02 (ymax - ymin) for 'bottom';
    both heights lie within [ymin, ymax]. *)
Theorem label_height_within_panel
    (ax vlines : handle) (w : World) (ymin ymax : Q) (x : Timestamp)
    (label : string) :
  ylim (axes_of w ax) = (ymin, ymax) ->
  (ymin < ymax)%Q ->
  In (x, label) (dict_of w vlines) ->
  in_xrange (axes_of w ax) x = true ->
  (exists w',
     plot_vlines view_x view_y ax vlines "top" w = (Returned tt, w')
     /\ In (Text x (ymin + (98 # 100) * (ymax - ymin))%Q
                 (shortened label ++ nl) "gray" 90 "center" "top")
           (artists (axes_of w' ax)))
  /\ (exists w',
        plot_vlines view_x view_y ax vlines "bottom" w = (Returned tt, w')
        /\ In (Text x (ymin + (2 # 100) * (ymax - ymin))%Q
                    (shortened label ++ nl) "gray" 90 "center" "bottom")
              (artists (axes_of w' ax)))
  /\ (ymin <= ymin + (98 # 100) * (ymax - ymin) <= ymax)%Q
  /\ (ymin <= ymin + (2 # 100) * (ymax - ymin) <= ymax)%Q.
Proof.
  intros Hy Hlt Hin Hr.
  assert (Hdrawn : forall alignment, valid_alignment alignment ->
            exists w',
              plot_vlines view_x view_y ax vlines alignment w = (Returned tt, w')
              /\ In (label_text (axes_of w ax) alignment (x, label))
                    (artists (axes_of w' ax))).
  { intros alignment Hal.
    destruct (@plot_vlines_valid view_x view_y ax vlines alignment w Hal)
      as ([] & w' & Hrun & Hdraw).
    exists w'. split; [exact Hrun|]. rewrite (draws_on_axes Hdraw). simpl.
    apply in_or_app. right. now apply in_annotations. }
  unfold label_text, label_y in Hdrawn. rewrite Hy in Hdrawn.
  split; [|split].
  - apply (Hdrawn "top"%string). now left.
  - apply (Hdrawn "bottom"%string). now right.
  - split; split; lra.
Qed.

(** C4, as the code has it.  The text placed for a label is
    [textwrap.shorten(label, width=20, placeholder='...')] followed by a
    line break.  The whitespace of the label is collapsed first (runs of
    whitespace become one space, whitespace at the ends is dropped).  When
    the collapsed label has at most 20 characters the text is the
    collapsed label: a label of at most 20 characters whose whitespace is
    already collapsed is rendered as it is, and an empty label gives a
    text that holds the line break only.  Otherwise the text is a prefix
    of the collapsed label of at most 17 characters, followed by '...'. *)
Theorem label_text_is_shortened_label
    (ax vlines : handle) (alignment : string) (w : World) (x : Timestamp)
    (label : string) :
  valid_alignment alignment ->
  In (x, label) (dict_of w vlines) ->
  in_xrange (axes_of w ax) x = true ->
  (exists w' y,
     plot_vlines view_x view_y ax vlines alignment w = (Returned tt, w')
     /\ In (Text x y (shortened label ++ nl) "gray" 90 "center" alignment)
           (artists (axes_of w' ax)))
  /\ textwrap.shorten label 20 "..." = Returned (shortened label)
  /\ (String.length (collapsed label) <= 20 -> shortened label = collapsed label)
  /\ (collapsed label = label -> String.length label <= 20 ->
      shortened label = label)
  /\ (label = ""%string -> (shortened label ++ nl)%string = nl)
  /\ (20 < String.length (collapsed label) ->
      exists p tail,
        shortened label = (p ++ "...")%string
        /\ String.length p <= 17
        /\ (p ++ tail)%string = collapsed label).
Proof.
  intros Hal Hin Hr. split; [|split; [|split; [|split; [|split]]]].
  - destruct (@plot_vlines_valid view_x view_y ax vlines alignment w Hal)
      as ([] & w' & Hrun & Hdraw).
    exists w', (label_y (axes_of w ax) alignment). split; [exact Hrun|].
    rewrite (draws_on_axes Hdraw). simpl. apply in_or_app. right.
    change (Text x (label_y (axes_of w ax) alignment) (shortened label ++ nl)
                 "gray" 90 "center" alignment)
      with (label_text (axes_of w ax) alignment (x, label)).
    now apply in_annotations.
  - apply shorten_returns.
  - apply shortened_short.
  - intros Hc Hl. rewrite <- Hc at 2. apply shortened_short. now rewrite Hc.
  - now intros ->.
  - apply shortened_long.
Qed.

(** C5.  [plot_testcount_components] annotates its second panel with a
    new mapping that has the dates of the given one, all of them and in
    their order, and the empty string for every label: the panel gets a
    marker for each date within its x limits, and texts that hold a line
    break only. *)
Theorem second_panel_marked_without_labels
    (m forecast holidays : handle) (w : World)
    (first : Row) (more : DataFrame) (p0 p1 : Axes) (ps : list Axes) :
  history (prophet_of w m) = first :: more ->
  component_panels (prophet_of w m)
                   (rows_from (ds first) (frame_of w forecast))
  = p0 :: p1 :: ps ->
  NoDup (keys (dict_of w holidays)) ->
  exists fig axs ax1 blanked w',
    plot_testcount_components view_x view_y component_panels m forecast
                              holidays w
    = (Returned (fig, axs), w')
    /\ nth_error axs 1 = Some ax1
    /\ keys (dict_of w' blanked) = keys (dict_of w holidays)
    /\ Forall (fun item => snd item = ""%string) (dict_of w' blanked)
    /\ artists (axes_of w' ax1)
       = artists p1
         ++ annotations (second_panel p1) "bottom" (dict_of w' blanked)
    /\ annotations (second_panel p1) "bottom" (dict_of w' blanked)
       = bare_marks (second_panel p1) "bottom" (keys (dict_of w holidays)).
Proof.
  intros Hhist Hpanels Hnodup.
  destruct (@plot_testcount_components_spec view_x view_y component_panels
              m forecast holidays w first more p0 p1 ps Hhist Hpanels)
    as (fig & w' & Hrun & Hdict & Hart).
  exists fig, (seq (next_axes w) (S (S (List.length ps)))),
         (S (next_axes w)), (next_dict w), w'.
  rewrite Hdict, blank_labels_nodup by assumption.
  split; [exact Hrun|]. split; [reflexivity|]. split; [apply keys_blank|].
  split; [|split].
  - apply Forall_forall. intros item Hitem.
    apply in_map_iff in Hitem as (k & <- & _). reflexivity.
  - rewrite Hart, blank_labels_nodup by assumption. reflexivity.
  - apply annotations_blank.
Qed.

(** C6.  [plot_testcount_forecast] hands to the plot of the model the
    rows of the forecast whose date is on or after the first date of the
    history of the model, and no other row; it leaves the lower x limit
    of the panel at 2020-03-01 and the lower y limit at zero. *)
Theorem forecast_from_first_training_date
    (result m forecast holidays : handle) (ax : option handle) (w : World)
    (first : Row) (more : DataFrame) :
  history (prophet_of w m) = first :: more ->
  exists w' marks plotted_rows,
    plot_testcount_forecast view_x view_y result m forecast holidays ax w
    = (Returned (forecast_axes ax w), w')
    /\ Forall is_annotation marks
    /\ artists (axes_of w' (forecast_axes ax w))
       = forecast_initial ax w
         ++ [ProphetPlot (prophet_of w m) plotted_rows]
         ++ marks
         ++ forecast_legend (series_of w result)
    /\ (forall r, In r plotted_rows
                  <-> In r (frame_of w forecast) /\ (ds first <= ds r)%Z)
    /\ fst (xlim (axes_of w' (forecast_axes ax w)))
       = date2num (to_datetime 2020 3 1)
    /\ fst (ylim (axes_of w' (forecast_axes ax w))) = 0%Q.
Proof.
  intros Hhist.
  destruct (@plot_testcount_forecast_spec view_x view_y result m forecast
              holidays ax w first more Hhist)
    as (w' & marks & Hrun & Hm & Hart & Hx & Hy).
  exists w', marks, (rows_from (ds first) (frame_of w forecast)).
  split; [exact Hrun|]. split; [exact Hm|]. split; [exact Hart|].
  split; [intros r; apply rows_from_spec|]. split; [exact Hx|exact Hy].
Qed.

(** C7.  [plot_density_curves] returns normally on every input, with
    and without [actual_tests].  Without them the panel of the test
    counts gets the line of the modeled counts and no bars; with them it
    gets the line and then the bars of the actual counts.  In both cases
    the only other artists drawn into the panel are markers and their
    texts.  (Panels passed in by the caller are four different axes.) *)
Theorem actual_tests_are_optional
    (idata : handle) (vlines actual_tests : option handle)
    (fig : option handle) (axs : option (handle * handle * handle * handle))
    (w : World) :
  (exists r w',
     plot_density_curves view_x view_y get_scale_factor idata vlines
                         actual_tests fig axs w
     = (Returned r, w'))
  /\ (distinct_panels fig axs ->
      exists f a b c d w' marks,
        plot_density_curves view_x view_y get_scale_factor idata vlines
                            actual_tests fig axs w
        = (Returned (f, (a, b, c, d)), w')
        /\ Forall is_annotation marks
        /\ artists (axes_of w' b)
           = initial_artists fig axs w b
             ++ [Line2D (index (tests (constant_data (idata_of w idata))))
                        (map Some
                             (values (tests (constant_data (idata_of w idata)))))
                        (Some "orange"%string) (Some "modeled"%string)]
             ++ match actual_tests with
                | Some s =>
                    [Bar (index (series_of w s)) (values (series_of w s))
                         "actual" None]
                | None => []
                end
             ++ marks).
Proof.
  split; [apply plot_density_curves_returns|]. intros Hd.
  destruct (@plot_density_curves_spec view_x view_y get_scale_factor idata
              vlines actual_tests fig axs w Hd)
    as (f & a & b & c & d & w' & marks1 & marks2
        & Hrun & _ & Hm2 & _ & Hb & _).
  exists f, a, b, c, d, w', marks2. auto.
Qed.

(** C2.  The panel of the probability gets one line: at each date of the
    posterior, the number of draws of [r_t], over all chains and draws,
    that are above 1, divided by the number of draws.  The value is 1
    where every draw is above 1 and 0 where none is.  The y limits of the
    panel are left at (0, 1). *)
Theorem probability_is_fraction_of_draws_above_one
    (idata : handle) (vlines actual_tests : option handle)
    (fig : option handle) (axs : option (handle * handle * handle * handle))
    (w : World) :
  let p := posterior (idata_of w idata) in
  distinct_panels fig axs ->
  0 < nchain p * ndraw p ->
  exists f a b c d w' probabilities,
    plot_density_curves view_x view_y get_scale_factor idata vlines
                        actual_tests fig axs w
    = (Returned (f, (a, b, c, d)), w')
    /\ artists (axes_of w' c)
       = initial_artists fig axs w c
         ++ [Line2D (date p) probabilities None None]
    /\ ylim (axes_of w' c) = (0, 1)%Q
    /\ List.length probabilities = List.length (date p)
    /\ forall t, t < List.length (date p) ->
         let draws := draws_at p r_t t in
         let above := filter (fun x => Qlt_bool 1 x) draws in
         nth_error probabilities t
         = Some (Some (Z.of_nat (List.length above)
                       # Pos.of_nat (List.length draws))%Q)
         /\ (forall x, In x draws
                       <-> exists chain draw,
                             chain < nchain p /\ draw < ndraw p
                             /\ x = var p r_t chain draw t)
         /\ (forall x, In x above <-> In x draws /\ (1 < x)%Q)
         /\ ((forall chain draw, chain < nchain p -> draw < ndraw p ->
                                 (1 < var p r_t chain draw t)%Q) ->
             (Z.of_nat (List.length above) # Pos.of_nat (List.length draws)
              == 1)%Q)
         /\ ((forall chain draw, chain < nchain p -> draw < ndraw p ->
                                 (var p r_t chain draw t <= 1)%Q) ->
             (Z.of_nat (List.length above) # Pos.of_nat (List.length draws)
              == 0)%Q).
Proof.
  intros p Hd Hn.
  destruct (@plot_density_curves_spec view_x view_y get_scale_factor idata
              vlines actual_tests fig axs w Hd)
    as (f & a & b & c & d & w' & marks1 & marks2
        & Hrun & _ & _ & _ & _ & Hc & _ & Hy).
  exists f, a, b, c, d, w', (probability_above_one p).
  split; [exact Hrun|]. split; [exact Hc|]. split; [exact Hy|].
  split; [apply length_probability|].
  intros t Ht draws above.
  pose proof (length_draws_at p r_t t) as Hlen. fold draws in Hlen.
  split; [|split; [|split; [|split]]].
  - unfold above, draws. rewrite length_draws_at. now apply probability_at.
  - intros x. apply in_draws_at.
  - intros x. unfold above. rewrite filter_In, Qlt_bool_iff. reflexivity.
  - intros Hall. unfold above. rewrite filter_all.
    + apply fraction_one. lia.
    + intros x Hx. apply in_draws_at in Hx as (ch & dr & Hch & Hdr & ->).
      apply Qlt_bool_iff. now apply Hall.
  - intros Hall. unfold above. rewrite filter_none; [reflexivity|].
    intros x Hx. apply in_draws_at in Hx as (ch & dr & Hch & Hdr & ->).
    apply Qlt_bool_false. now apply Hall.
Qed.

(** C9.  The bands of the curves panel are drawn from the dates and the
    scaled samples without their first three time points (the band of
    [r_t] is drawn from all of them), and no plotting function changes
    the data it is given: whatever its outcome, the posterior, the
    series, the tables and the mappings of the caller are as they were
    before the call. *)
Theorem leading_points_skipped_and_inputs_kept
    (idata : handle) (vlines actual_tests : option handle)
    (fig : option handle) (axs : option (handle * handle * handle * handle))
    (w : World) :
  let d := idata_of w idata in
  (distinct_panels fig axs ->
   exists f a b c e w' marks,
     plot_density_curves view_x view_y get_scale_factor idata vlines
                         actual_tests fig axs w
     = (Returned (f, (a, b, c, e)), w')
     /\ Forall is_annotation marks
     /\ artists (axes_of w' a)
        = initial_artists fig axs w a
          ++ [GpDist (skipn 3 (date (posterior d)))
                     (map (skipn 3)
                          (to_lists (scaled_samples get_scale_factor d infections)))
                     0 (Some Reds) (Some (15 # 100)%Q);
              legend_patch Reds "infections";
              GpDist (skipn 3 (date (posterior d)))
                     (map (skipn 3)
                          (to_lists (scaled_samples get_scale_factor d
                                                    test_adjusted_positive)))
                     0 (Some Greens) (Some (15 # 100)%Q);
              legend_patch Greens "testing delay adjusted";
              observed_bars d]
          ++ marks
     /\ artists (axes_of w' e)
        = initial_artists fig axs w e
          ++ [GpDist (date (posterior d))
                     (to_lists (transpose (stack (posterior d) r_t)))
                     0 None None;
              AxHLine 1 ":"])
  /\ (forall r w',
        plot_density_curves view_x view_y get_scale_factor idata vlines
                            actual_tests fig axs w = (r, w') ->
        data_kept w w')
  /\ (forall ax vl alignment r w',
        plot_vlines view_x view_y ax vl alignment w = (r, w') -> data_kept w w')
  /\ (forall result m forecast holidays ax r w',
        plot_testcount_forecast view_x view_y result m forecast holidays ax w
        = (r, w') -> data_kept w w')
  /\ (forall m forecast holidays r w',
        plot_testcount_components view_x view_y component_panels m forecast
                                  holidays w = (r, w') -> data_kept w w').
Proof.
  intros d. split; [|split; [|split; [|split]]].
  - intros Hd.
    destruct (@plot_density_curves_spec view_x view_y get_scale_factor idata
                vlines actual_tests fig axs w Hd)
      as (f & a & b & c & e & w' & marks1 & marks2
          & Hrun & Hm1 & _ & Ha & _ & _ & He & _).
    exists f, a, b, c, e, w', marks1.
    split; [exact Hrun|]. split; [exact Hm1|]. split; [|exact He].
    rewrite Ha. unfold gp_curve. now rewrite !to_lists_skip_columns.
  - intros r w'. apply read_only_plot_density_curves.
  - intros ax vl alignment r w'. apply read_only_plot_vlines.
  - intros result m forecast holidays ax r w'.
    apply read_only_plot_testcount_forecast.
  - intros m forecast holidays r w'.
    apply read_only_plot_testcount_components.
Qed.

End Claims.

(** ** The properties on the scenario *)

(** 2020-03-01 is day 18322 of the epoch. *)
Example floor_date_is_day_18322 :
  floor_date = 1583020800000000000%Z /\ date2num floor_date == 18322.
Proof. split; reflexivity. Qed.

(** The forecast view on the scenario: of the rows of 2020-01-15,
    2020-02-01 and 2020-02-15 the last two are plotted, the x limits
    start at 2020-03-01 and the y limits at 0. *)
Example forecast_view_on_the_scenario :
  let r := plot_testcount_forecast fixed_view fixed_view 0 0 0 0 (Some 0)
                                   example_world in
  fst r = Returned 0
  /\ artists (axes_of (snd r) 0)
     = [ProphetPlot example_model
          [mkRow (to_datetime 2020 2 1) []; mkRow (to_datetime 2020 2 15) []];
        AxVLine (to_datetime 2020 3 1) "gray" ":";
        Text (to_datetime 2020 3 1) (0 + (2 # 100) * (100 - 0))%Q
             ("lockdown" ++ nl) "gray" 90 "center" "bottom";
        Scatter [] [] "black" "training data";
        Line2D [] [] (Some "blue"%string) (Some "prediction"%string);
        Line2D [to_datetime 2020 3 1] [Some 120%Q]
               (Some "orange"%string) (Some "result"%string)]
  /\ xlim (axes_of (snd r) 0)
     = (date2num (to_datetime 2020 3 1), date2num (to_datetime 2020 6 1))
  /\ ylim (axes_of (snd r) 0) = (0, 100)%Q.
Proof. vm_compute. repeat split. Qed.

(** The components view on the scenario: the first panel gets the marker
    and the label of 2020-03-01, the second the marker and an empty
    label, from a new mapping with both dates. *)
Example components_view_on_the_scenario :
  let r := plot_testcount_components fixed_view fixed_view two_panels 0 0 0
                                     example_world in
  fst r = Returned (0, [1; 2])
  /\ artists (axes_of (snd r) 1)
     = [AxVLine (to_datetime 2020 3 1) "gray" ":";
        Text (to_datetime 2020 3 1) (0 + (2 # 100) * (100 - 0))%Q
             ("lockdown" ++ nl) "gray" 90 "center" "bottom"]
  /\ artists (axes_of (snd r) 2)
     = [AxVLine (to_datetime 2020 3 1) "gray" ":";
        Text (to_datetime 2020 3 1) (-1 + (2 # 100) * (100 - -1))%Q
             nl "gray" 90 "center" "bottom"]
  /\ dict_of (snd r) 4
     = [(to_datetime 2020 3 1, EmptyString);
        (to_datetime 2020 12 25, EmptyString)]
  /\ dict_of (snd r) 0 = events.
Proof. vm_compute. repeat split. Qed.

Lemma middle_is_unsupported : ~ valid_alignment "middle".
Proof. intros [H|H]; discriminate H. Qed.

(** C1, on the scenario: with the alignment 'middle' the call raises
    after the marker of 2020-03-01 is drawn. *)
Lemma unsupported_alignment_raises_at_first_date_in_range_witness :
  (valid_alignment "middle" -> False)
  /\ exists w',
       plot_vlines fixed_view fixed_view 0 0 "middle" example_world
       = (Raised (ValueError "Unsupported alignment: 'middle'"), w')
       /\ draws_on 0 [AxVLine (to_datetime 2020 3 1) "gray" ":"]
                   example_world w'.
Proof.
  split; [exact middle_is_unsupported|].
  exact (@unsupported_alignment_raises_at_first_date_in_range
           fixed_view fixed_view 0 0 "middle" example_world
           middle_is_unsupported).
Defined.

(** C1 as the specification has it does not hold: with the alignment
    'middle' the marker of 2020-03-01 is on the panel when the error is
    raised, and with no date within the limits there is no error. *)
Lemma unsupported_alignment_marker_drawn_before_error :
  (exists w',
     plot_vlines fixed_view fixed_view 0 0 "middle" example_world
     = (Raised (ValueError "Unsupported alignment: 'middle'"), w')
     /\ artists (axes_of example_world 0) = []
     /\ artists (axes_of w' 0) = [AxVLine (to_datetime 2020 3 1) "gray" ":"])
  /\ plot_vlines fixed_view fixed_view 0 1 "middle" example_world
     = (Returned tt, example_world).
Proof.
  split; [|vm_compute; reflexivity].
  exists (snd (plot_vlines fixed_view fixed_view 0 0 "middle" example_world)).
  repeat split; vm_compute; reflexivity.
Qed.

(** C10, on the scenario: the only date of the mapping is outside the
    limits, and the call with the alignment 'middle' returns. *)
Lemma alignment_checked_only_for_dates_in_range_witness :
  (valid_alignment "middle" -> False)
  /\ (forall item, In item (dict_of example_world 1) ->
                   in_xrange (axes_of example_world 0) (fst item) = false)
  /\ plot_vlines fixed_view fixed_view 0 1 "middle" example_world
     = (Returned tt, example_world).
Proof.
  assert (H : forall item, In item (dict_of example_world 1) ->
                in_xrange (axes_of example_world 0) (fst item) = false).
  { intros item [<-|[]]. reflexivity. }
  split; [exact middle_is_unsupported|]. split; [exact H|].
  exact (@alignment_checked_only_for_dates_in_range
           fixed_view fixed_view 0 1 "middle" example_world
           middle_is_unsupported H).
Defined.

(** C3, on the scenario of the specification: of 2020-03-01 and
    2020-12-25, on a panel that shows 2020-01-01 to 2020-06-01, exactly
    the first gets a marker and a label. *)
Lemma markers_for_exactly_the_dates_in_range_witness :
  valid_alignment "top"
  /\ exists w' drawn,
       plot_vlines fixed_view fixed_view 0 0 "top" example_world
       = (Returned tt, w')
       /\ draws_on 0 drawn example_world w'
       /\ drawn = [AxVLine (to_datetime 2020 3 1) "gray" ":";
                   Text (to_datetime 2020 3 1) (0 + (98 # 100) * (100 - 0))%Q
                        ("lockdown" ++ nl) "gray" 90 "center" "top"]
       /\ marker_dates drawn = [to_datetime 2020 3 1]
       /\ label_dates drawn = [to_datetime 2020 3 1].
Proof.
  assert (H : valid_alignment "top") by (now left).
  split; [exact H|].
  exact (proj2 (@markers_for_exactly_the_dates_in_range
                  fixed_view fixed_view 0 0 "top" example_world) H).
Defined.

(** C8, on the scenario: the label of 2020-03-01 on a panel with y
    limits 0 and 100. *)
Lemma label_height_within_panel_witness :
  ylim (axes_of example_world 0) = (0, 100)%Q
  /\ (0 < 100)%Q
  /\ In (to_datetime 2020 3 1, "lockdown"%string) (dict_of example_world 0)
  /\ in_xrange (axes_of example_world 0) (to_datetime 2020 3 1) = true
  /\ (exists w',
        plot_vlines fixed_view fixed_view 0 0 "top" example_world
        = (Returned tt, w')
        /\ In (Text (to_datetime 2020 3 1) (0 + (98 # 100) * (100 - 0))%Q
                    ("lockdown" ++ nl) "gray" 90 "center" "top")
              (artists (axes_of w' 0)))
  /\ (exists w',
        plot_vlines fixed_view fixed_view 0 0 "bottom" example_world
        = (Returned tt, w')
        /\ In (Text (to_datetime 2020 3 1) (0 + (2 # 100) * (100 - 0))%Q
                    ("lockdown" ++ nl) "gray" 90 "center" "bottom")
              (artists (axes_of w' 0)))
  /\ (0 <= 0 + (98 # 100) * (100 - 0) <= 100)%Q
  /\ (0 <= 0 + (2 # 100) * (100 - 0) <= 100)%Q.
Proof.
  assert (Hy : ylim (axes_of example_world 0) = (0, 100)%Q) by reflexivity.
  assert (Hlt : (0 < 100)%Q) by reflexivity.
  assert (Hin : In (to_datetime 2020 3 1, "lockdown"%string)
                   (dict_of example_world 0)) by (now left).
  assert (Hr : in_xrange (axes_of example_world 0) (to_datetime 2020 3 1)
               = true) by reflexivity.
  split; [exact Hy|]. split; [exact Hlt|]. split; [exact Hin|].
  split; [exact Hr|].
  exact (@label_height_within_panel fixed_view fixed_view 0 0 example_world
           0%Q 100%Q (to_datetime 2020 3 1) "lockdown" Hy Hlt Hin Hr).
Defined.

(** C4, on the scenario: a label of 30 characters is cut after its
    second word. *)
Lemma label_text_is_shortened_label_witness :
  valid_alignment "bottom"
  /\ In (to_datetime 2020 5 1, "national lockdown begins today"%string)
        (dict_of example_world 2)
  /\ in_xrange (axes_of example_world 0) (to_datetime 2020 5 1) = true
  /\ shortened "national lockdown begins today" = "national lockdown..."%string
  /\ (exists w' y,
        plot_vlines fixed_view fixed_view 0 2 "bottom" example_world
        = (Returned tt, w')
        /\ In (Text (to_datetime 2020 5 1) y ("national lockdown..." ++ nl)
                    "gray" 90 "center" "bottom")
              (artists (axes_of w' 0))).
Proof.
  assert (Hal : valid_alignment "bottom") by (now right).
  assert (Hin : In (to_datetime 2020 5 1,
                    "national lockdown begins today"%string)
                   (dict_of example_world 2)) by (right; right; now left).
  assert (Hr : in_xrange (axes_of example_world 0) (to_datetime 2020 5 1)
               = true) by reflexivity.
  split; [exact Hal|]. split; [exact Hin|]. split; [exact Hr|].
  split; [reflexivity|].
  exact (proj1 (@label_text_is_shortened_label fixed_view fixed_view 0 2
                  "bottom" example_world (to_datetime 2020 5 1)
                  "national lockdown begins today" Hal Hin Hr)).
Defined.

(** C4 as the specification has it does not hold.  A label of 9
    characters with two spaces in a row is not rendered as it is: the
    text has one space (and a line break at its end).  A label of 22
    characters, most of them spaces, is rendered without an ellipsis.  An
    empty label still places a text, which holds the line break. *)
Lemma short_label_not_verbatim_long_label_without_ellipsis :
  String.length "New  Year" = 9
  /\ String.length "a                    b" = 22
  /\ (exists w',
        plot_vlines fixed_view fixed_view 0 2 "bottom" example_world
        = (Returned tt, w')
        /\ artists (axes_of w' 0)
           = [AxVLine (to_datetime 2020 3 1) "gray" ":";
              Text (to_datetime 2020 3 1) (0 + (2 # 100) * (100 - 0))%Q
                   ("New Year" ++ nl) "gray" 90 "center" "bottom";
              AxVLine (to_datetime 2020 4 1) "gray" ":";
              Text (to_datetime 2020 4 1) (0 + (2 # 100) * (100 - 0))%Q
                   ("a b" ++ nl) "gray" 90 "center" "bottom";
              AxVLine (to_datetime 2020 5 1) "gray" ":";
              Text (to_datetime 2020 5 1) (0 + (2 # 100) * (100 - 0))%Q
                   ("national lockdown..." ++ nl) "gray" 90 "center" "bottom"])
  /\ ("New Year" ++ nl)%string <> "New  Year"%string
  /\ "New Year"%string <> "New  Year"%string
  /\ (exists w',
        plot_vlines fixed_view fixed_view 0 3 "bottom" example_world
        = (Returned tt, w')
        /\ artists (axes_of w' 0)
           = [AxVLine (to_datetime 2020 3 1) "gray" ":";
              Text (to_datetime 2020 3 1) (0 + (2 # 100) * (100 - 0))%Q
                   nl "gray" 90 "center" "bottom"]).
Proof.
  split; [reflexivity|]. split; [reflexivity|]. split.
  { exists (snd (plot_vlines fixed_view fixed_view 0 2 "bottom" example_world)).
    split; vm_compute; reflexivity. }
  split; [discriminate|]. split; [discriminate|].
  exists (snd (plot_vlines fixed_view fixed_view 0 3 "bottom" example_world)).
  split; vm_compute; reflexivity.
Qed.

(** C5, on the scenario: two component panels, and the mapping with
    2020-03-01 and 2020-12-25. *)
Lemma second_panel_marked_without_labels_witness :
  history (prophet_of example_world 0)
  = mkRow (to_datetime 2020 2 1) [] :: [mkRow (to_datetime 2020 2 2) []]
  /\ two_panels (prophet_of example_world 0)
                (rows_from (to_datetime 2020 2 1) (frame_of example_world 0))
     = spring_panel :: spring_panel :: []
  /\ NoDup (keys (dict_of example_world 0))
  /\ exists fig axs ax1 blanked w',
       plot_testcount_components fixed_view fixed_view two_panels 0 0 0
                                 example_world
       = (Returned (fig, axs), w')
       /\ nth_error axs 1 = Some ax1
       /\ keys (dict_of w' blanked)
          = [to_datetime 2020 3 1; to_datetime 2020 12 25]
       /\ Forall (fun item => snd item = ""%string) (dict_of w' blanked)
       /\ artists (axes_of w' ax1)
          = artists spring_panel
            ++ annotations (second_panel spring_panel) "bottom"
                           (dict_of w' blanked)
       /\ annotations (second_panel spring_panel) "bottom" (dict_of w' blanked)
          = [AxVLine (to_datetime 2020 3 1) "gray" ":";
             Text (to_datetime 2020 3 1) (-1 + (2 # 100) * (100 - -1))%Q nl
                  "gray" 90 "center" "bottom"].
Proof.
  assert (Hh : history (prophet_of example_world 0)
               = mkRow (to_datetime 2020 2 1) []
                 :: [mkRow (to_datetime 2020 2 2) []]) by reflexivity.
  assert (Hp : two_panels (prophet_of example_world 0)
                 (rows_from (ds (mkRow (to_datetime 2020 2 1) []))
                            (frame_of example_world 0))
               = spring_panel :: spring_panel :: []) by reflexivity.
  assert (Hn : NoDup (keys (dict_of example_world 0))).
  { repeat constructor; simpl; intuition discriminate. }
  split; [exact Hh|]. split; [exact Hp|]. split; [exact Hn|].
  exact (@second_panel_marked_without_labels fixed_view fixed_view two_panels
           0 0 0 example_world _ _ _ _ _ Hh Hp Hn).
Defined.

(** C6, on the scenario of the specification: a forecast that starts on
    2020-01-15 and a history that starts on 2020-02-01. *)
Lemma forecast_from_first_training_date_witness :
  history (prophet_of example_world 0)
  = mkRow (to_datetime 2020 2 1) [] :: [mkRow (to_datetime 2020 2 2) []]
  /\ exists w' marks plotted_rows,
       plot_testcount_forecast fixed_view fixed_view 0 0 0 0 (Some 0)
                               example_world
       = (Returned 0, w')
       /\ Forall is_annotation marks
       /\ artists (axes_of w' 0)
          = [] ++ [ProphetPlot example_model plotted_rows]
            ++ marks
            ++ forecast_legend [(to_datetime 2020 3 1, 120%Q)]
       /\ (forall r, In r plotted_rows
                     <-> In r example_forecast
                         /\ (to_datetime 2020 2 1 <= ds r)%Z)
       /\ fst (xlim (axes_of w' 0)) = date2num (to_datetime 2020 3 1)
       /\ fst (ylim (axes_of w' 0)) = 0%Q.
Proof.
  assert (Hh : history (prophet_of example_world 0)
               = mkRow (to_datetime 2020 2 1) []
                 :: [mkRow (to_datetime 2020 2 2) []]) by reflexivity.
  split; [exact Hh|].
  exact (@forecast_from_first_training_date fixed_view fixed_view 0 0 0 0
           (Some 0) example_world _ _ Hh).
Defined.

(** C7, on the scenario: new panels and the named dates of handle 0,
    without actual tests and with them. *)
Lemma actual_tests_are_optional_witness :
  distinct_panels None None
  /\ (exists f a b c d w' marks,
        plot_density_curves fixed_view fixed_view unit_scale 0 (Some 0) None
                            None None example_world
        = (Returned (f, (a, b, c, d)), w')
        /\ Forall is_annotation marks
        /\ artists (axes_of w' b)
           = [] ++ [Line2D [to_datetime 2020 3 1; to_datetime 2020 3 2]
                           [Some 100%Q; Some 110%Q]
                           (Some "orange"%string) (Some "modeled"%string)]
             ++ [] ++ marks)
  /\ (exists f a b c d w' marks,
        plot_density_curves fixed_view fixed_view unit_scale 0 (Some 0)
                            (Some 0) None None example_world
        = (Returned (f, (a, b, c, d)), w')
        /\ Forall is_annotation marks
        /\ artists (axes_of w' b)
           = [] ++ [Line2D [to_datetime 2020 3 1; to_datetime 2020 3 2]
                           [Some 100%Q; Some 110%Q]
                           (Some "orange"%string) (Some "modeled"%string)]
             ++ [Bar [to_datetime 2020 3 1] [120%Q] "actual" None] ++ marks).
Proof.
  split; [exact I|]. split.
  - exact (proj2 (@actual_tests_are_optional fixed_view fixed_view unit_scale
                    0 (Some 0) None None None example_world) I).
  - exact (proj2 (@actual_tests_are_optional fixed_view fixed_view unit_scale
                    0 (Some 0) (Some 0) None None example_world) I).
Defined.

(** C2, on the scenario: two chains of two draws. *)
Lemma probability_is_fraction_of_draws_above_one_witness :
  distinct_panels None None
  /\ 0 < nchain example_posterior * ndraw example_posterior
  /\ exists f a b c d w' probabilities,
       plot_density_curves fixed_view fixed_view unit_scale 0 None None
                           None None example_world
       = (Returned (f, (a, b, c, d)), w')
       /\ artists (axes_of w' c)
          = [] ++ [Line2D (date example_posterior) probabilities None None]
       /\ ylim (axes_of w' c) = (0, 1)%Q
       /\ List.length probabilities = 5
       /\ nth_error probabilities 0 = Some (Some (4 # 4)%Q)
       /\ nth_error probabilities 2 = Some (Some (0 # 4)%Q)
       /\ nth_error probabilities 4 = Some (Some (1 # 4)%Q).
Proof.
  assert (Hn : 0 < nchain example_posterior * ndraw example_posterior)
    by (simpl; lia).
  split; [exact I|]. split; [exact Hn|].
  destruct (@probability_is_fraction_of_draws_above_one fixed_view fixed_view
              unit_scale 0 None None None None example_world I Hn)
    as (f & a & b & c & d & w' & probabilities & Hrun & Hart & Hy & Hlen & Hat).
  exists f, a, b, c, d, w', probabilities.
  split; [exact Hrun|]. split; [exact Hart|]. split; [exact Hy|].
  split; [exact Hlen|].
  split; [|split].
  - exact (proj1 (Hat 0 ltac:(simpl; lia))).
  - exact (proj1 (Hat 2 ltac:(simpl; lia))).
  - exact (proj1 (Hat 4 ltac:(simpl; lia))).
Defined.

(** * Further properties *)

(** ** More on [plot_vlines] *)

Lemma length_string_app (a b : string) :
  String.length (a ++ b) = String.length a + String.length b.
Proof. induction a as [|c a IH]; simpl; [reflexivity|now rewrite IH]. Qed.

Lemma length_shortened (label : string) : String.length (shortened label) <= 20.
Proof.
  destruct (Nat.le_gt_cases (String.length (collapsed label)) 20) as [H|H].
  - now rewrite (shortened_short _ H).
  - destruct (shortened_long _ H) as (p & tail & -> & Hp & _).
    rewrite length_string_app. simpl. lia.
Qed.

Lemma annotations_fit (a : Axes) (alignment : string) (items : NamedDates) :
  Forall fits_label (annotations a alignment items).
Proof.
  induction items as [|item items IH]; [constructor|].
  cbn [annotations flat_map]. destruct (in_xrange a (fst item)); [|exact IH].
  constructor; [exact I|]. constructor; [|exact IH].
  exists (shortened (snd item)). split; [reflexivity|apply length_shortened].
Qed.

Lemma inverted_out_of_range (a : Axes) (x : Timestamp) :
  inverted_x a -> in_xrange a x = false.
Proof.
  unfold inverted_x, in_xrange. intros H.
  destruct (Qle_bool (fst (xlim a)) (date2num x)) eqn:E1; [|reflexivity].
  destruct (Qle_bool (date2num x) (snd (xlim a))) eqn:E2; [|reflexivity].
  apply Qle_bool_iff in E1, E2. exfalso.
  apply (Qlt_irrefl (fst (xlim a))).
  eapply Qle_lt_trans; [|exact H]. eapply Qle_trans; eassumption.
Qed.

Lemma annotations_app (a : Axes) (alignment : string) (d1 d2 : NamedDates) :
  annotations a alignment (d1 ++ d2)
  = annotations a alignment d1 ++ annotations a alignment d2.
Proof. apply flat_map_app. Qed.

Section MoreOnVlines.

Variable view_x view_y : (handle -> Axes) -> handle -> Q * Q.

(** X1.  Whatever the labels of the mapping, every text [plot_vlines]
    places is the shortened label and a line break: at most 20 characters
    before the line break. *)
Theorem label_texts_have_at_most_20_characters
    (ax vlines : handle) (alignment : string) (w : World) :
  valid_alignment alignment ->
  exists w' drawn,
    plot_vlines view_x view_y ax vlines alignment w = (Returned tt, w')
    /\ draws_on ax drawn w w'
    /\ Forall fits_label drawn.
Proof.
  intros Hal.
  destruct (@plot_vlines_valid view_x view_y ax vlines alignment w Hal)
    as ([] & w' & Hrun & Hdraw).
  exists w', (annotations (axes_of w ax) alignment (dict_of w vlines)).
  split; [exact Hrun|]. split; [exact Hdraw|]. apply annotations_fit.
Qed.

(** X2.  On a panel whose x limits are inverted (left above right)
    [plot_vlines] marks no date: it returns with the store as it was,
    whatever the mapping and whatever the alignment. *)
Theorem nothing_marked_on_an_inverted_axis
    (ax vlines : handle) (alignment : string) (w : World) :
  inverted_x (axes_of w ax) ->
  plot_vlines view_x view_y ax vlines alignment w = (Returned tt, w).
Proof.
  intros H. apply plot_vlines_out_of_range. intros item _.
  now apply inverted_out_of_range.
Qed.

(** X3.  Two calls of [plot_vlines] on a panel add up: the second call
    judges the dates by the same limits as the first and draws after it,
    so that the panel ends with what one call on the items of both
    mappings draws.  Nothing is drawn once only: a date of both mappings
    gets two markers. *)
Theorem annotating_twice_adds_up
    (ax d1 d2 : handle) (alignment : string) (w : World) :
  valid_alignment alignment ->
  exists w1 w2,
    plot_vlines view_x view_y ax d1 alignment w = (Returned tt, w1)
    /\ plot_vlines view_x view_y ax d2 alignment w1 = (Returned tt, w2)
    /\ draws_on ax (annotations (axes_of w ax) alignment
                                (dict_of w d1 ++ dict_of w d2)) w w2.
Proof.
  intros Hal.
  destruct (@plot_vlines_valid view_x view_y ax d1 alignment w Hal)
    as ([] & w1 & Hrun1 & Hdraw1).
  destruct (@plot_vlines_valid view_x view_y ax d2 alignment w1 Hal)
    as ([] & w2 & Hrun2 & Hdraw2).
  exists w1, w2. split; [exact Hrun1|]. split; [exact Hrun2|].
  rewrite annotations_app.
  assert (Hd : dict_of w1 d2 = dict_of w d2).
  { destruct Hdraw1 as (_ & _ & Hdata & _).
    unfold data_of in Hdata. injection Hdata as Hdict _ _ _ _.
    now rewrite Hdict. }
  rewrite Hd in Hdraw2.
  rewrite (annotations_ext (axes_of w1 ax) (axes_of w ax)) in Hdraw2.
  - exact (draws_on_trans Hdraw1 Hdraw2).
  - now rewrite (draws_on_axes Hdraw1).
  - now rewrite (draws_on_axes Hdraw1).
Qed.

End MoreOnVlines.

(** ** Labels of one long word, and labels of whitespace *)

Module textwrap_more.
Import textwrap textwrap_words textwrap_facts.

Lemma plain_not_whitespace (c : ascii) : plain_char c -> _whitespace c = false.
Proof.
  intros [H _]. destruct (_whitespace c) eqn:E; [|reflexivity].
  apply whitespace_isspace in E. congruence.
Qed.

Lemma word_end_plain (rest : text) :
  Forall plain_char rest -> forall prev, word_end prev rest = List.length rest.
Proof.
  induction 1 as [|c rest Hc Hrest IH]; intros prev; [reflexivity|].
  cbn [word_end hyphen_break]. destruct Hc as [Hs Hh]. rewrite Hh.
  cbn [andb]. rewrite (plain_not_whitespace (conj Hs Hh)).
  unfold ahead_em_dash. cbn [count_while]. rewrite Hh. cbn [Nat.leb andb].
  rewrite andb_false_r. cbn [List.length]. now rewrite IH.
Qed.

Lemma wordsep_match_plain (prev rest : text) :
  Forall plain_char rest -> wordsep_match prev rest = List.length rest.
Proof.
  intros H. destruct H as [|c rest Hc Hrest]; [reflexivity|].
  unfold wordsep_match. rewrite (plain_not_whitespace Hc).
  unfold ahead_em_dash. cbn [count_while]. destruct Hc as [Hs Hh]. rewrite Hh.
  cbn [Nat.leb andb]. rewrite andb_false_r.
  cbn [List.length]. now rewrite word_end_plain.
Qed.

Lemma split_plain (t : text) :
  t <> [] -> Forall plain_char t -> _split t = [t].
Proof.
  intros Hne H. unfold _split. destruct t as [|c t]; [congruence|].
  cbn [List.length split_from]. rewrite (wordsep_match_plain [] H).
  rewrite firstn_all, skipn_all. now destruct (List.length t).
Qed.

Lemma plain_nonspace (t : text) : Forall plain_char t -> nonspace t.
Proof. apply Forall_impl. now intros c [H _]. Qed.

Lemma nonspace_tidy (t : text) : nonspace t -> tidy t.
Proof. apply Forall_impl. intros c H. now right. Qed.

Lemma split_words_nonspace (s : text) :
  nonspace s -> forall cur,
    split_words cur s
    = match rev cur ++ s with [] => [] | _ => [rev cur ++ s] end.
Proof.
  induction 1 as [|c s Hc Hs IH]; intros cur.
  - cbn [split_words]. rewrite app_nil_r. destruct cur as [|c cur]; [reflexivity|].
    destruct (rev (c :: cur)) eqn:E; [|reflexivity].
    apply (f_equal (@List.length ascii)) in E. rewrite length_rev in E.
    discriminate E.
  - cbn [split_words]. rewrite Hc, IH. cbn [rev].
    rewrite <- app_assoc. reflexivity.
Qed.

Lemma lstrip_nonspace (t : text) : starts_nonspace t -> lstrip t = t.
Proof. destruct t as [|c t]; [reflexivity|]. simpl. now intros ->. Qed.

Lemma nonspace_starts (t : text) : nonspace t -> starts_nonspace t.
Proof. intros H. destruct H; [exact I|assumption]. Qed.

Lemma nonspace_rev (t : text) : nonspace t -> nonspace (rev t).
Proof. apply Forall_rev. Qed.

Lemma collapse_nonspace (t : text) : nonspace t -> collapse t = t.
Proof.
  intros H. unfold collapse, strip, rstrip.
  rewrite (@lstrip_nonspace t) by now apply nonspace_starts.
  rewrite (@lstrip_nonspace (rev t)) by now apply nonspace_starts, nonspace_rev.
  rewrite rev_involutive.
  unfold split. rewrite split_words_nonspace by exact H. cbn [rev app].
  now destruct t.
Qed.

Lemma find_last_hyphen_plain (t : text) :
  Forall plain_char t -> forall i stop, find_last_hyphen t i stop = None.
Proof.
  induction 1 as [|c t Hc Ht IH]; intros i stop; [reflexivity|].
  cbn [find_last_hyphen]. destruct (stop <=? i); [reflexivity|].
  rewrite IH. destruct Hc as [_ Hh]. now rewrite Hh.
Qed.

Lemma is_blank_nonspace (t : text) :
  t <> [] -> nonspace t -> is_blank t = false.
Proof. apply nonspace_nonblank. Qed.

(** One word of more than 20 characters: the first 20 are put on the
    line, the placeholder does not fit behind them, and the line is given
    up for the placeholder. *)
Lemma shorten_text_plain (t : text) :
  Forall plain_char t -> 20 < List.length t ->
  shorten_text t 20 dots = Returned dots.
Proof.
  intros Hp Hlen. pose proof (plain_nonspace Hp) as Hn.
  assert (Hne : t <> []).
  { intros E. rewrite E in Hlen. exact (Nat.nlt_0_r _ Hlen). }
  unfold shorten_text, fill, wrap, _split_chunks.
  rewrite (collapse_nonspace Hn), (munge_tidy _ (nonspace_tidy Hn)).
  rewrite (split_plain Hne Hp).
  assert (Hfirst : is_blank (firstn 20 t) = false).
  { apply is_blank_nonspace; [|now apply nonspace_firstn].
    apply firstn_nonempty; [lia|exact Hne]. }
  assert (Hrest : is_blank (skipn 20 t) = false).
  { apply is_blank_nonspace; [|now apply nonspace_skipn].
    apply skipn_nonempty. exact Hlen. }
  assert (Hbuild : build_line (mkTextWrapper 20 (Some 1) dots) [t]
                   = ([skipn 20 t], [firstn 20 t], 20)).
  { unfold build_line. cbn [fill_line width Nat.add].
    assert (E1 : (List.length t <=? 20) = false) by (apply Nat.leb_gt; lia).
    assert (E2 : (20 <? List.length t) = true) by (apply Nat.ltb_lt; lia).
    rewrite E1, E2. unfold _handle_long_word.
    change (20 <? 1) with false. cbv iota. rewrite Nat.sub_0_r, E2.
    rewrite (find_last_hyphen_plain Hp).
    unfold total_len. cbn [map list_sum]. rewrite length_firstn.
    rewrite Hfirst. f_equal. unfold list_sum. cbn [fold_right]. lia. }
  unfold _wrap_chunks. cbn [width max_lines placeholder].
  change (20 <=? 0) with false. cbv iota.
  change (20 <? List.length (lstrip dots)) with false. cbv iota.
  cbn [wrap_loop]. rewrite (is_blank_nonspace Hne Hn). cbn [andb].
  rewrite Hbuild. unfold line_allowed. cbn [max_lines List.length Nat.add].
  change (1 <? 1) with false. rewrite Hrest. cbn [orb andb].
  unfold truncated_lines. cbn [place_placeholder]. rewrite Hfirst.
  cbn [negb andb placeholder width]. 
  change (20 + List.length dots <=? 20) with false. cbv iota.
  reflexivity.
Qed.

Lemma lstrip_blank (t : text) :
  Forall (fun c => str_isspace c = true) t -> lstrip t = [].
Proof. induction 1 as [|c t Hc Ht IH]; [reflexivity|]. simpl. now rewrite Hc. Qed.

Lemma collapse_blank (t : text) :
  Forall (fun c => str_isspace c = true) t -> collapse t = [].
Proof. intros H. unfold collapse, strip. now rewrite (lstrip_blank H). Qed.

End textwrap_more.

Lemma shortened_unbroken (label : string) :
  unbroken label -> 20 < String.length label -> shortened label = "..."%string.
Proof.
  intros Hu Hlen. unfold shortened, textwrap.shorten.
  change (list_ascii_of_string "...") with textwrap_words.dots.
  rewrite textwrap_more.shorten_text_plain; [reflexivity|exact Hu|].
  now rewrite <- length_string_of_list_ascii, string_of_list_ascii_of_string.
Qed.

Lemma shortened_blank (label : string) :
  blank_label label -> shortened label = ""%string.
Proof.
  intros Hb.
  assert (Hc : collapsed label = ""%string).
  { unfold collapsed. now rewrite (textwrap_more.collapse_blank Hb). }
  rewrite shortened_short; [exact Hc|]. rewrite Hc. simpl. lia.
Qed.

Section LabelsOfOneWord.

Variable view_x view_y : (handle -> Axes) -> handle -> Q * Q.

Lemma label_drawn (ax vlines : handle) (alignment : string) (w : World)
    (x : Timestamp) (label : string) :
  valid_alignment alignment ->
  In (x, label) (dict_of w vlines) ->
  in_xrange (axes_of w ax) x = true ->
  exists w',
    plot_vlines view_x view_y ax vlines alignment w = (Returned tt, w')
    /\ In (Text x (label_y (axes_of w ax) alignment) (shortened label ++ nl)
                "gray" 90 "center" alignment)
          (artists (axes_of w' ax)).
Proof.
  intros Hal Hin Hr.
  destruct (@plot_vlines_valid view_x view_y ax vlines alignment w Hal)
    as ([] & w' & Hrun & Hdraw).
  exists w'. split; [exact Hrun|].
  rewrite (draws_on_axes Hdraw). simpl. apply in_or_app. right.
  change (Text x (label_y (axes_of w ax) alignment) (shortened label ++ nl)
               "gray" 90 "center" alignment)
    with (label_text (axes_of w ax) alignment (x, label)).
  now apply in_annotations.
Qed.

(** X4.  A label that is one word of more than 20 characters, without
    whitespace and without hyphen, is not cut to a prefix: the text that
    is placed holds the ellipsis only (and the line break). *)
Theorem long_word_label_is_drawn_as_ellipsis_only
    (ax vlines : handle) (alignment : string) (w : World) (x : Timestamp)
    (label : string) :
  valid_alignment alignment ->
  In (x, label) (dict_of w vlines) ->
  in_xrange (axes_of w ax) x = true ->
  unbroken label -> 20 < String.length label ->
  textwrap.shorten label 20 "..." = Returned "..."%string
  /\ exists w' y,
       plot_vlines view_x view_y ax vlines alignment w = (Returned tt, w')
       /\ In (Text x y ("..." ++ nl) "gray" 90 "center" alignment)
             (artists (axes_of w' ax)).
Proof.
  intros Hal Hin Hr Hu Hlen. split.
  - now rewrite shorten_returns, shortened_unbroken.
  - destruct (label_drawn ax vlines w x label Hal Hin Hr) as (w' & Hrun & Ht).
    exists w', (label_y (axes_of w ax) alignment). split; [exact Hrun|].
    now rewrite <- (shortened_unbroken Hu Hlen).
Qed.

(** X5.  A label of whitespace only is drawn like the empty label: the
    marker, and a text that holds the line break only. *)
Theorem blank_label_is_drawn_as_empty_text
    (ax vlines : handle) (alignment : string) (w : World) (x : Timestamp)
    (label : string) :
  valid_alignment alignment ->
  In (x, label) (dict_of w vlines) ->
  in_xrange (axes_of w ax) x = true ->
  blank_label label ->
  exists w' y,
    plot_vlines view_x view_y ax vlines alignment w = (Returned tt, w')
    /\ In (AxVLine x "gray" ":") (artists (axes_of w' ax))
    /\ In (Text x y nl "gray" 90 "center" alignment)
          (artists (axes_of w' ax)).
Proof.
  intros Hal Hin Hr Hb.
  destruct (@plot_vlines_valid view_x view_y ax vlines alignment w Hal)
    as ([] & w' & Hrun & Hdraw).
  exists w', (label_y (axes_of w ax) alignment). split; [exact Hrun|].
  rewrite (draws_on_axes Hdraw). simpl.
  assert (Hboth : forall art,
            In art [marker x; label_text (axes_of w ax) alignment (x, label)] ->
            In art (artists (axes_of w ax)
                    ++ annotations (axes_of w ax) alignment (dict_of w vlines))).
  { intros art Hart. apply in_or_app. right. unfold annotations.
    apply in_flat_map. exists (x, label). split; [exact Hin|].
    cbn [fst]. now rewrite Hr. }
  split.
  - apply Hboth. now left.
  - replace (Text x (label_y (axes_of w ax) alignment) nl "gray" 90 "center"
                  alignment)
      with (label_text (axes_of w ax) alignment (x, label)).
    + apply Hboth. right. now left.
    + unfold label_text. cbn [fst snd]. now rewrite (shortened_blank Hb).
Qed.

End LabelsOfOneWord.

(** ** Calls that fail *)

Lemma update_same {A : Type} (f : handle -> A) (h : handle) (a : A) :
  update f h a h = a.
Proof. unfold update. now rewrite Nat.eqb_refl. Qed.

Lemma update_other {A : Type} (f : handle -> A) (h h' : handle) (a : A) :
  h' <> h -> update f h a h' = f h'.
Proof. intros H. unfold update. now apply Nat.eqb_neq in H as ->. Qed.

Section Failures.

Variable view_x view_y : (handle -> Axes) -> handle -> Q * Q.
Variable component_panels : Prophet -> DataFrame -> list Axes.

(** X6.  With a model whose history is empty both forecast views raise
    [IndexError] at [index[0]], before anything is plotted.
    [plot_testcount_components] leaves the store as it was;
    [plot_testcount_forecast] too when it is given an axes, and otherwise
    it has made the new figure with its empty axes by then. *)
Theorem empty_history_raises_index_error
    (result m forecast holidays : handle) (ax : option handle) (w : World) :
  history (prophet_of w m) = [] ->
  (exists msg,
     plot_testcount_components view_x view_y component_panels m forecast
                               holidays w
     = (Raised (IndexError msg), w))
  /\ (exists msg w',
        plot_testcount_forecast view_x view_y result m forecast holidays ax w
        = (Raised (IndexError msg), w')
        /\ data_of w' = data_of w
        /\ match ax with
           | Some _ => w' = w
           | None =>
               axes_of w' = update (axes_of w) (next_axes w) new_axes
               /\ figure_of w' (next_figure w)
                  = mkFigure [next_axes w] false false
               /\ next_axes w' = S (next_axes w)
               /\ next_figure w' = S (next_figure w)
           end).
Proof.
  intros Hhist. split.
  - eexists.
    cbv [plot_testcount_components bind get_prophet get_frame first_date].
    rewrite Hhist. reflexivity.
  - destruct ax as [ax|].
    + eexists _, w.
      cbv [plot_testcount_forecast bind axes_or_new ret get_prophet get_frame
           first_date].
      rewrite Hhist. repeat split; reflexivity.
    + eexists _, _.
      cbv [plot_testcount_forecast bind axes_or_new new_figure add_subplot
           get_prophet get_frame first_date].
      cbn [prophet_of]. rewrite Hhist. split; [reflexivity|].
      cbn [axes_of figure_of next_axes next_figure fig_axes sharex tight].
      unfold update. rewrite Nat.eqb_refl. repeat split; reflexivity.
Qed.

(** X7.  When the figure of the components has fewer than two panels,
    [plot_testcount_components] raises [IndexError]: with no panel at
    [axs[0]], and with one panel at [axs[1]], when the x label of that
    panel is cleared and its lower y limit set.  No date is marked, and
    the axes there were before are as they were. *)
Theorem fewer_than_two_panels_raise_index_error
    (m forecast holidays : handle) (w : World) (first : Row) (more : DataFrame) :
  history (prophet_of w m) = first :: more ->
  List.length (component_panels (prophet_of w m)
                 (rows_from (ds first) (frame_of w forecast))) < 2 ->
  exists msg w',
    plot_testcount_components view_x view_y component_panels m forecast
                              holidays w
    = (Raised (IndexError msg), w')
    /\ data_of w' = data_of w
    /\ (forall h, h < next_axes w -> axes_of w' h = axes_of w h)
    /\ forall p,
         component_panels (prophet_of w m)
                          (rows_from (ds first) (frame_of w forecast)) = [p] ->
         artists (axes_of w' (next_axes w)) = artists p
         /\ xlabel (axes_of w' (next_axes w)) = EmptyString
         /\ ylim (axes_of w' (next_axes w)) = (0, snd (ylim p))%Q.
Proof.
  intros Hhist Hlen.
  destruct (component_panels (prophet_of w m)
              (rows_from (ds first) (frame_of w forecast)))
    as [|p [|p' ps]] eqn:Hpanels; [| |simpl in Hlen; lia].
  - eexists _, _.
    cbv [plot_testcount_components bind ret get_prophet get_frame first_date].
    rewrite Hhist. cbv [plot_components new_figure bind ret].
    cbn [prophet_of frame_of]. rewrite Hpanels.
    cbv [add_subplots bind ret get_figure for_each getitem raise].
    cbn [figure_of next_figure]. unfold update. rewrite Nat.eqb_refl.
    cbn [fig_axes nth_error].
    split; [reflexivity|]. split; [reflexivity|]. split; [reflexivity|].
    intros p Hp. discriminate Hp.
  - eexists _, _.
    cbv [plot_testcount_components bind ret get_prophet get_frame first_date].
    rewrite Hhist. cbv [plot_components new_figure bind ret].
    cbn [prophet_of frame_of]. rewrite Hpanels.
    cbv [add_subplots add_subplot bind ret get_figure].
    cbn [figure_of next_figure next_axes]. rewrite !update_same.
    cbn [fig_axes app].
    cbv [for_each bind ret set_xlabel modify_axes getitem raise set_ylim
         with_axes].
    cbn [nth_error axes_of].
    split; [reflexivity|]. split; [reflexivity|]. split.
    + intros h Hh. cbn [axes_of]. unfold update.
      destruct (h =? next_axes w) eqn:E; [apply Nat.eqb_eq in E; lia|].
      reflexivity.
    + intros q Hq. injection Hq as <-. cbn [axes_of]. unfold update.
      rewrite !Nat.eqb_refl. repeat split; reflexivity.
Qed.

End Failures.

(** ** More on the forecast view *)

Lemma bind_returned {A B : Type} (c : M A) (k : A -> M B) (w : World)
    (r : B) (w' : World) :
  bind c k w = (Returned r, w') ->
  exists a w1, c w = (Returned a, w1) /\ k a w1 = (Returned r, w').
Proof.
  unfold bind. destruct (c w) as [[a| |] w1]; intros H; try discriminate H.
  now exists a, w1.
Qed.

(** The next statement of a run that is known to return. *)
Ltac peel H a E :=
  let u := fresh "u" in
  apply bind_returned in H; destruct H as (a & u & E & H).

Lemma returns_inv {A : Type} (c : M A) (w : World) (P : A -> World -> Prop)
    (a : A) (w1 : World) :
  returns c w P -> c w = (Returned a, w1) -> P a w1.
Proof. intros (a' & w' & E & H) E1. rewrite E1 in E. now injection E as <- <-. Qed.

Lemma data_kept_series (w w' : World) :
  data_kept w w' -> series_of w' = series_of w.
Proof. now intros (_ & H & _). Qed.

Lemma in_xrange_iff (a : Axes) (x : Timestamp) :
  in_xrange a x = true
  <-> (fst (xlim a) <= date2num x)%Q /\ (date2num x <= snd (xlim a))%Q.
Proof.
  unfold in_xrange. rewrite andb_true_iff, !Qle_bool_iff. reflexivity.
Qed.

Lemma in_marker_dates (a : Axes) (alignment : string) (items : NamedDates)
    (x : Timestamp) :
  In x (marker_dates (annotations a alignment items))
  <-> In x (keys items) /\ in_xrange a x = true.
Proof. rewrite marker_dates_annotations, filter_In. reflexivity. Qed.

Lemma marker_in_annotations (a : Axes) (alignment : string)
    (items : NamedDates) (x : Timestamp) :
  In x (keys items) -> in_xrange a x = true ->
  In (AxVLine x "gray" ":") (annotations a alignment items).
Proof.
  intros Hin Hr. apply in_map_iff in Hin as ([x' label] & <- & Hin).
  unfold annotations. apply in_flat_map. exists (x', label).
  split; [exact Hin|]. cbn [fst] in *. rewrite Hr. now left.
Qed.

Section MoreOnForecast.

Variable view_x view_y : (handle -> Axes) -> handle -> Q * Q.

(** The markers of the forecast view are those of the limits the view
    ends with. *)
Lemma plot_testcount_forecast_marks (result m forecast holidays : handle)
    (ax : option handle) (w : World) (first : Row) (more : DataFrame) :
  history (prophet_of w m) = first :: more ->
  exists w',
    plot_testcount_forecast view_x view_y result m forecast holidays ax w
    = (Returned (forecast_axes ax w), w')
    /\ artists (axes_of w' (forecast_axes ax w))
       = forecast_initial ax w
         ++ [forecast_plot (prophet_of w m) (frame_of w forecast) (ds first)]
         ++ annotations (axes_of w' (forecast_axes ax w)) "bottom"
                        (dict_of w holidays)
         ++ forecast_legend (series_of w result)
    /\ fst (xlim (axes_of w' (forecast_axes ax w))) = date2num floor_date
    /\ fst (ylim (axes_of w' (forecast_axes ax w))) = 0%Q.
Proof.
  intros Hhist.
  assert (Hrun : returns
    (plot_testcount_forecast view_x view_y result m forecast holidays ax) w
    (fun h w' => h = forecast_axes ax w
       /\ artists (axes_of w' h)
          = forecast_initial ax w
            ++ [forecast_plot (prophet_of w m) (frame_of w forecast) (ds first)]
            ++ annotations (axes_of w' h) "bottom" (dict_of w holidays)
            ++ forecast_legend (series_of w result)
       /\ fst (xlim (axes_of w' h)) = date2num floor_date
       /\ fst (ylim (axes_of w' h)) = 0%Q)).
  { unfold plot_testcount_forecast.
    step axes_or_new_spec H0. destruct H0 as (-> & Hdata & Hinit).
    unfold data_of in Hdata. injection Hdata as Hdi _ Hse Hfr Hpr.
    set (h := forecast_axes ax w) in *.
    apply returns_bind. eexists _, _. split; [reflexivity|].
    apply returns_bind. eexists _, _. split; [reflexivity|].
    rewrite Hpr, Hfr.
    apply returns_bind. exists (ds first), v.
    split; [unfold first_date; now rewrite Hhist|].
    step_draw H1.
    step set_ylim_evolves H2. destruct H2 as (H2 & Hyauto & Hylim).
    step set_xlim_evolves H3. destruct H3 as (H3 & Hxauto & Hxlim).
    step plot_vlines_evolves H4; [now right|].
    apply returns_bind. eexists _, _. split; [reflexivity|].
    step_draw H5. step_draw H6. step_draw H7.
    step legend_evolves H8.
    step set_ylabel_evolves H9.
    step set_xlabel_evolves H10.
    apply returns_ret. split; [reflexivity|].
    pose proof (evolves_trans H5 (evolves_trans H6 (evolves_trans H7
                 (evolves_trans H8 (evolves_trans H9 H10))))) as Hlast.
    pose proof (evolves_trans H4 Hlast) as Hafter.
    pose proof (evolves_trans H1 (evolves_trans H2 H3)) as Hbefore.
    pose proof (evolves_trans Hbefore Hafter) as Hall.
    match type of Hafter with
    | evolves _ ?u ?z =>
        assert (Hdict : dict_of u = dict_of w)
          by (rewrite <- Hdi; now apply (ev_no_dict Hbefore));
        assert (Hyflag : autoscaley_on (axes_of u h) = false)
          by (rewrite (ev_yflag H3), Hyauto; [reflexivity|reflexivity]);
        assert (Hx : xlim (axes_of z h) = xlim (axes_of u h));
        [|assert (Hy : ylim (axes_of z h) = ylim (axes_of u h))]
    end.
    3: match type of H4 with
       | evolves _ _ ?u' =>
           assert (Hser : series_of u' = series_of w)
             by (rewrite <- Hse; exact (ev_series (evolves_trans Hbefore H4)))
       end.
    - apply (ev_xlim Hafter); [|now left].
      rewrite !xlim_kept_app, xlim_kept_map. reflexivity.
    - apply (ev_ylim Hafter); [|now left].
      rewrite !ylim_kept_app, ylim_kept_map. reflexivity.
    - split; [|split].
      + rewrite (ev_artists Hall), Hinit. f_equal.
        rewrite !drawn_on_app, drawn_on_map. simpl.
        rewrite !Nat.eqb_refl. simpl. rewrite Hser, Hdict.
        f_equal. f_equal.
        now rewrite (annotations_ext _ _ "bottom" (dict_of w holidays) Hx Hy).
      + now rewrite Hx, Hxlim.
      + rewrite Hy. rewrite (ev_ylim H3); [now rewrite Hylim| |now left].
        reflexivity. }
  destruct Hrun as (h & w' & Hr & -> & H).
  exists w'. split; [exact Hr|exact H].
Qed.

(** X8.  The forecast view marks exactly the holidays from 2020-03-01
    on, that day included, up to the right x limit the view ends with:
    the limits are set before the holidays are marked, and stay. *)
Theorem forecast_marks_the_holidays_from_the_floor_date_on
    (result m forecast holidays : handle) (ax : option handle) (w : World)
    (first : Row) (more : DataFrame) :
  history (prophet_of w m) = first :: more ->
  exists w' marks,
    plot_testcount_forecast view_x view_y result m forecast holidays ax w
    = (Returned (forecast_axes ax w), w')
    /\ artists (axes_of w' (forecast_axes ax w))
       = forecast_initial ax w
         ++ [ProphetPlot (prophet_of w m)
                         (rows_from (ds first) (frame_of w forecast))]
         ++ marks
         ++ forecast_legend (series_of w result)
    /\ marks = annotations (axes_of w' (forecast_axes ax w)) "bottom"
                           (dict_of w holidays)
    /\ forall x,
         In x (marker_dates marks)
         <-> In x (keys (dict_of w holidays))
             /\ (date2num (to_datetime 2020 3 1) <= date2num x)%Q
             /\ (date2num x <= snd (xlim (axes_of w' (forecast_axes ax w))))%Q.
Proof.
  intros Hhist.
  destruct (plot_testcount_forecast_marks result m forecast holidays ax w Hhist)
    as (w' & Hrun & Hart & Hx & _).
  exists w', (annotations (axes_of w' (forecast_axes ax w)) "bottom"
                          (dict_of w holidays)).
  split; [exact Hrun|]. split; [exact Hart|]. split; [reflexivity|].
  intros x. rewrite in_marker_dates, in_xrange_iff, Hx. reflexivity.
Qed.

(** X9.  The forecast view ends with the legend of its three entries
    (training data, prediction, result, in this order, in the upper left
    corner and without frame), the y label 'total tests' and an empty x
    label. *)
Theorem forecast_view_legend_and_labels
    (result m forecast holidays : handle) (ax : option handle) (w : World)
    (first : Row) (more : DataFrame) :
  history (prophet_of w m) = first :: more ->
  exists w',
    plot_testcount_forecast view_x view_y result m forecast holidays ax w
    = (Returned (forecast_axes ax w), w')
    /\ legend_ (axes_of w' (forecast_axes ax w))
       = Some (mkLegend
                 (Some [Scatter [] [] "black" "training data";
                        Line2D [] [] (Some "blue"%string)
                               (Some "prediction"%string);
                        Line2D (index (series_of w result))
                               (map Some (values (series_of w result)))
                               (Some "orange"%string) (Some "result"%string)])
                 "upper left" false)
    /\ ylabel (axes_of w' (forecast_axes ax w)) = "total tests"%string
    /\ xlabel (axes_of w' (forecast_axes ax w)) = EmptyString.
Proof.
  intros Hhist.
  destruct (plot_testcount_forecast_marks result m forecast holidays ax w Hhist)
    as (w' & Hrun & _).
  exists w'. split; [exact Hrun|].
  unfold plot_testcount_forecast in Hrun.
  peel Hrun h E0. peel Hrun mv E1. peel Hrun fv E2. peel Hrun t0 E3.
  peel Hrun r4 E4. peel Hrun r5 E5. peel Hrun r6 E6. peel Hrun r7 E7.
  peel Hrun s E8. peel Hrun h1 E9. peel Hrun h2 E10. peel Hrun h3 E11.
  assert (Hser : s = series_of w result).
  { pose proof (@read_only_axes_or_new _ _ _ _ E0) as K0.
    pose proof (@read_only_get_prophet _ _ _ _ E1) as K1.
    pose proof (@read_only_get_frame _ _ _ _ E2) as K2.
    pose proof (@read_only_first_date _ _ _ _ E3) as K3.
    pose proof (@read_only_draw view_x view_y _ _ _ _ _ E4) as K4.
    pose proof (@read_only_set_ylim _ _ _ _ _ _ E5) as K5.
    pose proof (@read_only_set_xlim _ _ _ _ _ _ E6) as K6.
    pose proof (@read_only_plot_vlines view_x view_y _ _ _ _ _ _ E7) as K7.
    injection E8 as <- <-.
    rewrite (data_kept_series K7), (data_kept_series K6),
      (data_kept_series K5), (data_kept_series K4), (data_kept_series K3),
      (data_kept_series K2), (data_kept_series K1), (data_kept_series K0).
    reflexivity. }
  assert (Hax : h = forecast_axes ax w).
  { destruct ax as [h'|]; cbv [axes_or_new ret bind new_figure add_subplot] in E0;
      injection E0 as <- _; reflexivity. }
  cbv [draw bind add_artist modify_axes autoscale ret] in E9, E10, E11.
  injection E9 as <- _. injection E10 as <- _. injection E11 as <- _.
  cbv [bind legend set_ylabel set_xlabel modify_axes ret] in Hrun.
  injection Hrun as _ <-. subst h s.
  cbn [axes_of with_axes]. rewrite !update_same.
  repeat split; reflexivity.
Qed.

End MoreOnForecast.

(** ** More on the components view *)

Lemma kept_outside_trans (ts : list handle) (w w1 w2 : World) :
  kept_outside ts w w1 -> kept_outside ts w1 w2 -> kept_outside ts w w2.
Proof.
  intros [H1 L1] [H2 L2]. split; intros h.
  - intros Hh. now rewrite H2, H1.
  - now rewrite L2, L1.
Qed.

Lemma kept_outside_refl (ts : list handle) (w : World) : kept_outside ts w w.
Proof. now split. Qed.

Lemma modify_kept (ts : list handle) (ax : handle) (f : Axes -> Axes)
    (w : World) (r : outcome unit) (w' : World) :
  In ax ts -> (forall a, xlabel (f a) = xlabel a) ->
  modify_axes ax f w = (r, w') -> kept_outside ts w w'.
Proof.
  intros Hin Hf E. cbv [modify_axes] in E. injection E as _ <-.
  split; intros h; cbn [axes_of with_axes]; unfold update.
  - intros Hh. destruct (h =? ax) eqn:Eh; [|reflexivity].
    apply Nat.eqb_eq in Eh. now subst h.
  - destruct (h =? ax) eqn:Eh; [|reflexivity].
    apply Nat.eqb_eq in Eh. subst h. apply Hf.
Qed.

Lemma without_xlabel_twice (a : Axes) :
  without_xlabel (without_xlabel a) = without_xlabel a.
Proof. reflexivity. Qed.

Lemma for_each_xlabel (axs : list handle) :
  forall w,
    returns (for_each axs (fun ax => set_xlabel ax "")) w
      (fun _ w' =>
         forall h, axes_of w' h
                   = if existsb (Nat.eqb h) axs
                     then without_xlabel (axes_of w h) else axes_of w h).
Proof.
  induction axs as [|ax axs IH]; intros w.
  - now apply returns_ret.
  - cbn [for_each]. apply returns_bind. eexists _, _. split; [reflexivity|].
    eapply returns_impl; [apply IH|]. intros [] w' H h. rewrite H.
    cbn [existsb axes_of with_axes]. unfold update.
    destruct (h =? ax) eqn:E; [apply Nat.eqb_eq in E; subst h|];
      match goal with
      | |- context [existsb ?g axs] => destruct (existsb g axs)
      end; reflexivity.
Qed.

Lemma existsb_seq (h n k : nat) :
  existsb (Nat.eqb h) (seq n k) = (n <=? h) && (h <? n + k).
Proof.
  apply eq_true_iff_eq.
  rewrite existsb_exists, andb_true_iff, Nat.leb_le, Nat.ltb_lt. split.
  - intros (x & Hx & E). apply Nat.eqb_eq in E. subst x.
    now apply in_seq in Hx.
  - intros H. exists h. split; [now apply in_seq|apply Nat.eqb_refl].
Qed.

(** Side conditions on the events: which limits are set, and whether the
    axes are rescaled. *)
Ltac kept E1 E2 :=
  repeat first [ rewrite xlim_kept_app | rewrite ylim_kept_app
               | rewrite rescaled_app | rewrite xlim_kept_map
               | rewrite ylim_kept_map | rewrite rescaled_map ];
  cbn [xlim_kept ylim_kept rescaled forallb existsb andb orb negb app];
  rewrite ?E1, ?E2, ?Nat.eqb_refl; reflexivity.

Section MoreOnComponents.

Variable view_x view_y : (handle -> Axes) -> handle -> Q * Q.
Variable component_panels : Prophet -> DataFrame -> list Axes.

Lemma plot_vlines_kept (ts : list handle) (ax d : handle) (w : World)
    (r : outcome unit) (w' : World) :
  In ax ts ->
  plot_vlines view_x view_y ax d "bottom" w = (r, w') ->
  kept_outside ts w w'.
Proof.
  intros Hin E.
  destruct (@plot_vlines_valid view_x view_y ax d "bottom" w) as ([] & w1 & E1 & H);
    [now right|].
  rewrite E in E1. injection E1 as _ ->. destruct H as (H & _).
  split; intros h; rewrite H.
  - intros Hh. destruct (h =? ax) eqn:Eh; [|reflexivity].
    apply Nat.eqb_eq in Eh. now subst h.
  - now destruct (h =? ax).
Qed.

(** What [plot_testcount_components] leaves of the panels of fbprophet. *)
Lemma plot_testcount_components_panels (m forecast holidays : handle)
    (w : World) (first : Row) (more : DataFrame) (p0 p1 : Axes)
    (ps : list Axes) :
  history (prophet_of w m) = first :: more ->
  component_panels (prophet_of w m)
                   (rows_from (ds first) (frame_of w forecast))
  = p0 :: p1 :: ps ->
  exists fig w',
    plot_testcount_components view_x view_y component_panels m forecast
                              holidays w
    = (Returned (fig, seq (next_axes w) (S (S (List.length ps)))), w')
    /\ (forall i, i < S (S (List.length ps)) ->
                  xlabel (axes_of w' (next_axes w + i)) = EmptyString)
    /\ (forall i p, nth_error ps i = Some p ->
                    axes_of w' (next_axes w + S (S i)) = without_xlabel p).
Proof.
  intros Hhist Hpanels.
  destruct (@plot_testcount_components_spec view_x view_y component_panels
              m forecast holidays w first more p0 p1 ps Hhist Hpanels)
    as (fig & w' & Hrun & _).
  exists fig, w'. split; [exact Hrun|].
  unfold plot_testcount_components in Hrun.
  peel Hrun mv E0. injection E0 as <- <-.
  peel Hrun fv E1. injection E1 as <- <-.
  peel Hrun t0 E2. unfold first_date in E2. rewrite Hhist in E2.
  injection E2 as <- <-.
  peel Hrun fg E3.
  pose proof (returns_inv (plot_components_spec component_panels _ _ w) E3)
    as (Hfig & Hax & _). rewrite Hpanels in Hfig, Hax.
  peel Hrun f E4. injection E4 as <- <-. rewrite Hfig in Hrun.
  set (n := next_axes w) in *. set (axs := seq n _) in *.
  peel Hrun r5 E5.
  pose proof (returns_inv (for_each_xlabel axs _) E5) as Hlab.
  cbv beta in Hlab.
  assert (Hrest : exists u', kept_outside [n; S n] u0 u'
                             /\ axes_of w' = axes_of u').
  { cbn [List.length seq] in axs. subst axs.
    peel Hrun a6 E6. injection E6 as <- <-.
    peel Hrun r7 E7. apply (modify_kept [n; S n]) in E7;
      [|now left|reflexivity].
    peel Hrun a8 E8. injection E8 as <- <-.
    peel Hrun r9 E9. apply (modify_kept [n; S n]) in E9;
      [|right; now left|reflexivity].
    peel Hrun a10 E10. injection E10 as <- <-.
    peel Hrun r11 E11. apply (plot_vlines_kept [n; S n]) in E11; [|now left].
    peel Hrun a12 E12. injection E12 as <- <-.
    peel Hrun d13 E13. injection E13 as <- <-.
    peel Hrun b14 E14. cbv [new_dict] in E14. injection E14 as <- <-.
    peel Hrun r15 E15. apply (plot_vlines_kept [n; S n]) in E15;
      [|right; now left].
    peel Hrun a16 E16. injection E16 as <- <-.
    peel Hrun r17 E17. apply (modify_kept [n; S n]) in E17;
      [|now left|reflexivity].
    peel Hrun a18 E18. injection E18 as <- <-.
    peel Hrun r19 E19. apply (modify_kept [n; S n]) in E19;
      [|right; now left|reflexivity].
    injection Hrun as _ <-.
    eexists. split; [|reflexivity].
    eapply kept_outside_trans; [exact E7|].
    eapply kept_outside_trans; [exact E9|].
    eapply kept_outside_trans; [exact E11|].
    eapply kept_outside_trans; [|eapply kept_outside_trans; [exact E17|exact E19]].
    destruct E15 as [K L]. split; intros h; [intros Hh; now rewrite K|apply L]. }
  destruct Hrest as (u' & [Hout Hlabel] & ->).
  split.
  - intros i Hi. rewrite Hlabel, Hlab. unfold axs. rewrite existsb_seq.
    cbn [List.length].
    replace (n <=? n + i) with true by (symmetry; apply Nat.leb_le; lia).
    replace (n + i <? n + S (S (List.length ps))) with true
      by (symmetry; apply Nat.ltb_lt; lia).
    reflexivity.
  - intros i p Hp.
    rewrite Hout by (simpl; lia). rewrite Hlab. unfold axs.
    rewrite existsb_seq. cbn [List.length].
    pose proof (proj1 (nth_error_Some ps i) ltac:(congruence)) as Hi.
    replace (n <=? n + S (S i)) with true by (symmetry; apply Nat.leb_le; lia).
    replace (n + S (S i) <? n + S (S (List.length ps))) with true
      by (symmetry; apply Nat.ltb_lt; lia).
    cbn [andb]. f_equal. apply (Hax (S (S i)) p). exact Hp.
Qed.

(** What [plot_testcount_components] leaves on the first two panels. *)
Lemma plot_testcount_components_first (m forecast holidays : handle)
    (w : World) (first : Row) (more : DataFrame) (p0 p1 : Axes)
    (ps : list Axes) :
  history (prophet_of w m) = first :: more ->
  component_panels (prophet_of w m)
                   (rows_from (ds first) (frame_of w forecast))
  = p0 :: p1 :: ps ->
  exists fig w',
    plot_testcount_components view_x view_y component_panels m forecast
                              holidays w
    = (Returned (fig, seq (next_axes w) (S (S (List.length ps)))), w')
    /\ artists (axes_of w' (next_axes w))
       = artists p0
         ++ annotations (first_panel p0) "bottom" (dict_of w holidays)
    /\ xlim (axes_of w' (next_axes w)) = (date2num floor_date, snd (xlim p0))
    /\ ylim (axes_of w' (next_axes w)) = (0%Q, snd (ylim p0))
    /\ xlim (axes_of w' (S (next_axes w)))
       = (date2num floor_date, snd (xlim p1))
    /\ ylim (axes_of w' (S (next_axes w))) = ((-1)%Q, snd (ylim p1)).
Proof.
  intros Hhist Hpanels.
  assert (Hrun : returns
    (plot_testcount_components view_x view_y component_panels m forecast
                               holidays) w
    (fun r w' =>
       snd r = seq (next_axes w) (S (S (List.length ps)))
       /\ artists (axes_of w' (next_axes w))
          = artists p0
            ++ annotations (first_panel p0) "bottom" (dict_of w holidays)
       /\ xlim (axes_of w' (next_axes w)) = (date2num floor_date, snd (xlim p0))
       /\ ylim (axes_of w' (next_axes w)) = (0%Q, snd (ylim p0))
       /\ xlim (axes_of w' (S (next_axes w)))
          = (date2num floor_date, snd (xlim p1))
       /\ ylim (axes_of w' (S (next_axes w))) = ((-1)%Q, snd (ylim p1)))).
  { unfold plot_testcount_components.
    apply returns_bind. eexists _, _. split; [reflexivity|].
    apply returns_bind. eexists _, _. split; [reflexivity|].
    apply returns_bind. exists (ds first), w.
    split; [unfold first_date; now rewrite Hhist|].
    step plot_components_spec H0. rewrite Hpanels in H0.
    destruct H0 as (Hfig & Hax & Hdata & Hnext).
    unfold data_of in Hdata. injection Hdata as Hdict _ _ _ _.
    pose proof (Hax 0 p0 eq_refl) as Hp0. rewrite Nat.add_0_r in Hp0.
    pose proof (Hax 1 p1 eq_refl) as Hp1. rewrite Nat.add_1_r in Hp1.
    set (n := next_axes w) in *.
    apply returns_bind. eexists _, _. split; [reflexivity|]. rewrite Hfig.
    simpl List.length. cbn [seq].
    step for_each_cosmetic H1.
    apply returns_bind. apply returns_ret.
    step set_ylim_evolves H2. destruct H2 as (H2 & _ & Hylim0).
    apply returns_bind. apply returns_ret.
    step set_ylim_evolves H3. destruct H3 as (H3 & _ & Hylim1).
    apply returns_bind. apply returns_ret.
    step plot_vlines_evolves H4; [now right|].
    apply returns_bind. apply returns_ret.
    apply returns_bind. eexists _, _. split; [reflexivity|].
    step new_dict_evolves H5. destruct H5 as (-> & _ & _ & H5).
    step plot_vlines_evolves H6; [now right|].
    apply returns_bind. apply returns_ret.
    step set_xlim_evolves H7. destruct H7 as (H7 & _ & Hxlim0).
    apply returns_bind. apply returns_ret.
    step set_xlim_evolves H8. destruct H8 as (H8 & _ & Hxlim1).
    apply returns_ret. split; [reflexivity|].
    assert (Hne : (n =? S n) = false) by (apply Nat.eqb_neq; lia).
    assert (Hne' : (S n =? n) = false) by (apply Nat.eqb_neq; lia).
    pose proof (evolves_trans H1 H2) as H12.
    pose proof (evolves_trans H12 H3) as H13.
    pose proof (evolves_trans H4 (evolves_trans H5 H6)) as H46.
    pose proof (evolves_trans H13 H46) as H16.
    pose proof (evolves_trans H16 H7) as H17.
    pose proof (evolves_trans H17 H8) as Hall.
    pose proof (evolves_trans H46 (evolves_trans H7 H8)) as H48.
    pose proof (evolves_trans H3 H48) as H38.
    destruct (ev_no_dict H13) as [Hd13 _]; [reflexivity|].
    rewrite Hd13, Hdict in H4, H46, H16, H17, Hall, H48, H38.
    (* the limits of the first panel when it is annotated *)
    match type of H4 with
    | evolves _ ?u _ =>
        assert (Hx4 : xlim (axes_of u n) = xlim p0);
        [|assert (Hy4 : ylim (axes_of u n) = (0%Q, snd (ylim p0)))]
    end.
    { rewrite (ev_xlim H13), Hp0; [reflexivity|kept Hne Hne'|right; kept Hne Hne']. }
    { rewrite (ev_ylim H3); [|kept Hne Hne'|right; kept Hne Hne'].
      rewrite Hylim0, (ev_ylim H1), Hp0;
        [reflexivity|kept Hne Hne'|right; kept Hne Hne']. }
    split; [|split; [|split; [|split]]].
    - rewrite (ev_artists Hall), Hp0. f_equal.
      rewrite !drawn_on_app, !drawn_on_map. cbn [drawn_on flat_map app].
      rewrite Hne', Nat.eqb_refl. rewrite ?app_nil_r. cbn [app].
      rewrite ?app_nil_r.
      apply annotations_ext; [exact Hx4|exact Hy4].
    - rewrite (ev_xlim H8); [|kept Hne Hne'|right; kept Hne Hne'].
      rewrite Hxlim0. f_equal.
      rewrite (ev_xlim H16), Hp0;
        [reflexivity|kept Hne Hne'|right; kept Hne Hne'].
    - rewrite (ev_ylim H38); [|kept Hne Hne'|right; kept Hne Hne'].
      rewrite Hylim0, (ev_ylim H1), Hp0;
        [reflexivity|kept Hne Hne'|right; kept Hne Hne'].
    - rewrite Hxlim1. f_equal.
      rewrite (ev_xlim H17), Hp1;
        [reflexivity|kept Hne Hne'|right; kept Hne Hne'].
    - rewrite (ev_ylim H48); [|kept Hne Hne'|right; kept Hne Hne'].
      rewrite Hylim1, (ev_ylim H12), Hp1;
        [reflexivity|kept Hne Hne'|right; kept Hne Hne']. }
  destruct Hrun as ([fig axs] & w' & Hr & Haxs & H). simpl in Haxs. subst axs.
  exists fig, w'. split; [exact Hr|exact H].
Qed.

(** X10.  In the components view the holidays are marked while the
    panels still have the x limits fbprophet gave them; the lower x limit
    of 2020-03-01 is set afterwards.  The first panel gets a marker and a
    label for every holiday within the limits of fbprophet, also for one
    before 2020-03-01, and both panels end with x limits that start at
    2020-03-01 and with lower y limits of 0 and -1. *)
Theorem components_are_marked_by_the_limits_of_fbprophet
    (m forecast holidays : handle) (w : World) (first : Row)
    (more : DataFrame) (p0 p1 : Axes) (ps : list Axes) :
  history (prophet_of w m) = first :: more ->
  component_panels (prophet_of w m)
                   (rows_from (ds first) (frame_of w forecast))
  = p0 :: p1 :: ps ->
  exists fig ax0 ax1 others w',
    plot_testcount_components view_x view_y component_panels m forecast
                              holidays w
    = (Returned (fig, ax0 :: ax1 :: others), w')
    /\ artists (axes_of w' ax0)
       = artists p0
         ++ annotations (first_panel p0) "bottom" (dict_of w holidays)
    /\ (forall x, In x (keys (dict_of w holidays)) ->
                  (fst (xlim p0) <= date2num x)%Q ->
                  (date2num x <= snd (xlim p0))%Q ->
                  In (AxVLine x "gray" ":") (artists (axes_of w' ax0)))
    /\ xlim (axes_of w' ax0) = (date2num (to_datetime 2020 3 1), snd (xlim p0))
    /\ ylim (axes_of w' ax0) = (0%Q, snd (ylim p0))
    /\ xlim (axes_of w' ax1) = (date2num (to_datetime 2020 3 1), snd (xlim p1))
    /\ ylim (axes_of w' ax1) = ((-1)%Q, snd (ylim p1)).
Proof.
  intros Hhist Hpanels.
  destruct (plot_testcount_components_first m forecast holidays w Hhist Hpanels)
    as (fig & w' & Hrun & Hart & Hx0 & Hy0 & Hx1 & Hy1).
  exists fig, (next_axes w), (S (next_axes w)),
         (seq (S (S (next_axes w))) (List.length ps)), w'.
  split; [exact Hrun|]. split; [exact Hart|].
  split; [|now repeat split].
  intros x Hin Hlo Hhi. rewrite Hart. apply in_or_app. right.
  apply marker_in_annotations; [exact Hin|].
  apply in_xrange_iff. now split.
Qed.

(** X11.  The components view clears the x label of every panel, and it
    leaves the panels after the second as fbprophet made them in
    everything else: their artists, limits, labels and legend. *)
Theorem further_panels_lose_their_x_label_only
    (m forecast holidays : handle) (w : World) (first : Row)
    (more : DataFrame) (p0 p1 : Axes) (ps : list Axes) :
  history (prophet_of w m) = first :: more ->
  component_panels (prophet_of w m)
                   (rows_from (ds first) (frame_of w forecast))
  = p0 :: p1 :: ps ->
  exists fig axs w',
    plot_testcount_components view_x view_y component_panels m forecast
                              holidays w
    = (Returned (fig, axs), w')
    /\ List.length axs = S (S (List.length ps))
    /\ (forall ax, In ax axs -> xlabel (axes_of w' ax) = EmptyString)
    /\ (forall i p, nth_error ps i = Some p ->
                    exists ax, nth_error axs (S (S i)) = Some ax
                               /\ axes_of w' ax = without_xlabel p).
Proof.
  intros Hhist Hpanels.
  destruct (plot_testcount_components_panels m forecast holidays w Hhist
              Hpanels)
    as (fig & w' & Hrun & Hlab & Hrest).
  exists fig, (seq (next_axes w) (S (S (List.length ps)))), w'.
  split; [exact Hrun|]. split; [apply length_seq|]. split.
  - intros ax Hax. apply in_seq in Hax.
    replace ax with (next_axes w + (ax - next_axes w)) by lia.
    apply Hlab. lia.
  - intros i p Hp. exists (next_axes w + S (S i)). split; [|now apply Hrest].
    pose proof (proj1 (nth_error_Some ps i) ltac:(congruence)) as Hi.
    rewrite (nth_error_nth' _ 0) by (rewrite length_seq; lia).
    rewrite seq_nth by lia. reflexivity.
Qed.

End MoreOnComponents.

(** ** More on the dashboard *)

Lemma fraction_bounds (k n : nat) :
  k <= n -> 0 < n ->
  (0 <= Z.of_nat k # Pos.of_nat n)%Q /\ (Z.of_nat k # Pos.of_nat n <= 1)%Q.
Proof.
  intros Hk Hn. unfold Qle. cbn [Qnum Qden].
  rewrite <- (positive_nat_Z (Pos.of_nat n)), Nat2Pos.id by lia. lia.
Qed.

Lemma probabilities_bounded (p : Posterior) :
  0 < nchain p * ndraw p -> Forall is_probability (probability_above_one p).
Proof.
  intros Hn. unfold probability_above_one. apply Forall_forall.
  intros v Hv. apply in_map_iff in Hv as (t & <- & _).
  rewrite mean_bool_map.
  - eexists. split; [reflexivity|]. rewrite length_draws_at.
    apply fraction_bounds; [|exact Hn].
    rewrite <- (length_draws_at p r_t t). apply filter_length_le.
  - intros E. apply (f_equal (@List.length Q)) in E.
    rewrite length_draws_at in E. simpl in E. lia.
Qed.

Lemma length_to_lists (a : Matrix) : List.length (to_lists a) = nrows a.
Proof. unfold to_lists. now rewrite length_map, length_seq. Qed.

Lemma in_to_lists (a : Matrix) (row : list Q) :
  In row (to_lists a) -> List.length row = ncols a.
Proof.
  unfold to_lists. intros H. apply in_map_iff in H as (i & <- & _).
  now rewrite length_map, length_seq.
Qed.

Lemma nth_to_lists (a : Matrix) (i j : nat) :
  i < nrows a -> j < ncols a ->
  nth j (nth i (to_lists a) []) 0%Q = cell a i j.
Proof.
  intros Hi Hj. unfold to_lists.
  rewrite (nth_indep _ [] (map (fun j => cell a i j) (seq 0 (ncols a))))
    by now rewrite length_map, length_seq.
  rewrite (map_nth (fun i => map (fun j => cell a i j) (seq 0 (ncols a)))
                   (seq 0 (nrows a)) i i).
  rewrite seq_nth by exact Hi. cbn [Nat.add].
  rewrite (nth_indep _ 0%Q (cell a i j))
    by now rewrite length_map, length_seq.
  rewrite (map_nth (fun j => cell a i j) (seq 0 (ncols a)) j j).
  now rewrite seq_nth.
Qed.

Lemma nth_error_middle {A : Type} (l r : list A) (x : A) :
  nth_error (l ++ x :: r) (List.length l) = Some x.
Proof. induction l as [|y l IH]; [reflexivity|exact IH]. Qed.

Lemma bind_cong {A B : Type} (c c' : M A) (k k' : A -> M B) (w : World) :
  c w = c' w ->
  (forall a w1, c' w = (Returned a, w1) -> k a w1 = k' a w1) ->
  bind c k w = bind c' k' w.
Proof.
  intros Hc Hk. unfold bind. rewrite Hc.
  destruct (c' w) as [[a| |] w1]; [now apply Hk|reflexivity|reflexivity].
Qed.

(** The same statement on both sides of an equation between two runs. *)
Ltac same a u E := apply bind_cong; [reflexivity|intros a u E].

Lemma truthy_empty (d : handle) (w : World) :
  dict_of w d = [] -> truthy (Some d) w = truthy None w.
Proof. intros H. cbv [truthy bind get_dict ret]. now rewrite H. Qed.

Lemma evolves_dicts (evs : list Event) (w w' : World) :
  evolves evs w w' -> allocated evs = false -> dict_of w' = dict_of w.
Proof. intros H E. now apply (ev_no_dict H). Qed.

Section MoreOnDashboard.

Variable view_x view_y : (handle -> Axes) -> handle -> Q * Q.
Variable get_scale_factor : InferenceData -> nat -> nat -> Q.

(** X12.  Every value of the probability line lies between 0 and 1, the
    y limits the panel is given, when the posterior holds a draw. *)
Theorem probabilities_lie_between_0_and_1
    (idata : handle) (vlines actual_tests : option handle)
    (fig : option handle) (axs : option (handle * handle * handle * handle))
    (w : World) :
  distinct_panels fig axs ->
  0 < nchain (posterior (idata_of w idata))
      * ndraw (posterior (idata_of w idata)) ->
  exists f a b c d w' probabilities,
    plot_density_curves view_x view_y get_scale_factor idata vlines
                        actual_tests fig axs w
    = (Returned (f, (a, b, c, d)), w')
    /\ artists (axes_of w' c)
       = initial_artists fig axs w c
         ++ [Line2D (date (posterior (idata_of w idata))) probabilities
                    None None]
    /\ ylim (axes_of w' c) = (0, 1)%Q
    /\ Forall is_probability probabilities.
Proof.
  intros Hd Hn.
  destruct (@plot_density_curves_spec view_x view_y get_scale_factor idata
              vlines actual_tests fig axs w Hd)
    as (f & a & b & c & d & w' & marks1 & marks2
        & Hrun & _ & _ & _ & _ & Hc & _ & Hy).
  exists f, a, b, c, d, w',
         (probability_above_one (posterior (idata_of w idata))).
  split; [exact Hrun|]. split; [exact Hc|]. split; [exact Hy|].
  now apply probabilities_bounded.
Qed.

(** X13.  The samples of a band of the curves panel are laid out as its
    dates are: there is one row per draw, chain after chain, every row has
    as many values as there are dates left after the first three, and the
    value at position j of the row of a draw is the scaled value of the
    draw at the date at position j, which is date j + 3 of the
    posterior. *)
Theorem band_samples_are_aligned_with_their_dates
    (idata : handle) (vlines actual_tests : option handle)
    (fig : option handle) (axs : option (handle * handle * handle * handle))
    (w : World) :
  distinct_panels fig axs ->
  let p := posterior (idata_of w idata) in
  exists f a b c d w',
    plot_density_curves view_x view_y get_scale_factor idata vlines
                        actual_tests fig axs w
    = (Returned (f, (a, b, c, d)), w')
    /\ forall v cmap, In (v, cmap) curve_bands ->
         exists x samples,
           In (GpDist x samples 0 (Some cmap) (Some (15 # 100)%Q))
              (artists (axes_of w' a))
           /\ List.length x = List.length (date p) - 3
           /\ (forall j, nth_error x j = nth_error (date p) (j + 3))
           /\ List.length samples = nchain p * ndraw p
           /\ (forall row, In row samples -> List.length row = List.length x)
           /\ (forall s j, s < nchain p * ndraw p -> j < List.length x ->
                 nth j (nth s samples []) 0%Q
                 = (var p v (s / ndraw p) (s mod ndraw p) (j + 3)
                    * get_scale_factor (idata_of w idata) (j + 3) s)%Q).
Proof.
  intros Hd p.
  destruct (@plot_density_curves_spec view_x view_y get_scale_factor idata
              vlines actual_tests fig axs w Hd)
    as (f & a & b & c & d & w' & marks1 & marks2
        & Hrun & _ & _ & Ha & _).
  exists f, a, b, c, d, w'. split; [exact Hrun|].
  intros v cmap Hv.
  exists (skipn 3 (date p)),
         (to_lists (skip_columns 3
                      (scaled_samples get_scale_factor (idata_of w idata) v))).
  assert (Hlen : List.length (skipn 3 (date p)) = List.length (date p) - 3)
    by apply length_skipn.
  split; [|split; [exact Hlen|split; [|split; [|split]]]].
  - rewrite Ha. apply in_or_app. right. apply in_or_app. left.
    unfold gp_curve. fold p.
    destruct Hv as [E|[E|[]]]; injection E as <- <-; simpl; auto.
  - intros j. rewrite nth_error_skipn. f_equal. lia.
  - rewrite length_to_lists. reflexivity.
  - intros row Hrow. apply in_to_lists in Hrow. rewrite Hrow, Hlen.
    reflexivity.
  - intros s j Hs Hj. rewrite Hlen in Hj.
    rewrite nth_to_lists; [reflexivity|exact Hs|exact Hj].
Qed.

(** X14.  The panels of the caller are used only when both the figure
    and the panels are given.  When one of them is missing the other is
    ignored: the dashboard is drawn into a new figure with four new
    panels, and no axes there was before gets an artist. *)
Theorem without_figure_or_panels_the_dashboard_is_new
    (idata : handle) (vlines actual_tests : option handle)
    (fig : option handle) (axs : option (handle * handle * handle * handle))
    (w : World) :
  fig = None \/ axs = None ->
  exists w',
    plot_density_curves view_x view_y get_scale_factor idata vlines
                        actual_tests fig axs w
    = (Returned (next_figure w,
                 (next_axes w, S (next_axes w), S (S (next_axes w)),
                  S (S (S (next_axes w))))), w')
    /\ forall h, h < next_axes w ->
                 artists (axes_of w' h) = artists (axes_of w h).
Proof.
  intros Hmissing.
  assert (Hp : panels fig axs w
               = (Returned (next_figure w,
                            (next_axes w, S (next_axes w), S (S (next_axes w)),
                             S (S (S (next_axes w))))),
                  snd (subplots4 w))).
  { destruct Hmissing as [-> | ->]; [|destruct fig]; reflexivity. }
  destruct (@plot_density_curves_run view_x view_y get_scale_factor idata
              vlines actual_tests fig axs w _ _ _ _ _ _ Hp eq_refl)
    as (marks1 & marks2 & marked & w1 & w' & Hrun & _ & _ & H1 & _ & _ & H2).
  exists w'. split; [exact Hrun|]. intros h Hh.
  set (n := next_axes w) in *.
  assert (E0 : (n =? h) = false) by (apply Nat.eqb_neq; lia).
  assert (E1 : (S n =? h) = false) by (apply Nat.eqb_neq; lia).
  assert (E2 : (S (S n) =? h) = false) by (apply Nat.eqb_neq; lia).
  assert (E3 : (S (S (S n)) =? h) = false) by (apply Nat.eqb_neq; lia).
  rewrite (ev_artists H2), (ev_artists H1).
  rewrite !drawn_on_app, !drawn_on_plotted, !drawn_on_map, drawn_on_optional,
    drawn_on_optional_dict, E0, E1, E2, E3.
  cbn [drawn_on flat_map app]. rewrite !app_nil_r.
  cbn [subplots4 bind new_figure add_subplot ret snd axes_of next_axes].
  unfold update. fold n.
  replace (h =? n) with false by (symmetry; apply Nat.eqb_neq; lia).
  replace (h =? S n) with false by (symmetry; apply Nat.eqb_neq; lia).
  replace (h =? S (S n)) with false by (symmetry; apply Nat.eqb_neq; lia).
  replace (h =? S (S (S n))) with false by (symmetry; apply Nat.eqb_neq; lia).
  reflexivity.
Qed.

(** X15.  Whatever panels the dashboard is given, also when the same
    axes is passed more than once, the panel of the reproduction number
    ends as the last statements leave it: y limits 0 and 2.5 that no
    longer rescale, the y label, a major tick every Monday, a minor tick
    every day, tick labels turned by 90 degrees; and the figure is laid
    out tight. *)
Theorem reproduction_number_panel_is_set_last
    (idata : handle) (vlines actual_tests : option handle)
    (fig : option handle) (axs : option (handle * handle * handle * handle))
    (w : World) :
  exists f a b c d w',
    plot_density_curves view_x view_y get_scale_factor idata vlines
                        actual_tests fig axs w
    = (Returned (f, (a, b, c, d)), w')
    /\ ylim (axes_of w' d) = (0, 5 # 2)%Q
    /\ autoscaley_on (axes_of w' d) = false
    /\ ylabel (axes_of w' d) = "$R_t$"%string
    /\ major_locator (axes_of w' d) = Some (WeekdayLocator 1 "MO")
    /\ minor_locator (axes_of w' d) = Some DayLocator
    /\ tick_rotation (axes_of w' d) = Some 90%Z
    /\ tight (figure_of w' f) = true.
Proof.
  destruct (@plot_density_curves_returns view_x view_y get_scale_factor idata
              vlines actual_tests fig axs w)
    as ([f [[[a b] c] d]] & w' & Hrun).
  exists f, a, b, c, d, w'. split; [exact Hrun|].
  unfold plot_density_curves in Hrun.
  peel Hrun r1 E1. destruct r1 as [f' [[[a' b'] c'] d']].
  peel Hrun r2 E2. peel Hrun r3 E3. peel Hrun r4 E4. peel Hrun r5 E5.
  peel Hrun r6 E6. peel Hrun r7 E7. peel Hrun r8 E8. peel Hrun r9 E9.
  peel Hrun r10 E10. peel Hrun r11 E11. peel Hrun r12 E12.
  peel Hrun r13 E13. peel Hrun r14 E14. peel Hrun r15 E15.
  peel Hrun r16 E16. peel Hrun r17 E17. peel Hrun r18 E18.
  peel Hrun r19 E19.
  cbv [bind set_ylabel set_locators set_ylim tight_layout modify_axes ret]
    in Hrun.
  injection Hrun as <- <- <- <- <- <-.
  cbn [axes_of figure_of with_axes]. rewrite !update_same.
  repeat split; reflexivity.
Qed.

Lemma draw_dicts (ax : handle) (art : Artist) (w : World) (r : Artist)
    (w' : World) :
  draw view_x view_y ax art w = (Returned r, w') -> dict_of w' = dict_of w.
Proof.
  intros E. destruct (returns_inv (draw_evolves view_x view_y ax art w) E)
    as [_ H].
  now apply (evolves_dicts H).
Qed.

Lemma modify_dicts (ax : handle) (f : Axes -> Axes) (w : World) (r : unit)
    (w' : World) :
  modify_axes ax f w = (Returned r, w') -> dict_of w' = dict_of w.
Proof. intros E. cbv [modify_axes] in E. now injection E as _ <-. Qed.

Lemma plot_curves_dicts (ax : handle) (idv : InferenceData)
    (factor : nat -> nat -> Q) (vars : list (PosteriorVar * string * Colormap)) :
  forall handles w r w',
    plot_curves view_x view_y ax idv factor vars handles w = (Returned r, w') ->
    dict_of w' = dict_of w.
Proof.
  induction vars as [|[[v label] cmap] vars IH]; intros handles w r w' E.
  - cbv [plot_curves ret] in E. now injection E as _ <-.
  - cbn [plot_curves] in E.
    peel E r1 E1. peel E r2 E2. apply IH in E.
    now rewrite E, (@draw_dicts _ _ _ _ _ E2), (@draw_dicts _ _ _ _ _ E1).
Qed.

Lemma panels_dicts (fig : option handle)
    (axs : option (handle * handle * handle * handle)) (w : World)
    (r : handle * (handle * handle * handle * handle)) (w' : World) :
  panels fig axs w = (Returned r, w') -> dict_of w' = dict_of w.
Proof.
  intros E. destruct (panels_spec view_x view_y fig axs w)
    as (f & a & b & c & d & w0 & Hp & Hdata & _).
  rewrite E in Hp. injection Hp as _ Hw. subst w0.
  unfold data_of in Hdata. now injection Hdata as -> _ _ _ _.
Qed.

(** X16.  An empty mapping of named dates counts as no mapping ([if
    vlines:]): the dashboard runs as it does without one, to the same
    result and the same store, and makes no mapping of blank labels. *)
Theorem empty_mapping_is_no_mapping
    (idata d : handle) (actual_tests : option handle)
    (fig : option handle) (axs : option (handle * handle * handle * handle))
    (w : World) :
  dict_of w d = [] ->
  plot_density_curves view_x view_y get_scale_factor idata (Some d)
                      actual_tests fig axs w
  = plot_density_curves view_x view_y get_scale_factor idata None
                        actual_tests fig axs w.
Proof.
  intros Hd. unfold plot_density_curves.
  same r1 w1 E1. destruct r1 as [f [[[a b] c] e]].
  pose proof (@panels_dicts _ _ _ _ _ E1) as D1.
  same r2 w2 E2. injection E2 as <- <-.
  same r3 w3 E3. pose proof (@plot_curves_dicts _ _ _ _ _ _ _ _ E3) as D3.
  same r4 w4 E4. pose proof (@modify_dicts _ _ _ _ _ E4) as D4.
  same r5 w5 E5. pose proof (@draw_dicts _ _ _ _ _ E5) as D5.
  apply bind_cong;
    [apply truthy_empty; now rewrite D5, D4, D3, D1|intros r6 w6 E6].
  injection E6 as <- <-.
  same r7 w7 E7. injection E7 as _ <-.
  same r8 w8 E8. pose proof (@modify_dicts _ _ _ _ _ E8) as D8.
  same r9 w9 E9. pose proof (@draw_dicts _ _ _ _ _ E9) as D9.
  same r10 w10 E10.
  assert (D10 : dict_of w10 = dict_of w9).
  { pose proof (returns_inv (actual_block view_x view_y _ actual_tests w9) E10)
      as H.
    apply (evolves_dicts H). now destruct actual_tests. }
  same r11 w11 E11. pose proof (@modify_dicts _ _ _ _ _ E11) as D11.
  apply bind_cong; [|reflexivity].
  apply truthy_empty. now rewrite D11, D10, D9, D8, D5, D4, D3, D1.
Qed.

Lemma truthy_exact (vlines : option handle) (w : World) :
  returns (truthy vlines) w
    (fun marked w' =>
       w' = w
       /\ marked = match vlines with
                   | Some d => match dict_of w d with
                               | [] => None
                               | _ :: _ => Some d
                               end
                   | None => None
                   end).
Proof.
  destruct vlines as [d|]; [|now apply returns_ret].
  unfold truthy. apply returns_bind. eexists _, w. split; [reflexivity|].
  destruct (dict_of w d); now apply returns_ret.
Qed.

Lemma marks_block_exact (ax : handle) (marked : option handle) (w : World) :
  returns (match marked with
           | Some d => plot_vlines view_x view_y ax d "bottom"
           | None => ret tt
           end) w
          (fun _ w' =>
             evolves (map (Drawn ax)
                          (annotations (axes_of w ax) "bottom"
                                       (named_dates marked w))) w w').
Proof.
  destruct marked as [d|].
  - apply plot_vlines_evolves. now right.
  - apply returns_ret. apply evolves_refl.
Qed.

Lemma blank_marks_block_exact (ax : handle) (marked : option handle)
    (w : World) :
  returns (match marked with
           | Some d =>
               bind (get_dict d) (fun items =>
               bind (new_dict (blank_items items)) (fun blanked =>
               plot_vlines view_x view_y ax blanked "bottom"))
           | None => ret tt
           end) w
          (fun _ w' =>
             evolves (optional_dict marked
                      ++ map (Drawn ax)
                             (annotations (axes_of w ax) "bottom"
                                          (blank_items (named_dates marked w))))
                     w w').
Proof.
  destruct marked as [d|].
  - apply returns_bind. eexists _, w. split; [reflexivity|].
    step new_dict_evolves H1. destruct H1 as (-> & Hd & Hax & H1).
    eapply returns_impl; [apply plot_vlines_evolves; now right|].
    intros [] w' H. rewrite Hd, Hax in H.
    exact (evolves_trans H1 H).
  - apply returns_ret. apply evolves_refl.
Qed.

Lemma named_dates_truthy (vlines : option handle) (w : World) :
  named_dates
    (match vlines with
     | Some d => match dict_of w d with [] => None | _ :: _ => Some d end
     | None => None
     end) w
  = named_dates vlines w.
Proof.
  destruct vlines as [d|]; [|reflexivity]. simpl.
  now destruct (dict_of w d) eqn:E; simpl; rewrite ?E.
Qed.

(** The markers of the dashboard: the curves panel is annotated with the
    named dates, the panel of the test counts with their blanked copy,
    each by the limits it has at that moment. *)
Lemma plot_density_curves_marks (idata : handle)
    (vlines actual_tests : option handle) (fig : option handle)
    (axs : option (handle * handle * handle * handle)) (w : World) :
  distinct_panels fig axs ->
  let idv := idata_of w idata in
  exists f a b c d w' pa pb,
    plot_density_curves view_x view_y get_scale_factor idata vlines
                        actual_tests fig axs w
    = (Returned (f, (a, b, c, d)), w')
    /\ artists (axes_of w' a)
       = initial_artists fig axs w a
         ++ [gp_curve get_scale_factor idv infections Reds;
             legend_patch Reds "infections";
             gp_curve get_scale_factor idv test_adjusted_positive Greens;
             legend_patch Greens "testing delay adjusted";
             observed_bars idv]
         ++ annotations pa "bottom" (named_dates vlines w)
    /\ artists (axes_of w' b)
       = initial_artists fig axs w b
         ++ [modeled_line idv]
         ++ match actual_tests with
            | Some s => [actual_bars (series_of w s)]
            | None => []
            end
         ++ annotations pb "bottom" (blank_items (named_dates vlines w)).
Proof.
  intros Hdistinct idv.
  destruct (panels_spec view_x view_y fig axs w)
    as (f & a & b & c & d & w0 & Hp & Hdata & Hnext & Hinit & Hnodup).
  destruct (nodup4 view_x view_y (Hnodup Hdistinct))
    as (Eab & Eac & Ead & Eba & Ebc & Ebd & Eca & Ecb & Ecd & Eda & Edb & Edc).
  unfold data_of in Hdata. injection Hdata as Hdi Hid Hse _ _.
  assert (Hrun : returns
    (plot_density_curves view_x view_y get_scale_factor idata vlines
                         actual_tests fig axs) w
    (fun r w' => r = (f, (a, b, c, d)) /\ exists pa pb,
       artists (axes_of w' a)
       = initial_artists fig axs w a
         ++ [gp_curve get_scale_factor idv infections Reds;
             legend_patch Reds "infections";
             gp_curve get_scale_factor idv test_adjusted_positive Greens;
             legend_patch Greens "testing delay adjusted";
             observed_bars idv]
         ++ annotations pa "bottom" (named_dates vlines w)
       /\ artists (axes_of w' b)
          = initial_artists fig axs w b
            ++ [modeled_line idv]
            ++ match actual_tests with
               | Some s => [actual_bars (series_of w s)]
               | None => []
               end
            ++ annotations pb "bottom" (blank_items (named_dates vlines w)))).
  { unfold plot_density_curves. apply returns_bind.
    exists (f, (a, b, c, d)), w0. split; [exact Hp|]. cbv beta iota.
    apply returns_bind. eexists _, w0. split; [reflexivity|].
    rewrite Hid. fold idv.
    apply returns_bind. cbn [plot_curves].
    step_draw H1. step_draw H2. step_draw H3. step_draw H4.
    apply returns_ret.
    step set_ylabel_evolves H5. step_draw H6.
    pose proof (evolves_trans H1 (evolves_trans H2 (evolves_trans H3
                 (evolves_trans H4 (evolves_trans H5 H6))))) as Ha.
    step truthy_exact Et1. destruct Et1 as [-> ->].
    match type of Ha with
    | evolves _ _ ?u =>
        assert (Hd1 : dict_of u = dict_of w)
          by (rewrite <- Hdi; now apply (evolves_dicts Ha));
        assert (Hn1 : named_dates vlines u = named_dates vlines w)
          by (destruct vlines; [simpl; now rewrite Hd1|reflexivity]);
        set (pa := axes_of u a)
    end.
    step marks_block_exact H7. fold pa in H7.
    step legend_evolves H8.
    step_draw H9.
    step actual_block H10.
    step legend_evolves H11.
    pose proof (evolves_trans H7 (evolves_trans H8 (evolves_trans H9
                 (evolves_trans H10 H11)))) as Hb.
    step truthy_exact Et2. destruct Et2 as [-> ->].
    match type of Hb with
    | evolves _ _ ?u =>
        assert (Hd2 : dict_of u = dict_of w)
          by (rewrite <- Hd1; apply (evolves_dicts Hb);
              rewrite !allocated_app, !allocated_map;
              now destruct actual_tests);
        assert (Hn2 : named_dates vlines u = named_dates vlines w)
          by (destruct vlines; [simpl; now rewrite Hd2|reflexivity]);
        set (pb := axes_of u b)
    end.
    step blank_marks_block_exact H12. fold pb in H12.
    step set_ylabel_evolves H13.
    step_draw H14.
    step set_ylim_evolves H15. destruct H15 as (H15 & _ & _).
    step set_ylabel_evolves H16.
    step_draw H17.
    step axhline_evolves H18.
    step set_ylabel_evolves H19.
    step set_locators_evolves H20.
    step set_locators_evolves H21.
    step set_locators_evolves H22.
    step set_ylim_evolves H23. destruct H23 as (H23 & _ & _).
    step tight_layout_evolves H24.
    apply returns_ret. split; [reflexivity|]. exists pa, pb.
    pose proof (evolves_trans H12 (evolves_trans H13 (evolves_trans H14
                 (evolves_trans H15 (evolves_trans H16 (evolves_trans H17
                 (evolves_trans H18 (evolves_trans H19 (evolves_trans H20
                 (evolves_trans H21 (evolves_trans H22
                 (evolves_trans H23 H24)))))))))))) as Hc.
    pose proof (evolves_trans Ha (evolves_trans Hb Hc)) as Hall.
    match type of H10 with evolves _ ?wk _ =>
      assert (Hser : series_of wk = series_of w)
        by (rewrite <- Hse; pose proof (ev_series Ha) as K1;
            pose proof (ev_series H7) as K2; pose proof (ev_series H8) as K3;
            pose proof (ev_series H9) as K4; congruence)
    end.
    rewrite Hser in Hall.
    rewrite !named_dates_truthy in Hall.
    split.
    - rewrite (ev_artists Hall), (Hinit a) by (simpl; auto). f_equal.
      unfold plotted.
      rewrite !drawn_on_app, !drawn_on_map, drawn_on_optional,
        drawn_on_optional_dict.
      cbn [drawn_on flat_map app].
      rewrite !Nat.eqb_refl, ?Eba, ?Eca, ?Eda. cbn [app].
      rewrite ?app_nil_r. rewrite Hn1. reflexivity.
    - rewrite (ev_artists Hall), (Hinit b) by (simpl; auto). f_equal.
      unfold plotted.
      rewrite !drawn_on_app, !drawn_on_map, drawn_on_optional,
        drawn_on_optional_dict.
      cbn [drawn_on flat_map app].
      rewrite !Nat.eqb_refl, ?Eab, ?Ecb, ?Edb. cbn [app].
      rewrite ?app_nil_r. rewrite Hn2.
      now destruct actual_tests. }
  destruct Hrun as (r & w' & Hr & -> & pa & pb & H).
  exists f, a, b, c, d, w', pa, pb. split; [exact Hr|exact H].
Qed.

(** X17.  The dashboard marks the named dates in two panels: in the
    curves panel with their labels, and in the panel of the test counts
    from a copy of the mapping with every label blanked, so that there
    each date within the limits gets a marker and a text that holds the
    line break only. *)
Theorem dashboard_marks_the_test_counts_without_labels
    (idata : handle) (vlines actual_tests : option handle)
    (fig : option handle) (axs : option (handle * handle * handle * handle))
    (w : World) :
  distinct_panels fig axs ->
  NoDup (keys (named_dates vlines w)) ->
  let idv := idata_of w idata in
  exists f a b c d w' pa pb,
    plot_density_curves view_x view_y get_scale_factor idata vlines
                        actual_tests fig axs w
    = (Returned (f, (a, b, c, d)), w')
    /\ artists (axes_of w' a)
       = initial_artists fig axs w a
         ++ [gp_curve get_scale_factor idv infections Reds;
             legend_patch Reds "infections";
             gp_curve get_scale_factor idv test_adjusted_positive Greens;
             legend_patch Greens "testing delay adjusted";
             observed_bars idv]
         ++ annotations pa "bottom" (named_dates vlines w)
    /\ artists (axes_of w' b)
       = initial_artists fig axs w b
         ++ [modeled_line idv]
         ++ match actual_tests with
            | Some s => [actual_bars (series_of w s)]
            | None => []
            end
         ++ bare_marks pb "bottom" (keys (named_dates vlines w)).
Proof.
  intros Hd Hn idv.
  destruct (plot_density_curves_marks idata vlines actual_tests fig axs w Hd)
    as (f & a & b & c & d & w' & pa & pb & Hrun & Ha & Hb).
  exists f, a, b, c, d, w', pa, pb.
  split; [exact Hrun|]. split; [exact Ha|]. rewrite Hb.
  rewrite (blank_items_nodup _ Hn).
  replace (map (fun item : Timestamp * string => (fst item, EmptyString))
               (named_dates vlines w))
    with (map (fun k : Timestamp => (k, EmptyString))
              (keys (named_dates vlines w)))
    by (unfold keys; now rewrite map_map).
  now rewrite annotations_blank.
Qed.

End MoreOnDashboard.

(** X1, on the scenario: the labels of the mapping of handle 2. *)
Lemma label_texts_have_at_most_20_characters_witness :
  valid_alignment "bottom"
  /\ exists w' drawn,
       plot_vlines fixed_view fixed_view 0 2 "bottom" example_world
       = (Returned tt, w')
       /\ draws_on 0 drawn example_world w'
       /\ Forall fits_label drawn.
Proof.
  assert (H : valid_alignment "bottom") by (now right).
  split; [exact H|].
  exact (@label_texts_have_at_most_20_characters fixed_view fixed_view 0 2
           "bottom" example_world H).
Defined.

(** X2, on the scenario with its x axis inverted. *)
Lemma nothing_marked_on_an_inverted_axis_witness :
  inverted_x (axes_of inverted_world 0)
  /\ plot_vlines fixed_view fixed_view 0 0 "middle" inverted_world
     = (Returned tt, inverted_world).
Proof.
  assert (H : inverted_x (axes_of inverted_world 0)) by reflexivity.
  split; [exact H|].
  exact (@nothing_marked_on_an_inverted_axis fixed_view fixed_view 0 0
           "middle" inverted_world H).
Defined.

(** X3, on the scenario: the mapping of handle 0, twice. *)
Lemma annotating_twice_adds_up_witness :
  valid_alignment "top"
  /\ exists w1 w2,
       plot_vlines fixed_view fixed_view 0 0 "top" example_world
       = (Returned tt, w1)
       /\ plot_vlines fixed_view fixed_view 0 0 "top" w1 = (Returned tt, w2)
       /\ draws_on 0
            [AxVLine (to_datetime 2020 3 1) "gray" ":";
             Text (to_datetime 2020 3 1) (0 + (98 # 100) * (100 - 0))%Q
                  ("lockdown" ++ nl) "gray" 90 "center" "top";
             AxVLine (to_datetime 2020 3 1) "gray" ":";
             Text (to_datetime 2020 3 1) (0 + (98 # 100) * (100 - 0))%Q
                  ("lockdown" ++ nl) "gray" 90 "center" "top"]
            example_world w2.
Proof.
  assert (H : valid_alignment "top") by (now left).
  split; [exact H|].
  exact (@annotating_twice_adds_up fixed_view fixed_view 0 0 0 "top"
           example_world H).
Defined.

(** ** The further properties on the scenario *)

(** X4, on the scenario: a word of 23 letters. *)
Lemma long_word_label_is_drawn_as_ellipsis_only_witness :
  valid_alignment "bottom"
  /\ In (to_datetime 2020 3 1, "Ausgangsbeschraenkungen"%string)
        (dict_of wordy_world 4)
  /\ in_xrange (axes_of wordy_world 0) (to_datetime 2020 3 1) = true
  /\ unbroken "Ausgangsbeschraenkungen"
  /\ 20 < String.length "Ausgangsbeschraenkungen"
  /\ textwrap.shorten "Ausgangsbeschraenkungen" 20 "..."
     = Returned "..."%string
  /\ exists w' y,
       plot_vlines fixed_view fixed_view 0 4 "bottom" wordy_world
       = (Returned tt, w')
       /\ In (Text (to_datetime 2020 3 1) y ("..." ++ nl) "gray" 90 "center"
                   "bottom")
             (artists (axes_of w' 0)).
Proof.
  assert (Hal : valid_alignment "bottom") by (now right).
  assert (Hin : In (to_datetime 2020 3 1, "Ausgangsbeschraenkungen"%string)
                   (dict_of wordy_world 4)) by (now left).
  assert (Hr : in_xrange (axes_of wordy_world 0) (to_datetime 2020 3 1) = true)
    by reflexivity.
  assert (Hu : unbroken "Ausgangsbeschraenkungen").
  { unfold unbroken. simpl.
    repeat (constructor; [split; reflexivity|]). constructor. }
  assert (Hlen : 20 < String.length "Ausgangsbeschraenkungen")
    by (simpl; lia).
  split; [exact Hal|]. split; [exact Hin|]. split; [exact Hr|].
  split; [exact Hu|]. split; [exact Hlen|].
  exact (@long_word_label_is_drawn_as_ellipsis_only fixed_view fixed_view 0 4
           "bottom" wordy_world (to_datetime 2020 3 1)
           "Ausgangsbeschraenkungen" Hal Hin Hr Hu Hlen).
Defined.

(** X5, on the scenario: a label of three spaces. *)
Lemma blank_label_is_drawn_as_empty_text_witness :
  valid_alignment "bottom"
  /\ In (to_datetime 2020 4 1, "   "%string) (dict_of wordy_world 4)
  /\ in_xrange (axes_of wordy_world 0) (to_datetime 2020 4 1) = true
  /\ blank_label "   "
  /\ exists w' y,
       plot_vlines fixed_view fixed_view 0 4 "bottom" wordy_world
       = (Returned tt, w')
       /\ In (AxVLine (to_datetime 2020 4 1) "gray" ":")
             (artists (axes_of w' 0))
       /\ In (Text (to_datetime 2020 4 1) y nl "gray" 90 "center" "bottom")
             (artists (axes_of w' 0)).
Proof.
  assert (Hal : valid_alignment "bottom") by (now right).
  assert (Hin : In (to_datetime 2020 4 1, "   "%string)
                   (dict_of wordy_world 4)) by (right; now left).
  assert (Hr : in_xrange (axes_of wordy_world 0) (to_datetime 2020 4 1) = true)
    by reflexivity.
  assert (Hb : blank_label "   ") by (repeat constructor).
  split; [exact Hal|]. split; [exact Hin|]. split; [exact Hr|].
  split; [exact Hb|].
  exact (@blank_label_is_drawn_as_empty_text fixed_view fixed_view 0 4
           "bottom" wordy_world (to_datetime 2020 4 1) "   " Hal Hin Hr Hb).
Defined.

(** X6, on the scenario with a model without history. *)
Lemma empty_history_raises_index_error_witness :
  history (prophet_of untrained_world 0) = []
  /\ (exists msg,
        plot_testcount_components fixed_view fixed_view two_panels 0 0 0
                                  untrained_world
        = (Raised (IndexError msg), untrained_world))
  /\ (exists msg w',
        plot_testcount_forecast fixed_view fixed_view 0 0 0 0 None
                                untrained_world
        = (Raised (IndexError msg), w')
        /\ data_of w' = data_of untrained_world
        /\ axes_of w' = update (axes_of untrained_world) 1 new_axes
        /\ figure_of w' 0 = mkFigure [1] false false
        /\ next_axes w' = 2
        /\ next_figure w' = 1).
Proof.
  assert (H : history (prophet_of untrained_world 0) = []) by reflexivity.
  split; [exact H|].
  exact (@empty_history_raises_index_error fixed_view fixed_view two_panels
           0 0 0 0 None untrained_world H).
Defined.

(** X7, on the scenario with a forecast of one component. *)
Lemma fewer_than_two_panels_raise_index_error_witness :
  history (prophet_of example_world 0)
  = mkRow (to_datetime 2020 2 1) [] :: [mkRow (to_datetime 2020 2 2) []]
  /\ List.length (one_panel (prophet_of example_world 0)
                    (rows_from (to_datetime 2020 2 1)
                               (frame_of example_world 0))) < 2
  /\ exists msg w',
       plot_testcount_components fixed_view fixed_view one_panel 0 0 0
                                 example_world
       = (Raised (IndexError msg), w')
       /\ data_of w' = data_of example_world
       /\ (forall h, h < 1 -> axes_of w' h = axes_of example_world h)
       /\ forall p, [spring_panel] = [p] ->
            artists (axes_of w' 1) = artists p
            /\ xlabel (axes_of w' 1) = EmptyString
            /\ ylim (axes_of w' 1) = (0%Q, snd (ylim p)).
Proof.
  assert (Hh : history (prophet_of example_world 0)
               = mkRow (to_datetime 2020 2 1) []
                 :: [mkRow (to_datetime 2020 2 2) []]) by reflexivity.
  assert (Hl : List.length (one_panel (prophet_of example_world 0)
                 (rows_from (ds (mkRow (to_datetime 2020 2 1) []))
                            (frame_of example_world 0))) < 2)
    by (simpl; lia).
  split; [exact Hh|]. split; [exact Hl|].
  exact (@fewer_than_two_panels_raise_index_error fixed_view fixed_view
           one_panel 0 0 0 example_world _ _ Hh Hl).
Defined.

(** X8, on the scenario: holidays on 2020-02-14, 2020-03-01 and
    2020-04-12. *)
Lemma forecast_marks_the_holidays_from_the_floor_date_on_witness :
  history (prophet_of holiday_world 0)
  = mkRow (to_datetime 2020 2 1) [] :: [mkRow (to_datetime 2020 2 2) []]
  /\ exists w' marks,
       plot_testcount_forecast fixed_view fixed_view 0 0 0 5 (Some 0)
                               holiday_world
       = (Returned 0, w')
       /\ artists (axes_of w' 0)
          = [] ++ [ProphetPlot example_model
                     (rows_from (to_datetime 2020 2 1) example_forecast)]
            ++ marks
            ++ forecast_legend [(to_datetime 2020 3 1, 120%Q)]
       /\ marks = annotations (axes_of w' 0) "bottom" winter_events
       /\ forall x,
            In x (marker_dates marks)
            <-> In x (keys winter_events)
                /\ (date2num (to_datetime 2020 3 1) <= date2num x)%Q
                /\ (date2num x <= snd (xlim (axes_of w' 0%nat)))%Q.
Proof.
  assert (Hh : history (prophet_of holiday_world 0)
               = mkRow (to_datetime 2020 2 1) []
                 :: [mkRow (to_datetime 2020 2 2) []]) by reflexivity.
  split; [exact Hh|].
  exact (@forecast_marks_the_holidays_from_the_floor_date_on fixed_view
           fixed_view 0 0 0 5 (Some 0) holiday_world _ _ Hh).
Defined.

(** X9, on the scenario. *)
Lemma forecast_view_legend_and_labels_witness :
  history (prophet_of holiday_world 0)
  = mkRow (to_datetime 2020 2 1) [] :: [mkRow (to_datetime 2020 2 2) []]
  /\ exists w',
       plot_testcount_forecast fixed_view fixed_view 0 0 0 5 None
                               holiday_world
       = (Returned 1, w')
       /\ legend_ (axes_of w' 1)
          = Some (mkLegend
                    (Some [Scatter [] [] "black" "training data";
                           Line2D [] [] (Some "blue"%string)
                                  (Some "prediction"%string);
                           Line2D [to_datetime 2020 3 1] [Some 120%Q]
                                  (Some "orange"%string)
                                  (Some "result"%string)])
                    "upper left" false)
       /\ ylabel (axes_of w' 1) = "total tests"%string
       /\ xlabel (axes_of w' 1) = EmptyString.
Proof.
  assert (Hh : history (prophet_of holiday_world 0)
               = mkRow (to_datetime 2020 2 1) []
                 :: [mkRow (to_datetime 2020 2 2) []]) by reflexivity.
  split; [exact Hh|].
  exact (@forecast_view_legend_and_labels fixed_view fixed_view 0 0 0 5 None
           holiday_world _ _ Hh).
Defined.

(** X10, on the scenario: the holiday of 2020-02-14 is marked in the
    first panel, which then starts at 2020-03-01. *)
Lemma components_are_marked_by_the_limits_of_fbprophet_witness :
  history (prophet_of holiday_world 0)
  = mkRow (to_datetime 2020 2 1) [] :: [mkRow (to_datetime 2020 2 2) []]
  /\ three_panels (prophet_of holiday_world 0)
                  (rows_from (to_datetime 2020 2 1) (frame_of holiday_world 0))
     = spring_panel :: spring_panel :: [new_axes]
  /\ exists fig ax0 ax1 others w',
       plot_testcount_components fixed_view fixed_view three_panels 0 0 5
                                 holiday_world
       = (Returned (fig, ax0 :: ax1 :: others), w')
       /\ artists (axes_of w' ax0)
          = artists spring_panel
            ++ annotations (first_panel spring_panel) "bottom" winter_events
       /\ (forall x, In x (keys winter_events) ->
                     (fst (xlim spring_panel) <= date2num x)%Q ->
                     (date2num x <= snd (xlim spring_panel))%Q ->
                     In (AxVLine x "gray" ":") (artists (axes_of w' ax0)))
       /\ xlim (axes_of w' ax0)
          = (date2num (to_datetime 2020 3 1), snd (xlim spring_panel))
       /\ ylim (axes_of w' ax0) = (0%Q, snd (ylim spring_panel))
       /\ xlim (axes_of w' ax1)
          = (date2num (to_datetime 2020 3 1), snd (xlim spring_panel))
       /\ ylim (axes_of w' ax1) = ((-1)%Q, snd (ylim spring_panel)).
Proof.
  assert (Hh : history (prophet_of holiday_world 0)
               = mkRow (to_datetime 2020 2 1) []
                 :: [mkRow (to_datetime 2020 2 2) []]) by reflexivity.
  assert (Hp : three_panels (prophet_of holiday_world 0)
                 (rows_from (ds (mkRow (to_datetime 2020 2 1) []))
                            (frame_of holiday_world 0))
               = spring_panel :: spring_panel :: [new_axes]) by reflexivity.
  split; [exact Hh|]. split; [exact Hp|].
  exact (@components_are_marked_by_the_limits_of_fbprophet fixed_view
           fixed_view three_panels 0 0 5 holiday_world _ _ _ _ _ Hh Hp).
Defined.

(** X11, on the scenario: the third panel. *)
Lemma further_panels_lose_their_x_label_only_witness :
  history (prophet_of holiday_world 0)
  = mkRow (to_datetime 2020 2 1) [] :: [mkRow (to_datetime 2020 2 2) []]
  /\ three_panels (prophet_of holiday_world 0)
                  (rows_from (to_datetime 2020 2 1) (frame_of holiday_world 0))
     = spring_panel :: spring_panel :: [new_axes]
  /\ exists fig axs w',
       plot_testcount_components fixed_view fixed_view three_panels 0 0 5
                                 holiday_world
       = (Returned (fig, axs), w')
       /\ List.length axs = 3
       /\ (forall ax, In ax axs -> xlabel (axes_of w' ax) = EmptyString)
       /\ (forall i p, nth_error [new_axes] i = Some p ->
                       exists ax, nth_error axs (S (S i)) = Some ax
                                  /\ axes_of w' ax = without_xlabel p).
Proof.
  assert (Hh : history (prophet_of holiday_world 0)
               = mkRow (to_datetime 2020 2 1) []
                 :: [mkRow (to_datetime 2020 2 2) []]) by reflexivity.
  assert (Hp : three_panels (prophet_of holiday_world 0)
                 (rows_from (ds (mkRow (to_datetime 2020 2 1) []))
                            (frame_of holiday_world 0))
               = spring_panel :: spring_panel :: [new_axes]) by reflexivity.
  split; [exact Hh|]. split; [exact Hp|].
  exact (@further_panels_lose_their_x_label_only fixed_view fixed_view
           three_panels 0 0 5 holiday_world _ _ _ _ _ Hh Hp).
Defined.

(** X12, on the scenario. *)
Lemma probabilities_lie_between_0_and_1_witness :
  distinct_panels None None
  /\ 0 < nchain example_posterior * ndraw example_posterior
  /\ exists f a b c d w' probabilities,
       plot_density_curves fixed_view fixed_view unit_scale 0 None None
                           None None example_world
       = (Returned (f, (a, b, c, d)), w')
       /\ artists (axes_of w' c)
          = [] ++ [Line2D (date example_posterior) probabilities None None]
       /\ ylim (axes_of w' c) = (0, 1)%Q
       /\ Forall is_probability probabilities.
Proof.
  assert (Hn : 0 < nchain example_posterior * ndraw example_posterior)
    by (simpl; lia).
  split; [exact I|]. split; [exact Hn|].
  exact (@probabilities_lie_between_0_and_1 fixed_view fixed_view unit_scale
           0 None None None None example_world I Hn).
Defined.

(** X13, on the scenario: five dates, two chains of two draws. *)
Lemma band_samples_are_aligned_with_their_dates_witness :
  distinct_panels None None
  /\ exists f a b c d w',
       plot_density_curves fixed_view fixed_view unit_scale 0 None None
                           None None example_world
       = (Returned (f, (a, b, c, d)), w')
       /\ forall v cmap, In (v, cmap) curve_bands ->
            exists x samples,
              In (GpDist x samples 0 (Some cmap) (Some (15 # 100)%Q))
                 (artists (axes_of w' a))
              /\ List.length x = 2
              /\ (forall j, nth_error x j
                            = nth_error (date example_posterior) (j + 3))
              /\ List.length samples = 4
              /\ (forall row, In row samples ->
                              List.length row = List.length x)
              /\ (forall s j, s < 4 -> j < List.length x ->
                    nth j (nth s samples []) 0%Q
                    = (var example_posterior v (s / 2) (s mod 2) (j + 3)
                       * unit_scale example_idata (j + 3) s)%Q).
Proof.
  split; [exact I|].
  exact (@band_samples_are_aligned_with_their_dates fixed_view fixed_view
           unit_scale 0 None None None None example_world I).
Defined.

(** X14, on the scenario: panels without a figure. *)
Lemma without_figure_or_panels_the_dashboard_is_new_witness :
  (@None handle = None \/ Some (0, 0, 0, 0) = None)
  /\ exists w',
       plot_density_curves fixed_view fixed_view unit_scale 0 None None
                           None (Some (0, 0, 0, 0)) example_world
       = (Returned (0, (1, 2, 3, 4)), w')
       /\ forall h, h < 1 ->
            artists (axes_of w' h) = artists (axes_of example_world h).
Proof.
  assert (H : @None handle = None \/ Some (0, 0, 0, 0) = None) by (now left).
  split; [exact H|].
  exact (@without_figure_or_panels_the_dashboard_is_new fixed_view fixed_view
           unit_scale 0 None None None (Some (0, 0, 0, 0)) example_world H).
Defined.

(** X16, on the scenario: the empty mapping of handle 9. *)
Lemma empty_mapping_is_no_mapping_witness :
  dict_of example_world 9 = []
  /\ plot_density_curves fixed_view fixed_view unit_scale 0 (Some 9) None
                         None None example_world
     = plot_density_curves fixed_view fixed_view unit_scale 0 None None
                           None None example_world.
Proof.
  assert (H : dict_of example_world 9 = []) by reflexivity.
  split; [exact H|].
  exact (@empty_mapping_is_no_mapping fixed_view fixed_view unit_scale 0 9
           None None None example_world H).
Defined.

(** X17, on the scenario: the mapping of handle 0. *)
Lemma dashboard_marks_the_test_counts_without_labels_witness :
  distinct_panels None None
  /\ NoDup (keys (named_dates (Some 0) example_world))
  /\ exists f a b c d w' pa pb,
       plot_density_curves fixed_view fixed_view unit_scale 0 (Some 0) None
                           None None example_world
       = (Returned (f, (a, b, c, d)), w')
       /\ artists (axes_of w' a)
          = [] ++ [gp_curve unit_scale example_idata infections Reds;
                   legend_patch Reds "infections";
                   gp_curve unit_scale example_idata test_adjusted_positive
                            Greens;
                   legend_patch Greens "testing delay adjusted";
                   observed_bars example_idata]
            ++ annotations pa "bottom" events
       /\ artists (axes_of w' b)
          = [] ++ [modeled_line example_idata] ++ []
            ++ bare_marks pb "bottom"
                 [to_datetime 2020 3 1; to_datetime 2020 12 25].
Proof.
  assert (Hn : NoDup (keys (named_dates (Some 0) example_world))).
  { repeat constructor; simpl; intuition discriminate. }
  split; [exact I|]. split; [exact Hn|].
  exact (@dashboard_marks_the_test_counts_without_labels fixed_view fixed_view
           unit_scale 0 (Some 0) None None None example_world I Hn).
Defined.
